(** * Kaizen-Gym access gate: a shallow embedding of the Python sources

    The development follows the layout of the repository:

    - [Py]                 the fragment of Python the sources rely on
                           (values, truthiness, [str.strip], [bytes.hex],
                           [bytes.fromhex], exceptions, a state/exception monad);
    - [Datetime]           [datetime] values, [strptime] with the format
                           [%Y-%m-%d], [strftime], ordering and subtraction;
    - [ZK]                 the device client the managers receive as [conn];
    - [TemplateManager]    src/template_manager.py;
    - [MembershipManager]  src/membership_manager.py;
    - [AutoBlockManager]   src/auto_block_manager.py;
    - [GymforceAPI]        src/gymforce_api.py;
    - [ZKListener]         src/zk_listener.py (polling path).

    Strings are sequences of code points below 256; an [ascii] is one code
    point.  Dictionaries are [gmap]s.  Everything outside the process (the
    device, the wall clock, the remote service, the file system) is either a
    parameter of a section or a log kept in the state. *)

From Stdlib Require Import ZArith Lia Ascii String DecimalString.
From Stdlib.Strings Require Import Byte.
From stdpp Require Import gmap strings list sorting.

Local Open Scope string_scope.
Local Open Scope list_scope.
Local Open Scope Z_scope.

(* ===================================================================== *)
(** ** Python values, strings and bytes                                  *)
(* ===================================================================== *)

Module Py.

(** Values stored in the JSON documents the managers keep in memory
    (floats and nested containers do not occur in the fields modelled). *)
Inductive pyval :=
| VNone
| VBool (b : bool)
| VInt (z : Z)
| VStr (s : string).

#[global] Instance pyval_eq_dec : EqDecision pyval.
Proof. solve_decision. Defined.

(** [bool(v)]. *)
Definition truthy (v : pyval) : bool :=
  match v with
  | VNone => false
  | VBool b => b
  | VInt z => negb (z =? 0)
  | VStr s => negb (String.eqb s "")
  end.

(** [d.get(k)] yields [None] for a missing key; [not d.get(k)]. *)
Definition get_falsy (o : option pyval) : bool :=
  match o with
  | None => true
  | Some v => negb (truthy v)
  end.

(** A Python [dict] with string keys. *)
Abbreviation dict := (gmap string pyval).

(** [str(n)] for an [int]. *)
Definition str_int (z : Z) : string := NilZero.string_of_int (Z.to_int z).

(** [str(v)], as an f-string renders a stored value. *)
Definition py_str (v : pyval) : string :=
  match v with
  | VNone => "None"
  | VBool true => "True"
  | VBool false => "False"
  | VInt z => str_int z
  | VStr s => s
  end.

(** [d.get(k) == s] for a string [s]. *)
Definition get_is (d : gmap string pyval) (k s : string) : bool :=
  bool_decide (d !! k = Some (VStr s)).

(** One code point as a string. *)
Definition chr (n : nat) : string := String (ascii_of_nat n) EmptyString.

Definition code (a : ascii) : nat := nat_of_ascii a.

(** [ch.isspace()] on code points below 256. *)
Definition isspace (a : ascii) : bool :=
  let n := code a in
  ((9 <=? n) && (n <=? 13) || (28 <=? n) && (n <=? 32)
   || (n =? 133) || (n =? 160))%nat.

Fixpoint lstrip (s : string) : string :=
  match s with
  | String a r => if isspace a then lstrip r else s
  | EmptyString => EmptyString
  end.

Fixpoint rstrip (s : string) : string :=
  match s with
  | EmptyString => EmptyString
  | String a r =>
      match rstrip r with
      | EmptyString => if isspace a then EmptyString else String a EmptyString
      | r' => String a r'
      end
  end.

(** [s.strip()]. *)
Definition strip (s : string) : string := rstrip (lstrip s).

(** *** [bytes.hex] and [bytes.fromhex] *)

Definition hex_digit (n : N) : ascii :=
  ascii_of_N (if (n <? 10)%N then 48 + n else 87 + n)%N.

Definition hex_byte (b : byte) : string :=
  let n := Byte.to_N b in
  String (hex_digit (n / 16)%N) (String (hex_digit (n mod 16)%N) EmptyString).

(** [b.hex()]: two lower-case digits per byte. *)
Fixpoint hex (bs : list byte) : string :=
  match bs with
  | [] => EmptyString
  | b :: r => hex_byte b +:+ hex r
  end.

Definition unhex_digit (a : ascii) : option N :=
  let n := N_of_ascii a in
  if ((48 <=? n) && (n <=? 57))%N then Some (n - 48)%N
  else if ((97 <=? n) && (n <=? 102))%N then Some (n - 87)%N
  else if ((65 <=? n) && (n <=? 70))%N then Some (n - 55)%N
  else None.

(** [Py_ISSPACE]: the separators [bytes.fromhex] skips between bytes. *)
Definition c_isspace (a : ascii) : bool :=
  let n := code a in ((9 <=? n) && (n <=? 13) || (n =? 32))%nat.

(** [bytes.fromhex(s)]; [None] stands for the [ValueError]. *)
Fixpoint fromhex (s : string) : option (list byte) :=
  match s with
  | EmptyString => Some []
  | String a r =>
      if c_isspace a then fromhex r
      else
        match r with
        | EmptyString => None
        | String b r' =>
            match unhex_digit a, unhex_digit b with
            | Some hi, Some lo =>
                match Byte.of_N (16 * hi + lo), fromhex r' with
                | Some x, Some xs => Some (x :: xs)
                | _, _ => None
                end
            | _, _ => None
            end
        end
  end.

(** *** Exceptions and the state/exception monad *)

(** The exceptions the modelled code can meet.  [External] is anything
    raised by a collaborator (device client, HTTP client, JSON decoder). *)
Inductive exn :=
| ValueError_format (s : string)        (* strptime: no match *)
| ValueError_unconverted (rest : string) (* strptime: trailing data *)
| ValueError_date (y m d : Z)           (* datetime(): field out of range *)
| ValueError_fromhex (s : string)
| TypeError_strptime (v : pyval)        (* strptime of a non-string *)
| TypeError_operand (v : pyval)         (* v + 1 on a non-number *)
| TypeError_compare                     (* datetime > None *)
| AttributeError_None (attr : string)   (* None.get *)
| KeyError (k : string)
| RecursionError
| OverflowError                         (* int too large to convert to float *)
| Timeout                               (* requests.exceptions.Timeout *)
| External (msg : string).

Inductive res (A : Type) :=
| Ret (a : A)
| Raise (e : exn).
Arguments Ret {A} a.
Arguments Raise {A} e.

(** The computation returned rather than raised. *)
Definition returned {A} (r : res A) : bool :=
  match r with Ret _ => true | Raise _ => false end.

(** A computation over a state [S] that returns or raises; the state
    reached when it raises is kept, as mutations made before a Python
    exception are. *)
Definition M (S A : Type) : Type := S → res A * S.

Definition ret {S A} (a : A) : M S A := fun s => (Ret a, s).
Definition raise {S A} (e : exn) : M S A := fun s => (Raise e, s).
Definition bind {S A B} (m : M S A) (k : A → M S B) : M S B :=
  fun s => match m s with
           | (Ret a, s') => k a s'
           | (Raise e, s') => (Raise e, s')
           end.
Definition get {S} : M S S := fun s => (Ret s, s).
Definition gets {S A} (f : S → A) : M S A := fun s => (Ret (f s), s).
Definition modify {S} (f : S → S) : M S unit := fun s => (Ret tt, f s).

(** [try: m  except Exception as e: h e]. *)
Definition try_except {S A} (m : M S A) (h : exn → M S A) : M S A :=
  fun s => match m s with
           | (Ret a, s') => (Ret a, s')
           | (Raise e, s') => h e s'
           end.

(** Run a computation on a component of the state. *)
Definition zoom {S T A} (prj : S → T) (inj : T → S → S) (m : M T A) : M S A :=
  fun s => let '(r, t') := m (prj s) in (r, inj t' s).

Definition lift_res {S A} (r : res A) : M S A := fun s => (r, s).

(** The number a stored counter stands for: [d.get(k, 0)] when it is an
    [int] (or a [bool], which Python counts as one). *)
Definition count_of (o : option pyval) : option Z :=
  match o with
  | None => Some 0
  | Some (VInt n) => Some n
  | Some (VBool b) => Some (Z.b2z b)
  | Some _ => None
  end.

(** [d.get(k, 0) + 1] on a stored value. *)
Definition add_one (o : option pyval) : res pyval :=
  match o with
  | None => Ret (VInt 1)
  | Some (VInt n) => Ret (VInt (n + 1))
  | Some (VBool b) => Ret (VInt (Z.b2z b + 1))
  | Some v => Raise (TypeError_operand v)
  end.

End Py.

Import Py.

#[global] Instance M_ret {S} : MRet (M S) := fun A => @ret S A.
#[global] Instance M_bind {S} : MBind (M S) := fun A B k m => @bind S A B m k.

(* ===================================================================== *)
(** ** [datetime]                                                        *)
(* ===================================================================== *)

Module Datetime.

(** A naive [datetime.datetime]. *)
Record datetime := mk_datetime {
  year : Z; month : Z; day : Z;
  hour : Z; minute : Z; second : Z; microsecond : Z
}.

#[global] Instance datetime_eq_dec : EqDecision datetime.
Proof. solve_decision. Defined.

Definition lex (c k : comparison) : comparison :=
  match c with Eq => k | _ => c end.

(** Naive datetimes compare field by field, most significant first. *)
Definition cmp (a b : datetime) : comparison :=
  lex (year a ?= year b)
  (lex (month a ?= month b)
  (lex (day a ?= day b)
  (lex (hour a ?= hour b)
  (lex (minute a ?= minute b)
  (lex (second a ?= second b)
       (microsecond a ?= microsecond b)))))).

(** [a > b] and [a <= b]. *)
Definition gt (a b : datetime) : bool :=
  match cmp a b with Gt => true | _ => false end.
Definition le (a b : datetime) : bool := negb (gt a b).

(** [a] is later than [b], spelled out field by field. *)
Definition later (a b : datetime) : Prop :=
  year b < year a ∨ (year a = year b ∧
  (month b < month a ∨ (month a = month b ∧
  (day b < day a ∨ (day a = day b ∧
  (hour b < hour a ∨ (hour a = hour b ∧
  (minute b < minute a ∨ (minute a = minute b ∧
  (second b < second a ∨ (second a = second b ∧
   microsecond b < microsecond a))))))))))).

(** The time of day of [a] lies within one day. *)
Definition valid_time (a : datetime) : Prop :=
  0 <= hour a < 24 ∧ 0 <= minute a < 60 ∧ 0 <= second a < 60
  ∧ 0 <= microsecond a < 1000000.

(** [a] is a midnight. *)
Definition midnight (a : datetime) : Prop :=
  hour a = 0 ∧ minute a = 0 ∧ second a = 0 ∧ microsecond a = 0.

(** The calendar date of [a] is strictly before that of [b]. *)
Definition date_lt (a b : datetime) : bool :=
  match lex (year a ?= year b) (lex (month a ?= month b) (day a ?= day b)) with
  | Lt => true
  | _ => false
  end.

Definition is_leap (y : Z) : bool :=
  (y mod 4 =? 0) && (negb (y mod 100 =? 0) || (y mod 400 =? 0)).

Definition DAYS_IN_MONTH : list Z :=
  [-1; 31; 28; 31; 30; 31; 30; 31; 31; 30; 31; 30; 31].
Definition DAYS_BEFORE_MONTH : list Z :=
  [-1; 0; 31; 59; 90; 120; 151; 181; 212; 243; 273; 304; 334].

Definition days_in_month (y m : Z) : Z :=
  if (m =? 2) && is_leap y then 29
  else nth (Z.to_nat m) DAYS_IN_MONTH 0.

Definition days_before_year (y : Z) : Z :=
  let y := y - 1 in y * 365 + y / 4 - y / 100 + y / 400.

Definition days_before_month (y m : Z) : Z :=
  nth (Z.to_nat m) DAYS_BEFORE_MONTH 0
  + (if (2 <? m) && is_leap y then 1 else 0).

(** [d.toordinal()]. *)
Definition toordinal (d : datetime) : Z :=
  days_before_year (year d) + days_before_month (year d) (month d) + day d.

(** [(a - b).days]: the difference is normalised so that seconds and
    microseconds are non-negative, which is a floor division. *)
Definition sub_days (a b : datetime) : Z :=
  let secs d := second d + minute d * 60 + hour d * 3600 in
  let us := ((toordinal a - toordinal b) * 86400 + (secs a - secs b)) * 1000000
            + (microsecond a - microsecond b) in
  us / (86400 * 1000000).

Definition pad (width : nat) (z : Z) : string :=
  let s := str_int z in
  String.concat "" (replicate (width - String.length s)%nat "0") +:+ s.

(** [d.strftime("%Y-%m-%d %H:%M:%S")]. *)
Definition strftime (d : datetime) : string :=
  pad 4 (year d) +:+ "-" +:+ pad 2 (month d) +:+ "-" +:+ pad 2 (day d)
  +:+ " " +:+ pad 2 (hour d) +:+ ":" +:+ pad 2 (minute d) +:+ ":"
  +:+ pad 2 (second d).

(** *** [datetime.strptime(s, "%Y-%m-%d")]

    The format compiles to the regular expression
    [(?P<Y>\d\d\d\d)-(?P<m>1[0-2]|0[1-9]|[1-9])-(?P<d>3[0-1]|[1-2]\d|0[1-9]|[1-9]| [1-9])],
    matched at the start of the string; alternatives are tried in order. *)

Definition between (lo hi : nat) (a : ascii) : bool :=
  ((lo <=? code a) && (code a <=? hi))%nat.
Definition is_digit : ascii → bool := between 48 57.
Definition digit (a : ascii) : Z := Z.of_nat (code a) - 48.

(** One alternative: a prefix consumed, the number read, the rest. *)
Definition alt := string → option (Z * string).

Definition two (p q : ascii → bool) : alt := fun s =>
  match s with
  | String a (String b r) =>
      if p a && q b then Some (10 * digit a + digit b, r) else None
  | _ => None
  end.

Definition one (p : ascii → bool) : alt := fun s =>
  match s with
  | String a r => if p a then Some (digit a, r) else None
  | _ => None
  end.

(** [ [1-9]]: a space, then a digit. *)
Definition space_one (q : ascii → bool) : alt := fun s =>
  match s with
  | String a (String b r) =>
      if (code a =? 32)%nat && q b then Some (digit b, r) else None
  | _ => None
  end.

(** Ordered choice with backtracking into the continuation [k]. *)
Fixpoint choice {R} (alts : list alt) (s : string)
    (k : Z → string → option R) : option R :=
  match alts with
  | [] => None
  | a :: rest =>
      match (a s ≫= λ '(n, r), k n r) with
      | Some x => Some x
      | None => choice rest s k
      end
  end.

Definition lit (c : nat) (s : string) : option string :=
  match s with
  | String a r => if (code a =? c)%nat then Some r else None
  | _ => None
  end.

Definition group_Y : alt := fun s =>
  match s with
  | String a (String b (String c (String d r))) =>
      if is_digit a && is_digit b && is_digit c && is_digit d
      then Some (1000 * digit a + 100 * digit b + 10 * digit c + digit d, r)
      else None
  | _ => None
  end.

Definition group_m : list alt :=
  [two (between 49 49) (between 48 50);
   two (between 48 48) (between 49 57);
   one (between 49 57)].

Definition group_d : list alt :=
  [two (between 51 51) (between 48 49);
   two (between 49 50) is_digit;
   two (between 48 48) (between 49 57);
   one (between 49 57);
   space_one (between 49 57)].

(** The match: year, month, day and the unmatched rest. *)
Definition regex_Ymd (s : string) : option (Z * Z * Z * string) :=
  '(y, s1) ← group_Y s;
  s2 ← lit 45 s1;
  choice group_m s2 (λ m s3,
    s4 ← lit 45 s3;
    choice group_d s4 (λ d s5, Some (y, m, d, s5))).

(** [datetime(y, m, d)] accepts years 1..9999 and days of the month. *)
Definition valid_date (y m d : Z) : bool :=
  (1 <=? y) && (y <=? 9999) && (1 <=? m) && (m <=? 12)
  && (1 <=? d) && (d <=? days_in_month y m).

Definition strptime_str (s : string) : res datetime :=
  match regex_Ymd s with
  | None => Raise (ValueError_format s)
  | Some (y, m, d, rest) =>
      if negb (String.eqb rest "") then Raise (ValueError_unconverted rest)
      else if valid_date y m d then Ret (mk_datetime y m d 0 0 0 0)
      else Raise (ValueError_date y m d)
  end.

(** [datetime.strptime(v, "%Y-%m-%d")] on a stored value. *)
Definition strptime (v : pyval) : res datetime :=
  match v with
  | VStr s => strptime_str s
  | _ => Raise (TypeError_strptime v)
  end.

End Datetime.

Import Datetime.

(* ===================================================================== *)
(** ** Floats that hold whole numbers                                    *)
(* ===================================================================== *)

(** [time.time()] is a float and the lifetime of a token is an [int]; the
    sum is a float.  The readings of the clock are taken to be whole
    seconds, so every float met is a whole number, kept as the integer it
    stands for. *)
Module Float.

(** The double nearest to the integer [n]: 53 significant bits, ties to
    the even one. *)
Definition round (n : Z) : Z :=
  let a := Z.abs n in
  let excess := Z.log2 a - 52 in
  if excess <=? 0 then n
  else
    let ulp := 2 ^ excess in
    let q := a / ulp in
    let q' := match 2 * (a mod ulp) ?= ulp with
              | Lt => q
              | Gt => q + 1
              | Eq => if Z.even q then q else q + 1
              end in
    Z.sgn n * (q' * ulp).

(** The first power of two beyond the doubles. *)
Definition huge : Z := 2 ^ 1024.

(** The conversion of an [int] operand: too large an [int] raises. *)
Definition of_int (n : Z) : res Z :=
  let x := round n in
  if Z.abs x <? huge then Ret x else Raise OverflowError.

(** [x + y] on floats; a sum beyond the doubles is an infinity, kept as
    [huge] with its sign, which compares with every float as the infinity
    does. *)
Definition add (x y : Z) : Z :=
  let sum := round (x + y) in
  if Z.abs sum <? huge then sum else Z.sgn sum * huge.

End Float.

(* ===================================================================== *)
(** ** The device client                                                 *)
(* ===================================================================== *)

Module ZK.

(** [zk.user.User]. *)
Module User.
Record t := mk {
  uid : Z; name : string; privilege : Z; password : string;
  group_id : string; user_id : string; card : Z
}.
End User.

(** [zk.finger.Finger]. *)
Module Finger.
Record t := mk { uid : Z; fid : Z; valid : Z; template : list byte }.
End Finger.

(** [zk.attendance.Attendance]. *)
Module Attendance.
Record t := mk { user_id : string; timestamp : datetime }.
End Attendance.

(** The operations the sources invoke on [conn].  The device state [D]
    is whatever the client and the terminal keep; every operation may
    raise and may change it.  [mark] is what [t.mark if hasattr(t, 'mark')
    else ''] evaluates to on a template object of the library. *)
Class Conn (D : Type) := {
  get_users : M D (list User.t);
  get_templates : M D (list Finger.t);
  delete_user : Z → M D unit;
  save_user_template : User.t → list Finger.t → M D unit;
  get_attendance : M D (list Attendance.t);
  mark : Finger.t → string
}.

(** The calls issued on a connection, oldest first. *)
Inductive call :=
| GetUsers
| GetTemplates
| DeleteUser (uid : Z)
| SaveUserTemplate (u : User.t) (fs : list Finger.t)
| GetAttendance.

(** Calls that only read from the device. *)
Definition is_read (c : call) : bool :=
  match c with
  | GetUsers | GetTemplates | GetAttendance => true
  | DeleteUser _ | SaveUserTemplate _ _ => false
  end.

End ZK.

Import ZK.

(* ===================================================================== *)
(** ** Persisted documents and the world outside the process             *)
(* ===================================================================== *)

(** An entry of [user_templates.json]. *)
Module Snapshot.
Record user_data := mk_user {
  uid : Z; name : string; privilege : Z; password : string;
  group_id : string; user_id : string;
  card : option Z                      (* read with [.get('card', 0)] *)
}.
Record template_data := mk_template {
  t_uid : Z; fid : Z; valid : Z;
  template : string;                   (* hexadecimal text *)
  t_mark : string
}.
Record t := mk { user : user_data; templates : list template_data }.
End Snapshot.

(** An entry of the automatic-block log. *)
Record log_entry := mk_log_entry {
  log_user_id : string;
  log_action : string;
  log_detail : string;                 (* reason, or the new expiration *)
  log_timestamp : string
}.

(** What [json.dump] is handed. *)
Inductive document :=
| DocTemplates (db : gmap string Snapshot.t)
| DocMemberships (users : gmap string dict).

(** The world a manager acts on: the device behind [conn] with the calls
    issued so far, the number of wall-clock reads, and the file writes
    attempted (path and document), oldest first. *)
Record World (D : Type) := mk_world {
  dev : D;
  calls : list call;
  ticks : nat;
  writes : list (string * document)
}.
Arguments mk_world {D}.
Arguments dev {D}.
Arguments calls {D}.
Arguments ticks {D}.
Arguments writes {D}.

Section World.
Context {D : Type} `{!Conn D}.
(** The wall clock: what the n-th read of [datetime.now()] returns. *)
Variable clock : nat → datetime.

Definition conn_call {A} (c : call) (op : M D A) : M (World D) A :=
  fun w =>
    let '(r, d') := op (dev w) in
    (r, mk_world d' (calls w ++ [c]) (ticks w) (writes w)).

Definition conn_get_users := conn_call GetUsers get_users.
Definition conn_get_templates := conn_call GetTemplates get_templates.
Definition conn_delete_user (uid : Z) := conn_call (DeleteUser uid) (delete_user uid).
Definition conn_save_user_template (u : User.t) (fs : list Finger.t) :=
  conn_call (SaveUserTemplate u fs) (save_user_template u fs).
Definition conn_get_attendance := conn_call GetAttendance get_attendance.

(** [datetime.now()]. *)
Definition datetime_now : M (World D) datetime :=
  fun w => (Ret (clock (ticks w)),
            mk_world (dev w) (calls w) (S (ticks w)) (writes w)).

(** [with open(path, 'w') as f: json.dump(doc, f)] inside a [try] whose
    handler only prints: the write is attempted and nothing propagates. *)
Definition dump (path : string) (doc : document) : M (World D) unit :=
  modify (fun w => mk_world (dev w) (calls w) (ticks w) (writes w ++ [(path, doc)])).

(** Methods of an object [O] run on the world and the object. *)
Definition world {O A} (m : M (World D) A) : M (World D * O) A :=
  zoom fst (fun w s => (w, s.2)) m.
Definition self {O} : M (World D * O) O := gets snd.
Definition set_self {O} (f : O → O) : M (World D * O) unit :=
  modify (fun s => (s.1, f s.2)).

(** [next((u for u in users if str(u.user_id) == str(user_id)), None)]. *)
Definition find_user (user_id : string) (users : list User.t) : option User.t :=
  List.find (fun u => String.eqb (User.user_id u) user_id) users.

End World.

(* ===================================================================== *)
(** ** src/template_manager.py                                           *)
(* ===================================================================== *)

Module TemplateManager.

Record t := mk {
  templates_file : string;
  templates_db : gmap string Snapshot.t
}.

(** [TemplateManager(templates_file)] when the file does not exist. *)
Definition new (templates_file : string) : t := mk templates_file ∅.

Section Methods.
Context {D : Type} `{!Conn D}.

Definition set_db (f : gmap string Snapshot.t → gmap string Snapshot.t) (tm : t) : t :=
  mk (templates_file tm) (f (templates_db tm)).

Definition save_templates : M (World D * t) unit :=
  tm ← self;
  world (dump (templates_file tm) (DocTemplates (templates_db tm))).

Definition snapshot_of (user : User.t) (user_templates : list Finger.t) : Snapshot.t :=
  Snapshot.mk
    (Snapshot.mk_user (User.uid user) (User.name user) (User.privilege user)
       (User.password user) (User.group_id user) (User.user_id user)
       (Some (User.card user)))
    (map (fun t => Snapshot.mk_template (Finger.uid t) (Finger.fid t)
                     (Finger.valid t) (hex (Finger.template t)) (mark t))
         user_templates).

Definition backup_user_templates (user_id : string) : M (World D * t) bool :=
  try_except
    (users ← world conn_get_users;
     match find_user user_id users with
     | None => mret false
     | Some user =>
         all_templates ← world conn_get_templates;
         let user_templates :=
           List.filter (fun t => Finger.uid t =? User.uid user) all_templates in
         match user_templates with
         | [] => mret false
         | _ =>
             _ ← set_self (set_db <[user_id := snapshot_of user user_templates]>);
             _ ← save_templates;
             mret true
         end
     end)
    (fun e => mret false).

Definition user_of (user_data : Snapshot.user_data) : User.t :=
  User.mk (Snapshot.uid user_data) (Snapshot.name user_data)
    (Snapshot.privilege user_data) (Snapshot.password user_data)
    (Snapshot.group_id user_data) (Snapshot.user_id user_data)
    (default 0 (Snapshot.card user_data)).

(** The loop that rebuilds the [Finger] objects; [bytes.fromhex] may raise. *)
Fixpoint fingers_of (ts : list Snapshot.template_data) : res (list Finger.t) :=
  match ts with
  | [] => Ret []
  | t_data :: rest =>
      match fromhex (Snapshot.template t_data) with
      | None => Raise (ValueError_fromhex (Snapshot.template t_data))
      | Some template_bytes =>
          match fingers_of rest with
          | Ret fs =>
              Ret (Finger.mk (Snapshot.t_uid t_data) (Snapshot.fid t_data)
                     (Snapshot.valid t_data) template_bytes :: fs)
          | Raise e => Raise e
          end
      end
  end.

Definition restore_user_templates (user_id : string) : M (World D * t) bool :=
  try_except
    (tm ← self;
     match templates_db tm !! user_id with
     | None => mret false
     | Some backup =>
         let user := user_of (Snapshot.user backup) in
         templates ← lift_res (fingers_of (Snapshot.templates backup));
         _ ← world (conn_save_user_template user templates);
         mret true
     end)
    (fun e => mret false).

Definition has_backup (user_id : string) (tm : t) : bool :=
  bool_decide (is_Some (templates_db tm !! user_id)).

Definition get_backup_info (user_id : string) (tm : t) : option Snapshot.t :=
  templates_db tm !! user_id.

Definition delete_backup (user_id : string) : M (World D * t) bool :=
  tm ← self;
  if has_backup user_id tm then
    _ ← set_self (set_db (delete user_id));
    _ ← save_templates;
    mret true
  else mret false.

Definition block_user (user_id : string) : M (World D * t) bool :=
  try_except
    (ok ← backup_user_templates user_id;
     if negb ok then mret false
     else
       users ← world conn_get_users;
       match find_user user_id users with
       | None => mret false
       | Some user =>
           _ ← world (conn_delete_user (User.uid user));
           mret true
       end)
    (fun e => mret false).

Definition unblock_user (user_id : string) : M (World D * t) bool :=
  restore_user_templates user_id.

(** The loop of [backup_all_users]. *)
Fixpoint backup_each (users : list User.t) (count : Z) : M (World D * t) Z :=
  match users with
  | [] => mret count
  | user :: rest =>
      ok ← backup_user_templates (User.user_id user);
      backup_each rest (if (ok : bool) then count + 1 else count)
  end.

Definition backup_all_users : M (World D * t) Z :=
  try_except
    (users ← world conn_get_users;
     backup_each users 0)
    (fun e => mret 0).

(** *** Vocabulary for the properties *)

(** What the device reports for [user_id] when it is asked for its users
    and then for its templates: the matching user and that user's
    templates; [None] when a read fails or no user matches. *)
Definition device_templates (user_id : string) (d : D)
    : option (User.t * list Finger.t) :=
  match get_users d with
  | (Ret users, d1) =>
      match find_user user_id users with
      | Some user =>
          match get_templates d1 with
          | (Ret all_templates, _) =>
              Some (user, List.filter (fun t => Finger.uid t =? User.uid user)
                            all_templates)
          | (Raise _, _) => None
          end
      | None => None
      end
  | (Raise _, _) => None
  end.

(** The public operations, and runs of them. *)
Inductive op :=
| Backup (user_id : string)
| Restore (user_id : string)
| BackupAll
| DeleteBackup (user_id : string)
| Block (user_id : string)
| Unblock (user_id : string).

Definition exec (o : op) (s : World D * t) : World D * t :=
  match o with
  | Backup u => (backup_user_templates u s).2
  | Restore u => (restore_user_templates u s).2
  | BackupAll => (backup_all_users s).2
  | DeleteBackup u => (delete_backup u s).2
  | Block u => (block_user u s).2
  | Unblock u => (unblock_user u s).2
  end.

Definition run (ops : list op) (s : World D * t) : World D * t :=
  foldl (fun s o => exec o s) s ops.

(** A snapshot as a backup builds it, from at least one template. *)
Definition captured (b : Snapshot.t) : Prop :=
  ∃ user ts, ts ≠ [] ∧ b = snapshot_of user ts.


(** Entries of [tm'] are entries of [tm] or freshly captured ones. *)
Definition extends (tm tm' : t) : Prop :=
  ∀ user_id b, templates_db tm' !! user_id = Some b →
    templates_db tm !! user_id = Some b ∨ captured b.

(** No entry of [tm] is lost in [tm']. *)
Definition keeps (tm tm' : t) : Prop :=
  ∀ user_id, is_Some (templates_db tm !! user_id) →
    is_Some (templates_db tm' !! user_id).

End Methods.

End TemplateManager.

(* ===================================================================== *)
(** ** src/membership_manager.py                                         *)
(* ===================================================================== *)

Module MembershipManager.

(** The registry and the object's own template manager.  (The remote
    client [api] is only used by the Gymforce synchronisation helpers,
    which are not part of this development.) *)
Record t := mk {
  data_file : string;
  users : gmap string dict;
  template_manager : TemplateManager.t
}.

(** [MembershipManager()] when neither file exists. *)
Definition new : t :=
  mk "memberships.json" ∅ (TemplateManager.new "user_templates.json").

Section Methods.
Context {D : Type} `{!Conn D}.
Variable clock : nat → datetime.
(** [str(e)] for an exception [e]. *)
Variable exn_str : exn → string.

Definition set_users (f : gmap string dict → gmap string dict) (mm : t) : t :=
  mk (data_file mm) (f (users mm)) (template_manager mm).

(** [self.users[user_id][key] = v]. *)
Definition set_field (user_id key : string) (v : pyval) : M (World D * t) unit :=
  set_self (set_users (alter <[key := v]> user_id)).

(** [self.users[user_id].get(key)]. *)
Definition get_field (user_id key : string) : M (World D * t) (option pyval) :=
  mm ← self; mret (users mm !! user_id ≫= (.!! key)).

(** Calls on [self.template_manager]. *)
Definition tm_call {A} (m : M (World D * TemplateManager.t) A) : M (World D * t) A :=
  zoom (fun s => (s.1, template_manager s.2))
       (fun r s => (r.1, mk (data_file s.2) (users s.2) r.2)) m.

Definition save_data : M (World D * t) unit :=
  mm ← self;
  world (dump (data_file mm) (DocMemberships (users mm))).

Definition now_str : M (World D * t) pyval :=
  now ← world (datetime_now clock); mret (VStr (strftime now)).

Definition validate_membership (user_id : string) : M (World D * t) (bool * string) :=
  let user_id := strip user_id in
  mm ← self;
  match users mm !! user_id with
  | None => mret (false, "Usuario no registrado localmente")
  | Some user =>
      if get_is user "status" "inactive" then mret (false, "Usuario inactivo")
      else if get_is user "status" "blocked" then
        mret (false, "Usuario bloqueado temporalmente")
      else
        match user !! "expiration_date" with
        | None => mret (false, "Sin fecha de vencimiento")
        | Some expiration =>
            if negb (truthy expiration) then mret (false, "Sin fecha de vencimiento")
            else
              try_except
                (exp_date ← lift_res (strptime expiration);
                 now ← world (datetime_now clock);
                 if gt now exp_date then
                   _ ← set_field user_id "status" (VStr "expired");
                   _ ← save_data;
                   mret (false, "Membres" +:+ chr 237 +:+ "a vencida desde "
                                +:+ py_str expiration)
                 else
                   stamp ← now_str;
                   _ ← set_field user_id "last_visit" stamp;
                   count ← get_field user_id "visit_count";
                   count' ← lift_res (add_one count);
                   _ ← set_field user_id "visit_count" count';
                   _ ← save_data;
                   mret (true, "Membres" +:+ chr 237 +:+ "a activa hasta "
                               +:+ py_str expiration))
                (fun e => mret (false, "Error validando fecha: " +:+ exn_str e))
        end
  end.

(** [add_user(user_id, name, expiration_date, status, **kwargs)]; the
    keyword arguments cannot rebind the four named parameters and
    override the three defaults. *)
Definition add_user (user_id name expiration_date status : string) (kwargs : dict)
    : M (World D * t) unit :=
  let user_id := strip user_id in
  created ← now_str;
  let named : dict :=
    <["user_id" := VStr user_id]> (<["name" := VStr name]>
    (<["expiration_date" := VStr expiration_date]> (<["status" := VStr status]> ∅))) in
  let defaults : dict :=
    <["created_at" := created]> (<["last_visit" := VNone]>
    (<["visit_count" := VInt 0]> ∅)) in
  _ ← set_self (set_users <[user_id := named ∪ kwargs ∪ defaults]>);
  save_data.

Definition update_expiration (user_id new_expiration : string) : M (World D * t) bool :=
  let user_id := strip user_id in
  mm ← self;
  match users mm !! user_id with
  | None => mret false
  | Some _ =>
      _ ← set_field user_id "expiration_date" (VStr new_expiration);
      _ ← set_field user_id "status" (VStr "active");
      stamp ← now_str;
      _ ← set_field user_id "updated_at" stamp;
      _ ← save_data;
      mret true
  end.

Definition block_user_with_backup (user_id : string) : M (World D * t) bool :=
  let user_id := strip user_id in
  try_except
    (ok ← tm_call (TemplateManager.block_user user_id);
     if (ok : bool) then
       mm ← self;
       _ ← match users mm !! user_id with
           | Some _ =>
               _ ← set_field user_id "status" (VStr "blocked");
               stamp ← now_str;
               _ ← set_field user_id "blocked_at" stamp;
               save_data
           | None => mret tt
           end;
       mret true
     else mret false)
    (fun e => mret false).

(** [if new_expiration:] on an optional string. *)
Definition given (new_expiration : option string) : option string :=
  match new_expiration with
  | Some s => if String.eqb s "" then None else Some s
  | None => None
  end.

Definition unblock_user_with_restore (user_id : string)
    (new_expiration : option string) : M (World D * t) bool :=
  let user_id := strip user_id in
  try_except
    (ok ← tm_call (TemplateManager.unblock_user user_id);
     if (ok : bool) then
       mm ← self;
       _ ← match users mm !! user_id with
           | Some _ =>
               _ ← set_field user_id "status" (VStr "active");
               _ ← match given new_expiration with
                   | Some e => set_field user_id "expiration_date" (VStr e)
                   | None => mret tt
                   end;
               stamp ← now_str;
               _ ← set_field user_id "unblocked_at" stamp;
               save_data
           | None => mret tt
           end;
       mret true
     else mret false)
    (fun e => mret false).

Definition deactivate_user (user_id : string) : M (World D * t) unit :=
  let user_id := strip user_id in
  mm ← self;
  match users mm !! user_id with
  | Some _ =>
      _ ← set_field user_id "status" (VStr "inactive");
      stamp ← now_str;
      _ ← set_field user_id "deactivated_at" stamp;
      save_data
  | None => mret tt
  end.

Definition reactivate_user (user_id : string) (new_expiration : option string)
    : M (World D * t) unit :=
  let user_id := strip user_id in
  mm ← self;
  match users mm !! user_id with
  | Some _ =>
      _ ← set_field user_id "status" (VStr "active");
      _ ← match given new_expiration with
          | Some e => set_field user_id "expiration_date" (VStr e)
          | None => mret tt
          end;
      stamp ← now_str;
      _ ← set_field user_id "reactivated_at" stamp;
      save_data
  | None => mret tt
  end.

Definition get_user_info (user_id : string) (mm : t) : option dict :=
  users mm !! strip user_id.

Definition has_template_backup (user_id : string) (mm : t) : bool :=
  TemplateManager.has_backup user_id (template_manager mm).

End Methods.

End MembershipManager.

(* ===================================================================== *)
(** ** src/auto_block_manager.py                                         *)
(* ===================================================================== *)

Module AutoBlockManager.

Record t := mk {
  memberships_file : string;
  template_manager : TemplateManager.t;
  memberships : gmap string dict;
  auto_block_log : list log_entry
}.

(** [AutoBlockManager()] when neither file exists. *)
Definition new : t :=
  mk "memberships.json" (TemplateManager.new "user_templates.json") ∅ [].

Section Methods.
Context {D : Type} `{!Conn D}.
Variable clock : nat → datetime.
Variable exn_str : exn → string.

Definition set_memberships (f : gmap string dict → gmap string dict) (ab : t) : t :=
  mk (memberships_file ab) (template_manager ab) (f (memberships ab))
     (auto_block_log ab).

Definition set_field (user_id key : string) (v : pyval) : M (World D * t) unit :=
  set_self (set_memberships (alter <[key := v]> user_id)).

Definition append_log (e : log_entry) : M (World D * t) unit :=
  set_self (fun ab => mk (memberships_file ab) (template_manager ab)
                        (memberships ab) (auto_block_log ab ++ [e])).

Definition tm_call {A} (m : M (World D * TemplateManager.t) A) : M (World D * t) A :=
  zoom (fun s => (s.1, template_manager s.2))
       (fun r s => (r.1, mk (memberships_file s.2) r.2 (memberships s.2)
                           (auto_block_log s.2))) m.

Definition save_memberships : M (World D * t) unit :=
  ab ← self;
  world (dump (memberships_file ab) (DocMemberships (memberships ab))).

Definition now_str : M (World D * t) string :=
  now ← world (datetime_now clock); mret (strftime now).

Definition should_block_user (user_id : string) : M (World D * t) (bool * string) :=
  ab ← self;
  match memberships ab !! user_id with
  | None => mret (false, "Usuario no registrado en sistema local")
  | Some membership =>
      if get_is membership "status" "blocked" then
        mret (true, "Ya est" +:+ chr 225 +:+ " bloqueado")
      else if get_is membership "status" "inactive" then
        mret (true, "Usuario inactivo")
      else
        match membership !! "expiration_date" with
        | None => mret (true, "Sin fecha de vencimiento")
        | Some expiration_str =>
            if negb (truthy expiration_str) then
              mret (true, "Sin fecha de vencimiento")
            else
              try_except
                (exp_date ← lift_res (strptime expiration_str);
                 now ← world (datetime_now clock);
                 if gt now exp_date then
                   let days_expired := sub_days now exp_date in
                   mret (true, "Membres" +:+ chr 237 +:+ "a vencida hace "
                               +:+ str_int days_expired +:+ " d" +:+ chr 237 +:+ "as")
                 else mret (false, "Membres" +:+ chr 237 +:+ "a activa"))
                (fun e => mret (true, "Error en fecha: " +:+ exn_str e))
        end
  end.

Definition block_user_automatically (user_id reason : string) : M (World D * t) bool :=
  try_except
    (ab ← self;
     ok ← (if negb (TemplateManager.has_backup user_id (template_manager ab))
           then tm_call (TemplateManager.backup_user_templates user_id)
           else mret true);
     if negb ok then mret false
     else
       users ← world conn_get_users;
       match find_user user_id users with
       | None => mret false
       | Some user =>
           _ ← world (conn_delete_user (User.uid user));
           ab ← self;
           _ ← match memberships ab !! user_id with
               | Some _ =>
                   _ ← set_field user_id "status" (VStr "blocked");
                   stamp ← now_str;
                   _ ← set_field user_id "blocked_at" (VStr stamp);
                   _ ← set_field user_id "block_reason" (VStr reason);
                   set_field user_id "auto_blocked" (VBool true)
               | None => mret tt
               end;
           _ ← save_memberships;
           stamp ← now_str;
           _ ← append_log (mk_log_entry user_id "auto_block" reason stamp);
           mret true
       end)
    (fun e => mret false).

Definition unblock_user_automatically (user_id new_expiration : string)
    : M (World D * t) bool :=
  try_except
    (ok ← tm_call (TemplateManager.restore_user_templates user_id);
     if negb ok then mret false
     else
       ab ← self;
       _ ← match memberships ab !! user_id with
           | Some _ =>
               _ ← set_field user_id "status" (VStr "active");
               _ ← set_field user_id "expiration_date" (VStr new_expiration);
               stamp ← now_str;
               _ ← set_field user_id "unblocked_at" (VStr stamp);
               set_field user_id "auto_unblocked" (VBool true)
           | None => mret tt
           end;
       _ ← save_memberships;
       stamp ← now_str;
       _ ← append_log (mk_log_entry user_id "auto_unblock" new_expiration stamp);
       mret true)
    (fun e => mret false).

End Methods.

End AutoBlockManager.

(* ===================================================================== *)
(** ** src/gymforce_api.py                                               *)
(* ===================================================================== *)

Module GymforceAPI.

(** A request handed to [session.post]. *)
Inductive request :=
| Login (email password : string)
| Access (token : option pyval) (socio_id : string) (sucursal_id : Z).

(** The decoded body of a login response: [data["token"]] when the key is
    present, and the outcome of [int(data.get("expires_in", 7200))]. *)
Record login_body := mk_login_body {
  body_token : option pyval;
  body_expires_in : res Z
}.

(** A response: its status code and what [res.json()] does. *)
Record response (B : Type) := mk_response {
  status_code : Z;
  json : res B
}.
Arguments mk_response {B}.
Arguments status_code {B}.
Arguments json {B}.

(** The network as the client sees it: the posts issued so far, oldest
    first, and the number of reads of [time.time()]. *)
Record Net := mk_net {
  posts : list request;
  time_reads : nat
}.

Record t := mk {
  token : option pyval;                (* [None] until the first login *)
  token_expiration : Z
}.

(** [GymforceAPI()]. *)
Definition new : t := mk None 0.

Definition EMAIL : string := "torniquete.kaizen@gymforce.mx".
Definition PASSWORD : string := "KaizenInt_2025_RPzM9y72jG5Qw48Lc1NtXb3".

Section Methods.
(** The remote service: the outcome of a post, given the posts that came
    before it.  [Raise] is an exception out of [session.post]. *)
Variable login_endpoint : list request → res (response login_body).
Variable access_endpoint : list request → request → res (response dict).
(** [time.time()] at its n-th read: a float, taken to be a whole number
    of seconds (see [Float]). *)
Variable time_time : nat → Z.
Variable exn_str : exn → string.

Definition net {A} (m : M Net A) : M (Net * t) A :=
  zoom fst (fun n s => (n, s.2)) m.
Definition this : M (Net * t) t := gets snd.
Definition set_this (f : t → t) : M (Net * t) unit :=
  modify (fun s => (s.1, f s.2)).

Definition post_login : M Net (response login_body) := fun n =>
  (login_endpoint (posts n),
   mk_net (posts n ++ [Login EMAIL PASSWORD]) (time_reads n)).

Definition post_access (tok : option pyval) (socio_id : string) (sucursal_id : Z)
    : M Net (response dict) := fun n =>
  let rq := Access tok socio_id sucursal_id in
  (access_endpoint (posts n) rq, mk_net (posts n ++ [rq]) (time_reads n)).

Definition time_now : M Net Z := fun n =>
  (Ret (time_time (time_reads n)), mk_net (posts n) (S (time_reads n))).

Definition login : M (Net * t) bool :=
  try_except
    (r ← net post_login;
     if status_code r =? 200 then
       data ← lift_res (json r);
       tok ← lift_res (match body_token data with
                       | Some v => Ret v
                       | None => Raise (KeyError "token")
                       end);
       _ ← set_this (fun a => mk (Some tok) (token_expiration a));
       now ← net time_now;
       expires_in ← lift_res (body_expires_in data);
       lifetime ← lift_res (Float.of_int expires_in);
       _ ← set_this (fun a => mk (token a) (Float.add now lifetime));
       mret true
     else mret false)
    (fun e => mret false).

Definition ensure_token : M (Net * t) bool :=
  a ← this;
  token_valid ←
    (match token a with
     | Some v =>
         if truthy v then
           now ← net time_now; mret (now <? token_expiration a)
         else mret false
     | None => mret false
     end);
  if negb token_valid then login else mret true.

Definition deny (respuesta : string) : dict :=
  <["status" := VStr "ERROR"]> (<["access" := VStr "deny"]>
  (<["respuesta" := VStr respuesta]> ∅)).

(** [login] called with no frame left on the interpreter's stack: the
    post raises [RecursionError] inside the [try], the handler swallows
    it, and the answer is [False]. *)
Definition login_without_stack : M (Net * t) bool :=
  try_except (raise RecursionError) (fun e => mret false).

(** [validar_acceso]; the result [None] is Python's [None], returned when
    control reaches the end of the function.  [depth] is the number of
    nested calls of the method the interpreter's stack still admits
    below this one.  When it admits none, the login of the 401 branch,
    one call deeper than the query, is the call that runs out of stack. *)
Fixpoint validar_acceso (depth : nat) (socio_id : string) (sucursal_id : Z)
    : M (Net * t) (option dict) :=
  ok ← ensure_token;
  if negb ok then mret (Some (deny ("Sin token v" +:+ chr 225 +:+ "lido")))
  else
    try_except
      (a ← this;
       r ← net (post_access (token a) socio_id sucursal_id);
       if status_code r =? 200 then
         data ← lift_res (json r);
         mret (Some data)
       else if status_code r =? 401 then
         match depth with
         | O =>
             renewed ← login_without_stack;
             if (renewed : bool) then raise RecursionError else mret None
         | S depth' =>
             renewed ← login;
             if (renewed : bool) then validar_acceso depth' socio_id sucursal_id
             else mret None
         end
       else mret (Some (deny ("HTTP " +:+ str_int (status_code r)))))
      (fun e =>
         match e with
         | Timeout => mret (Some (deny "Timeout"))
         | _ => mret (Some (deny (exn_str e)))
         end).

End Methods.

End GymforceAPI.

(* ===================================================================== *)
(** ** src/zk_listener.py: the polling path                              *)
(* ===================================================================== *)

Module ZKListener.

Record t := mk {
  running : bool;
  connected : bool;
  conn : bool;                          (* [self.conn] is not [None] *)
  last_processed_time : option datetime;
  api : GymforceAPI.t;
  attendance_records : list dict;
  emitted : list dict                   (* payloads of [attendance_record] *)
}.

Section Methods.
Context {D : Type} `{!Conn D}.
Variable clock : nat → datetime.
Variable login_endpoint : list GymforceAPI.request → res (GymforceAPI.response GymforceAPI.login_body).
Variable access_endpoint : list GymforceAPI.request → GymforceAPI.request → res (GymforceAPI.response dict).
Variable time_time : nat → Z.
Variable exn_str : exn → string.
(** Nested calls of [validar_acceso] the interpreter's stack admits when
    the client is called. *)
Variable depth : nat.

(** The listener runs on the device world, the network and itself. *)
Abbreviation state := ((World D * GymforceAPI.Net) * t)%type.

Definition device {A} (m : M (World D) A) : M state A :=
  zoom (fun s => s.1.1) (fun w s => ((w, s.1.2), s.2)) m.
Definition api_call {A} (m : M (GymforceAPI.Net * GymforceAPI.t) A) : M state A :=
  zoom (fun s => (s.1.2, api s.2))
       (fun r s => ((s.1.1, r.1),
                    mk (running s.2) (connected s.2) (conn s.2)
                       (last_processed_time s.2) r.2 (attendance_records s.2)
                       (emitted s.2))) m.
Definition me : M state t := gets snd.
Definition set_me (f : t → t) : M state unit := modify (fun s => (s.1, f s.2)).

Definition set_mark (ts : datetime) (l : t) : t :=
  mk (running l) (connected l) (conn l) (Some ts) (api l)
     (attendance_records l) (emitted l).

Definition set_records (f : list dict → list dict) (l : t) : t :=
  mk (running l) (connected l) (conn l) (last_processed_time l) (api l)
     (f (attendance_records l)) (emitted l).

Definition emit (d : dict) (l : t) : t :=
  mk (running l) (connected l) (conn l) (last_processed_time l) (api l)
     (attendance_records l) (emitted l ++ [d]).

(** The entry appended and emitted when processing starts. *)
Definition record_data (socio_id timestamp : string) : dict :=
  <["timestamp" := VStr timestamp]> (<["user_id" := VStr socio_id]>
  (<["status" := VStr "processing"]> ∅)).

(** The test of the update loop on one entry,
    [rec['user_id'] == socio_id and rec['timestamp'] == timestamp]:
    indexing an entry that lacks the key raises, and the timestamp is
    looked at only when the user matches. *)
Definition row_test (socio_id timestamp : string) (rec : dict) : res bool :=
  match rec !! "user_id" with
  | None => Raise (KeyError "user_id")
  | Some user_id =>
      if bool_decide (user_id = VStr socio_id) then
        match rec !! "timestamp" with
        | None => Raise (KeyError "timestamp")
        | Some ts => Ret (bool_decide (ts = VStr timestamp))
        end
      else Ret false
  end.

(** The loop that updates the first stored entry of this user and
    timestamp, then stops.  Entries are changed only once the test has
    succeeded, so when the test raises the table is as it was. *)
Fixpoint update_first (socio_id timestamp status : string) (reason : pyval)
    (recs : list dict) : res (list dict) :=
  match recs with
  | [] => Ret []
  | rec :: rest =>
      match row_test socio_id timestamp rec with
      | Ret true =>
          Ret (<["reason" := reason]> (<["status" := VStr status]> rec) :: rest)
      | Ret false =>
          match update_first socio_id timestamp status reason rest with
          | Ret rest' => Ret (rec :: rest')
          | Raise e => Raise e
          end
      | Raise e => Raise e
      end
  end.

Definition process_attendance_record (record : Attendance.t) : M state unit :=
  try_except
    (let socio_id := strip (Attendance.user_id record) in
     let timestamp := strftime (Attendance.timestamp record) in
     let rd := record_data socio_id timestamp in
     _ ← set_me (set_records (fun rs => (rs ++ [rd])%list));
     _ ← set_me (emit rd);
     try_except
       (result ← api_call (GymforceAPI.validar_acceso login_endpoint access_endpoint
                             time_time exn_str depth socio_id 1);
        match result with
        | None => raise (AttributeError_None "get")
        | Some result =>
            let status :=
              if get_is result "access" "allow" then "allowed" else "denied" in
            l ← me;
            recs ← lift_res (update_first socio_id timestamp status
                               (default (VStr "") (result !! "respuesta"))
                               (attendance_records l));
            set_me (set_records (fun _ => recs))
        end)
       (fun api_error => mret tt))
    (fun e => mret tt).

(** [sorted(new_records, key=lambda x: x.timestamp)]: a stable sort. *)
Fixpoint insert_by_timestamp (r : Attendance.t) (l : list Attendance.t)
    : list Attendance.t :=
  match l with
  | [] => [r]
  | x :: rest =>
      if gt (Attendance.timestamp r) (Attendance.timestamp x)
      then x :: insert_by_timestamp r rest
      else r :: x :: rest
  end.

Definition sorted_by_timestamp (l : list Attendance.t) : list Attendance.t :=
  foldr insert_by_timestamp [] l.

(** The filtering loop; comparing with an unset mark raises. *)
Definition newer_than (mark : option datetime) (records : list Attendance.t)
    : res (list Attendance.t) :=
  match records, mark with
  | [], _ => Ret []
  | _, None => Raise TypeError_compare
  | _, Some m => Ret (List.filter (fun r => gt (Attendance.timestamp r) m) records)
  end.

(** The processing loop. *)
Fixpoint process_all (records : list Attendance.t) : M state unit :=
  match records with
  | [] => mret tt
  | record :: rest =>
      _ ← process_attendance_record record;
      _ ← set_me (set_mark (Attendance.timestamp record));
      process_all rest
  end.

Definition poll_and_process_records : M state unit :=
  l ← me;
  if negb (conn l) then mret tt
  else
    records ← device conn_get_attendance;
    l ← me;
    new_records ← lift_res (newer_than (last_processed_time l) records);
    process_all (sorted_by_timestamp new_records).

(** [max(r.timestamp for r in records)], for a non-empty list. *)
Definition max_timestamp (first : Attendance.t) (rest : list Attendance.t) : datetime :=
  foldl (fun m r => if gt (Attendance.timestamp r) m then Attendance.timestamp r else m)
        (Attendance.timestamp first) rest.

Definition initialize_polling_timestamp : M state unit :=
  l ← me;
  match last_processed_time l with
  | Some _ => mret tt
  | None =>
      if conn l then
        records ← device conn_get_attendance;
        match records with
        | first :: rest => set_me (set_mark (max_timestamp first rest))
        | [] => now ← device (datetime_now clock); set_me (set_mark now)
        end
      else
        now ← device (datetime_now clock); set_me (set_mark now)
  end.

(** [n] rounds of the loop of [start_optimized_polling], flags unchanged. *)
Fixpoint polling_rounds (n : nat) : M state unit :=
  match n with
  | O => mret tt
  | S n' =>
      l ← me;
      if running l && connected l then
        _ ← try_except poll_and_process_records (fun e => mret tt);
        polling_rounds n'
      else mret tt
  end.

Definition start_optimized_polling (n : nat) : M state unit :=
  try_except
    (_ ← initialize_polling_timestamp; polling_rounds n)
    (fun e => mret tt).

(** *** Vocabulary for the properties *)

(** What is emitted when [r] is taken up for processing. *)
Definition event (r : Attendance.t) : dict :=
  record_data (strip (Attendance.user_id r)) (strftime (Attendance.timestamp r)).

(** What processing leaves alone: the device world and the listener's
    flags. *)
Definition same_session (s s' : state) : Prop :=
  s'.1.1 = s.1.1 ∧ conn s'.2 = conn s.2 ∧ running s'.2 = running s.2
  ∧ connected s'.2 = connected s.2.

(** The timestamp of [a] is not after that of [b]. *)
Definition not_after (a b : Attendance.t) : Prop :=
  gt (Attendance.timestamp a) (Attendance.timestamp b) = false.

(** The records of [records] stamped after [mark]. *)
Definition after_mark (mark : datetime) (records : list Attendance.t)
    : list Attendance.t :=
  List.filter (fun r => gt (Attendance.timestamp r) mark) records.

End Methods.

End ZKListener.

(* ===================================================================== *)
(** ** The registry, the orchestrator and the device together            *)
(* ===================================================================== *)

Module System.

Section System.
Context {D : Type} `{!Conn D}.
Variable clock : nat → datetime.
Variable exn_str : exn → string.

(** One device, one [MembershipManager], one [AutoBlockManager]; each
    manager owns its registry and its [TemplateManager]. *)
Record t := mk {
  world : World D;
  registry : MembershipManager.t;
  orchestrator : AutoBlockManager.t
}.


(** The public operations that change a registry. *)
Inductive op :=
| Add (user_id name expiration_date status : string) (kwargs : dict)
| Validate (user_id : string)
| Block (user_id : string)
| Unblock (user_id : string) (new_expiration : option string)
| Renew (user_id new_expiration : string)
| Deactivate (user_id : string)
| Reactivate (user_id : string) (new_expiration : option string)
| AutoBlock (user_id reason : string)
| AutoUnblock (user_id new_expiration : string).

Definition on_registry {A} (m : M (World D * MembershipManager.t) A) (s : t) : t :=
  let out := m (world s, registry s) in
  mk out.2.1 out.2.2 (orchestrator s).

Definition on_orchestrator {A} (m : M (World D * AutoBlockManager.t) A) (s : t) : t :=
  let out := m (world s, orchestrator s) in
  mk out.2.1 (registry s) out.2.2.

Definition step (o : op) : t → t :=
  match o with
  | Add u n e st kw => on_registry (MembershipManager.add_user clock u n e st kw)
  | Validate u => on_registry (MembershipManager.validate_membership clock exn_str u)
  | Block u => on_registry (MembershipManager.block_user_with_backup clock u)
  | Unblock u e => on_registry (MembershipManager.unblock_user_with_restore clock u e)
  | Renew u e => on_registry (MembershipManager.update_expiration clock u e)
  | Deactivate u => on_registry (MembershipManager.deactivate_user clock u)
  | Reactivate u e => on_registry (MembershipManager.reactivate_user clock u e)
  | AutoBlock u r => on_orchestrator (AutoBlockManager.block_user_automatically clock u r)
  | AutoUnblock u e =>
      on_orchestrator (AutoBlockManager.unblock_user_automatically clock u e)
  end.

Definition run (ops : list op) (s : t) : t := foldl (fun s o => step o s) s ops.

(** The registry holds a record for [user_id] whose status is blocked. *)
Definition blocked (users : gmap string dict) (user_id : string) : Prop :=
  ∃ record, users !! user_id = Some record
            ∧ record !! "status" = Some (VStr "blocked").

(** Every blocked record of [users] has a snapshot in [tm]. *)
Definition covered (users : gmap string dict) (tm : TemplateManager.t) : Prop :=
  ∀ user_id, blocked users user_id →
    is_Some (TemplateManager.templates_db tm !! user_id).



End System.

Arguments t D : clear implicits.

End System.

(* ===================================================================== *)
(** ** An in-memory device                                               *)
(* ===================================================================== *)

(** A device that keeps users, templates and attendance records in lists.
    [faults] schedules failures: each call consumes one entry and raises
    when it is [true]. *)
Module FakeDevice.

Record t := mk {
  users : list User.t;
  templates : list Finger.t;
  attendance : list Attendance.t;
  faults : list bool
}.

Definition guarded {A} (op : t → A * t) : M t A := fun d =>
  match faults d with
  | true :: fs =>
      (Raise (External "device error"), mk (users d) (templates d) (attendance d) fs)
  | false :: fs =>
      let '(a, d') := op (mk (users d) (templates d) (attendance d) fs) in (Ret a, d')
  | [] => let '(a, d') := op d in (Ret a, d')
  end.

Definition relabel (uid : Z) (f : Finger.t) : Finger.t :=
  Finger.mk uid (Finger.fid f) (Finger.valid f) (Finger.template f).

#[global] Instance conn : Conn t := {|
  get_users := guarded (fun d => (users d, d));
  get_templates := guarded (fun d => (templates d, d));
  delete_user uid := guarded (fun d =>
    (tt, mk (List.filter (fun u => negb (User.uid u =? uid)) (users d))
            (List.filter (fun f => negb (Finger.uid f =? uid)) (templates d))
            (attendance d) (faults d)));
  save_user_template u fs := guarded (fun d =>
    (tt, mk (List.filter (fun v => negb (User.uid v =? User.uid u)) (users d) ++ [u])
            (List.filter (fun f => negb (Finger.uid f =? User.uid u)) (templates d)
               ++ map (relabel (User.uid u)) fs)
            (attendance d) (faults d)));
  get_attendance := guarded (fun d => (attendance d, d));
  mark := fun _ => ""
|}.

Definition world (d : t) : World t := mk_world d [] 0%nat [].

End FakeDevice.

(* ===================================================================== *)
(** ** Concrete scenarios                                                *)
(* ===================================================================== *)

Module Scenario.

Definition ana : User.t := User.mk 7 "Ana" 0 "" "" "1001" 0.
Definition luis : User.t := User.mk 8 "Luis" 0 "" "" "1002" 0.

Definition ana_face : Finger.t := Finger.mk 7 50 1 [x01; x02; xfe]%byte.
Definition ana_finger : Finger.t := Finger.mk 7 0 1 [xff]%byte.
Definition luis_face : Finger.t := Finger.mk 8 50 1 [x0a; x0b]%byte.

(** A terminal with two enrolled users and no scheduled failure. *)
Definition enrolled : FakeDevice.t :=
  FakeDevice.mk [ana; luis] [ana_face; luis_face; ana_finger] [] [].

(** The same terminal after Ana was removed from it. *)
Definition without_ana : FakeDevice.t :=
  FakeDevice.mk [luis] [luis_face] [] [].

(** A terminal whose first call fails. *)
Definition unreachable : FakeDevice.t :=
  FakeDevice.mk [ana; luis] [ana_face; luis_face; ana_finger] [] [true].

Definition ana_snapshot : Snapshot.t :=
  TemplateManager.snapshot_of ana [ana_face; ana_finger].

(** An older enrolment of Ana: another device identity, another face. *)
Definition old_ana : User.t := User.mk 3 "Ana" 0 "" "" "1001" 0.
Definition old_snapshot : Snapshot.t :=
  TemplateManager.snapshot_of old_ana [Finger.mk 3 50 1 [xaa; xbb]%byte].
Definition stale_vault : TemplateManager.t :=
  TemplateManager.mk "user_templates.json" {[ "1001" := old_snapshot ]}.

(** A vault that holds Ana's snapshot. *)
Definition vault_with_ana : TemplateManager.t :=
  TemplateManager.mk "user_templates.json" {[ "1001" := ana_snapshot ]}.

Definition empty_vault : TemplateManager.t :=
  TemplateManager.new "user_templates.json".

(** A clock stuck at 11 March 2024, 07:05:09. *)
Definition march_11 : datetime := mk_datetime 2024 3 11 7 5 9 0.
Definition clock (n : nat) : datetime := march_11.

(** A registry entry whose expiration is written with slashes. *)
Definition slashes : dict :=
  {[ "user_id" := VStr "1003"; "name" := VStr "Eva"; "status" := VStr "active";
     "expiration_date" := VStr "2999/12/31" ]}.

(** A registry entry that expired on 1 March 2024. *)
Definition overdue : dict :=
  {[ "user_id" := VStr "1001"; "name" := VStr "Ana"; "status" := VStr "active";
     "expiration_date" := VStr "2024-03-01"; "visit_count" := VInt 4 ]}.

(** [str(e)], left blank. *)
Definition exn_str (e : exn) : string := "".

(** *** Remote services *)

Definition token_body : GymforceAPI.login_body :=
  GymforceAPI.mk_login_body (Some (VStr "t0k3n")) (Ret 7200).

Definition login_ok : res (GymforceAPI.response GymforceAPI.login_body) :=
  Ret (GymforceAPI.mk_response 200 (Ret token_body)).

Definition login_refused : res (GymforceAPI.response GymforceAPI.login_body) :=
  Ret (GymforceAPI.mk_response 500 (Raise (External "not JSON"))).

Definition allow : dict :=
  {[ "status" := VStr "OK"; "access" := VStr "allow"; "respuesta" := VStr "Bienvenido" ]}.

Definition unauthorized : res (GymforceAPI.response dict) :=
  Ret (GymforceAPI.mk_response 401 (Raise (External "not JSON"))).

(** A service that accepts the first login only. *)
Definition login_once (before : list GymforceAPI.request)
    : res (GymforceAPI.response GymforceAPI.login_body) :=
  match before with [] => login_ok | _ => login_refused end.

Definition login_always (before : list GymforceAPI.request)
    : res (GymforceAPI.response GymforceAPI.login_body) := login_ok.

(** A service that answers every query with 401. *)
Definition always_401 (before : list GymforceAPI.request) (rq : GymforceAPI.request)
    : res (GymforceAPI.response dict) := unauthorized.

(** A service that answers 401 to the first two queries, then allows:
    with a login before each query, the third query is the sixth post. *)
Definition allow_third_query (before : list GymforceAPI.request)
    (rq : GymforceAPI.request) : res (GymforceAPI.response dict) :=
  if (length before <? 5)%nat then unauthorized
  else Ret (GymforceAPI.mk_response 200 (Ret allow)).

(** A service that allows every query. *)
Definition always_allow (before : list GymforceAPI.request)
    (rq : GymforceAPI.request) : res (GymforceAPI.response dict) :=
  Ret (GymforceAPI.mk_response 200 (Ret allow)).

Definition time_time (n : nat) : Z := 1000.

Definition offline : GymforceAPI.Net := GymforceAPI.mk_net [] 0.

(** *** Attendance *)

Definition at_hour (h : Z) : datetime := mk_datetime 2024 3 11 h 0 0 0.

(** Three punches after 08:00, not in order of time, and one before. *)
Definition punches : list Attendance.t :=
  [Attendance.mk "1001" (at_hour 9); Attendance.mk "1002" (at_hour 12);
   Attendance.mk "1001" (at_hour 7); Attendance.mk " 1003" (at_hour 10)].

Definition turnstile : FakeDevice.t := FakeDevice.mk [ana; luis] [] punches [].

(** A connected listener whose mark is 08:00. *)
Definition listening : ZKListener.t :=
  ZKListener.mk true true true (Some (at_hour 8)) GymforceAPI.new [] [].

End Scenario.

(* ===================================================================== *)
(** ** src/membership_manager.py: the expiry query                       *)
(* ===================================================================== *)

Module MembershipQueries.

Section Methods.
Context {D : Type} `{!Conn D}.
Variable clock : nat → datetime.

(** The test [get_expired_users] applies to one record; a date that does
    not parse is passed over by the bare [except]. *)
Definition is_expired (today : datetime) (user : dict) : bool :=
  match user !! "expiration_date" with
  | None => false
  | Some exp_date_str =>
      if truthy exp_date_str then
        match strptime exp_date_str with
        | Ret exp_date =>
            gt today exp_date && negb (get_is user "status" "blocked")
        | Raise _ => false
        end
      else false
  end.

(** [get_expired_users]; the records come in the enumeration order of
    the map (Python enumerates a dict in insertion order, which a [gmap]
    does not keep). *)
Definition get_expired_users : M (World D * MembershipManager.t) (list dict) :=
  today ← world (datetime_now clock);
  mm ← self;
  mret (List.filter (is_expired today) (map_to_list (MembershipManager.users mm)).*2).

End Methods.

End MembershipQueries.

(* ===================================================================== *)
(** ** src/auto_block_manager.py: the sweeps                             *)
(* ===================================================================== *)

Module AutoBlockSync.

(** The dictionary [force_sync_all] returns. *)
Record stats := mk_stats {
  total_device : Z;
  total_local : Z;
  backed_up : Z;
  blocked : Z;
  errors : list string
}.

Section Methods.
Context {D : Type} `{!Conn D}.
Variable clock : nat → datetime.
Variable exn_str : exn → string.

Abbreviation should_block_user := (AutoBlockManager.should_block_user clock exn_str).
Abbreviation block_user_automatically := (AutoBlockManager.block_user_automatically clock).

(** The backup step of the startup loop: a snapshot is taken only when
    there is none. *)
Definition backup_if_missing (user_id : string) (backed_up : Z)
    : M (World D * AutoBlockManager.t) Z :=
  ab ← self;
  if negb (TemplateManager.has_backup user_id (AutoBlockManager.template_manager ab))
  then
    ok ← AutoBlockManager.tm_call (TemplateManager.backup_user_templates user_id);
    mret (if (ok : bool) then backed_up + 1 else backed_up)
  else mret backed_up.

(** The block step shared by the three sweeps. *)
Definition block_if_due (user_id : string) (blocked : Z)
    : M (World D * AutoBlockManager.t) Z :=
  decision ← should_block_user user_id;
  if (decision.1 : bool) then
    ok ← block_user_automatically user_id decision.2;
    mret (if (ok : bool) then blocked + 1 else blocked)
  else mret blocked.

(** The loop of [sync_device_users_on_startup] and of [force_sync_all]. *)
Fixpoint sync_each (device_users : list User.t) (backed_up blocked : Z)
    : M (World D * AutoBlockManager.t) (Z * Z) :=
  match device_users with
  | [] => mret (backed_up, blocked)
  | user :: rest =>
      backed_up ← backup_if_missing (User.user_id user) backed_up;
      blocked ← block_if_due (User.user_id user) blocked;
      sync_each rest backed_up blocked
  end.

Definition sync_device_users_on_startup
    : M (World D * AutoBlockManager.t) (Z * Z * Z) :=
  try_except
    (device_users ← world conn_get_users;
     counts ← sync_each device_users 0 0;
     mret (Z.of_nat (length device_users), counts.1, counts.2))
    (fun e => mret (0, 0, 0)).

(** The loop of [check_and_block_expired_daily]. *)
Fixpoint daily_each (device_users : list User.t) (blocked_count : Z)
    : M (World D * AutoBlockManager.t) Z :=
  match device_users with
  | [] => mret blocked_count
  | user :: rest =>
      blocked_count ← block_if_due (User.user_id user) blocked_count;
      daily_each rest blocked_count
  end.

(** [check_and_block_expired_daily] has no handler of its own. *)
Definition check_and_block_expired_daily : M (World D * AutoBlockManager.t) Z :=
  device_users ← world conn_get_users;
  daily_each device_users 0.

(** [force_sync_all]; the counters are updated in place, and nothing in
    the loop raises, so at an exception they still are zero. *)
Definition force_sync_all : M (World D * AutoBlockManager.t) stats :=
  ab ← self;
  let local := Z.of_nat (size (AutoBlockManager.memberships ab)) in
  try_except
    (device_users ← world conn_get_users;
     counts ← sync_each device_users 0 0;
     mret (mk_stats (Z.of_nat (length device_users)) local counts.1 counts.2 []))
    (fun e => mret (mk_stats 0 local 0 0 [exn_str e])).

(** No device user has a record in the registry. *)
Definition unregistered (ab : AutoBlockManager.t) (device_users : list User.t) : Prop :=
  Forall (fun u => AutoBlockManager.memberships ab !! User.user_id u = None)
         device_users.

(** The entry of the log a block of [user_id] leaves. *)
Definition is_block_entry (e : log_entry) : Prop := log_action e = "auto_block".

End Methods.

End AutoBlockSync.

(* ===================================================================== *)
(** ** src/csv_exporter.py: cleaning the records                         *)
(* ===================================================================== *)

Module CSVExporter.

(** What [validate_records] makes of one record: it is kept when it has
    a timestamp and a user id, and its four fields become strings. *)
Definition validate_record (record : dict) : option dict :=
  if bool_decide (is_Some (record !! "timestamp"))
     && bool_decide (is_Some (record !! "user_id"))
  then
    Some (<["timestamp" := VStr (py_str (default (VStr "") (record !! "timestamp")))]>
         (<["user_id" := VStr (py_str (default (VStr "") (record !! "user_id")))]>
         (<["status" := VStr (py_str (default (VStr "processing") (record !! "status")))]>
         (<["reason" := VStr (py_str (default (VStr "") (record !! "reason")))]> ∅))))
  else None.

(** [validate_records]. *)
Definition validate_records (records : list dict) : list dict :=
  omap validate_record records.

(** A record that has the two keys [validate_records] asks for. *)
Definition exportable (record : dict) : Prop :=
  is_Some (record !! "timestamp") ∧ is_Some (record !! "user_id").

End CSVExporter.

(* ===================================================================== *)
(** ** Further vocabulary and scenarios                                  *)
(* ===================================================================== *)

Module Cases.

(** The operations of [System.op] that concern the registry alone. *)
Definition registry_only (o : System.op) : bool :=
  match o with
  | System.Add _ _ _ _ _ | System.Validate _ | System.Renew _ _
  | System.Deactivate _ | System.Reactivate _ _ => true
  | _ => false
  end.

(** A record valid through the end of 2030. *)
Definition paid : dict :=
  {[ "user_id" := VStr "1002"; "name" := VStr "Luis"; "status" := VStr "active";
     "expiration_date" := VStr "2030-12-31"; "visit_count" := VInt 2 ]}.

(** A registry that knows Ana (overdue) and Luis (paid). *)
Definition registry : gmap string dict :=
  {[ "1001" := Scenario.overdue; "1002" := paid ]}.

Definition orchestrator : AutoBlockManager.t :=
  AutoBlockManager.mk "memberships.json" Scenario.empty_vault registry [].

Definition stranger_orchestrator : AutoBlockManager.t :=
  AutoBlockManager.mk "memberships.json" Scenario.empty_vault ∅ [].

Definition manager : MembershipManager.t :=
  MembershipManager.mk "memberships.json" registry Scenario.empty_vault.

(** A listener that has not polled yet. *)
Definition fresh_listener : ZKListener.t :=
  ZKListener.mk true true true None GymforceAPI.new [] [].

(** A client holding a token that is valid until second 5000. *)
Definition logged_in : GymforceAPI.t := GymforceAPI.mk (Some (VStr "t0k3n")) 5000.

(** A service that refuses every login. *)
Definition login_never (before : list GymforceAPI.request)
    : res (GymforceAPI.response GymforceAPI.login_body) := Scenario.login_refused.

End Cases.

(* ===================================================================== *)
(** ** Vocabulary for the sweeps                                         *)
(* ===================================================================== *)

Module Sweeps.

(** What two orchestrator states have in common when only the vault
    gained entries and only the log gained lines. *)
Definition grown (ab ab' : AutoBlockManager.t) (lines : list log_entry) : Prop :=
  TemplateManager.keeps (AutoBlockManager.template_manager ab) (AutoBlockManager.template_manager ab')
  ∧ (∀ u, AutoBlockManager.memberships ab' !! u = None ↔ AutoBlockManager.memberships ab !! u = None)
  ∧ AutoBlockManager.auto_block_log ab' = AutoBlockManager.auto_block_log ab ++ lines
  ∧ AutoBlockManager.memberships_file ab' = AutoBlockManager.memberships_file ab.

(** The line a block writes to the log. *)
Definition block_line (user_id reason stamp : string) : log_entry :=
  mk_log_entry user_id "auto_block" reason stamp.

(** The line an unblock writes to the log. *)
Definition unblock_line (user_id new_expiration stamp : string) : log_entry :=
  mk_log_entry user_id "auto_unblock" new_expiration stamp.

End Sweeps.

(* ===================================================================== *)
(** ** Vocabulary for the listener's table                               *)
(* ===================================================================== *)

Module Rows.

(** What identifies a row of [attendance_records]: its user and its
    timestamp. *)
Definition row_key (rec : dict) : option pyval * option pyval :=
  (rec !! "user_id", rec !! "timestamp").

(** The status the listener derives from an answer of the client. *)
Definition verdict (answer : res (option dict)) : string :=
  match answer with
  | Ret (Some result) =>
      if get_is result "access" "allow" then "allowed" else "denied"
  | _ => "processing"
  end.

End Rows.

(* ===================================================================== *)
(** ** Proof support                                                     *)
(* ===================================================================== *)

Ltac unfold_py :=
  unfold mbind, M_bind, mret, M_ret, bind, ret, raise, try_except, world,
    zoom, self, set_self, gets, get, modify, lift_res, conn_get_users,
    conn_get_templates, conn_delete_user, conn_save_user_template,
    conn_get_attendance, conn_call, dump, datetime_now in *;
  cbn [fst snd dev calls ticks writes] in *.

(** *** Ordering of datetimes *)

Module DatetimeFacts.

Lemma lex_Gt c k : lex c k = Gt ↔ c = Gt ∨ (c = Eq ∧ k = Gt).
Proof. destruct c; simpl; intuition congruence. Qed.

Lemma lex_Lt c k : lex c k = Lt ↔ c = Lt ∨ (c = Eq ∧ k = Lt).
Proof. destruct c; simpl; intuition congruence. Qed.

Lemma gt_later a b : gt a b = true ↔ later a b.
Proof.
  unfold gt, later, cmp.
  destruct (lex _ _) eqn:E.
  - split; [discriminate|]. intros L.
    rewrite <- !Z.compare_gt_iff, <- !Z.compare_eq_iff, <- !lex_Gt in L. congruence.
  - split; [discriminate|]. intros L.
    rewrite <- !Z.compare_gt_iff, <- !Z.compare_eq_iff, <- !lex_Gt in L. congruence.
  - split; [|reflexivity]. intros _.
    rewrite !lex_Gt, !Z.compare_gt_iff, !Z.compare_eq_iff in E. exact E.
Qed.

Lemma gt_irrefl a : gt a a = false.
Proof.
  destruct (gt a a) eqn:E; [|reflexivity].
  apply gt_later in E. unfold later in E. lia.
Qed.

Lemma gt_trans a b c : gt a b = true → gt b c = true → gt a c = true.
Proof. rewrite !gt_later. unfold later. lia. Qed.

Lemma gt_asym a b : gt a b = true → gt b a = false.
Proof.
  intros H. destruct (gt b a) eqn:E; [|reflexivity].
  pose proof (gt_trans _ _ _ H E) as F. rewrite gt_irrefl in F. discriminate.
Qed.

(** [a <= b <= c] chains, with [a <= b] read as [gt a b = false]. *)
Lemma le_trans a b c : gt a b = false → gt b c = false → gt a c = false.
Proof.
  intros H1 H2. destruct (gt a c) eqn:E; [|reflexivity].
  apply gt_later in E.
  assert (N1 : ¬ later a b) by (rewrite <- gt_later; congruence).
  assert (N2 : ¬ later b c) by (rewrite <- gt_later; congruence).
  unfold later in *. lia.
Qed.

Lemma le_gt_trans a b c : gt a b = false → gt c b = true → gt a c = false.
Proof.
  intros H1 H2. destruct (gt a c) eqn:E; [|reflexivity].
  pose proof (gt_trans _ _ _ E H2). congruence.
Qed.

(** A date strictly before another is before it at any time of day. *)
Lemma date_lt_gt a b : date_lt a b = true → gt b a = true.
Proof.
  unfold date_lt. intros H. apply gt_later. unfold later.
  destruct (lex _ _) eqn:E; try discriminate.
  rewrite !lex_Lt, !Z.compare_lt_iff, !Z.compare_eq_iff in E. lia.
Qed.

(** A midnight is not after any time of a later date. *)
Lemma date_lt_not_gt a b : date_lt a b = true → gt a b = false.
Proof. intros H. apply gt_asym, date_lt_gt, H. Qed.

End DatetimeFacts.

Module TemplateManagerFacts.
Import TemplateManager.

Section Facts.
Context {D : Type} `{!Conn D}.

(** The outcomes of a backup, read off the two device reads. *)
Lemma backup_user_templates_eq (user_id : string) (w : World D) (tm : t) :
  backup_user_templates user_id (w, tm) =
  match get_users (dev w) with
  | (Raise _, d1) =>
      (Ret false, (mk_world d1 (calls w ++ [GetUsers]) (ticks w) (writes w), tm))
  | (Ret users, d1) =>
      match find_user user_id users with
      | None =>
          (Ret false, (mk_world d1 (calls w ++ [GetUsers]) (ticks w) (writes w), tm))
      | Some user =>
          match get_templates d1 with
          | (Raise _, d2) =>
              (Ret false,
               (mk_world d2 ((calls w ++ [GetUsers]) ++ [GetTemplates])
                  (ticks w) (writes w), tm))
          | (Ret all_templates, d2) =>
              match List.filter (fun t => Finger.uid t =? User.uid user) all_templates with
              | [] =>
                  (Ret false,
                   (mk_world d2 ((calls w ++ [GetUsers]) ++ [GetTemplates])
                      (ticks w) (writes w), tm))
              | ts =>
                  let db := <[user_id := snapshot_of user ts]> (templates_db tm) in
                  (Ret true,
                   (mk_world d2 ((calls w ++ [GetUsers]) ++ [GetTemplates]) (ticks w)
                      (writes w ++ [(templates_file tm, DocTemplates db)]),
                    mk (templates_file tm) db))
              end
          end
      end
  end.
Proof.
  unfold backup_user_templates, save_templates, set_db. unfold_py.
  destruct (get_users (dev w)) as [[users|e] d1]; [|reflexivity].
  destruct (find_user user_id users) as [user|]; [|reflexivity].
  cbn [fst snd dev calls ticks writes].
  destruct (get_templates d1) as [[all_templates|e] d2]; [|reflexivity].
  destruct (List.filter _ all_templates); reflexivity.
Qed.

(** A backup only reads from the device. *)
Lemma backup_only_reads (user_id : string) (w : World D) (tm : t) :
  ∃ reads, calls (backup_user_templates user_id (w, tm)).2.1 = calls w ++ reads
           ∧ Forall (fun c => is_read c = true) reads.
Proof.
  rewrite backup_user_templates_eq.
  destruct (get_users (dev w)) as [[users|e] d1].
  2:{ exists [GetUsers]. split; [reflexivity|]. repeat constructor. }
  destruct (find_user user_id users) as [user|].
  2:{ exists [GetUsers]. split; [reflexivity|]. repeat constructor. }
  destruct (get_templates d1) as [[all_templates|e] d2];
    [destruct (List.filter _ all_templates)|];
    (exists [GetUsers; GetTemplates]; split;
     [cbn; by rewrite <- app_assoc | repeat constructor]).
Qed.

(** A backup returns [True] or [False]; it never raises. *)
Lemma backup_returns (user_id : string) (s : World D * t) :
  ∃ b : bool, (backup_user_templates user_id s).1 = Ret b.
Proof.
  destruct s as [w tm]. rewrite backup_user_templates_eq.
  destruct (get_users (dev w)) as [[users|e] d1]; [|by exists false].
  destruct (find_user user_id users) as [user|]; [|by exists false].
  destruct (get_templates d1) as [[all_templates|e] d2]; [|by exists false].
  destruct (List.filter _ all_templates); [by exists false|by exists true].
Qed.

(** The vault after a backup: untouched on failure, one entry written on
    success. *)
Lemma backup_vault (user_id : string) (w : World D) (tm : t) :
  let out := backup_user_templates user_id (w, tm) in
  (out.1 = Ret false ∧ out.2.2 = tm ∧ writes out.2.1 = writes w)
  ∨ (∃ user ts, ts ≠ [] ∧ device_templates user_id (dev w) = Some (user, ts)
       ∧ out.1 = Ret true
       ∧ out.2.2 = mk (templates_file tm)
                      (<[user_id := snapshot_of user ts]> (templates_db tm))
       ∧ writes out.2.1 =
           writes w ++ [(templates_file tm, DocTemplates (templates_db out.2.2))]).
Proof.
  cbv zeta. rewrite backup_user_templates_eq. unfold device_templates.
  destruct (get_users (dev w)) as [[users|e] d1]; [|by left].
  destruct (find_user user_id users) as [user|]; [|by left].
  destruct (get_templates d1) as [[all_templates|e] d2]; [|by left].
  destruct (List.filter _ all_templates) as [|t0 ts] eqn:F; [by left|].
  right. exists user, (t0 :: ts). repeat split; done.
Qed.

(** [block_user], read off the backup and the two device calls after it. *)
Lemma block_user_eq (user_id : string) (s : World D * t) :
  block_user user_id s =
  match backup_user_templates user_id s with
  | (Ret true, (w1, tm1)) =>
      match get_users (dev w1) with
      | (Raise _, d2) =>
          (Ret false,
           (mk_world d2 (calls w1 ++ [GetUsers]) (ticks w1) (writes w1), tm1))
      | (Ret users, d2) =>
          match find_user user_id users with
          | None =>
              (Ret false,
               (mk_world d2 (calls w1 ++ [GetUsers]) (ticks w1) (writes w1), tm1))
          | Some user =>
              match delete_user (User.uid user) d2 with
              | (r, d3) =>
                  (match r with Ret _ => Ret true | Raise _ => Ret false end,
                   (mk_world d3 ((calls w1 ++ [GetUsers]) ++ [DeleteUser (User.uid user)])
                      (ticks w1) (writes w1), tm1))
              end
          end
      end
  | (_, s1) => (Ret false, s1)
  end.
Proof.
  unfold block_user. unfold_py.
  destruct (backup_user_templates user_id s) as [[[|]|e] [w1 tm1]]; try reflexivity.
  cbn [negb fst snd].
  destruct (get_users (dev w1)) as [[users|e] d2]; [|reflexivity].
  destruct (find_user user_id users) as [user|]; [|reflexivity].
  cbn [fst snd dev calls ticks writes].
  destruct (delete_user (User.uid user) d2) as [[[]|e] d3]; reflexivity.
Qed.

(** C1.  [block_user] starts with the backup.  When the backup does not
    succeed, [block_user] returns [False] in exactly the state the backup
    left, so the only calls it made on the device are the backup's reads
    and no delete was issued.  When [block_user] returns [True], the
    backup had succeeded, the vault held the snapshot of [user_id] before
    the delete was issued and still holds it, and the delete is the last
    call made. *)
Theorem block_user_backup_first (user_id : string) (w : World D) (tm : t) :
  let backed := backup_user_templates user_id (w, tm) in
  let out := block_user user_id (w, tm) in
  (∃ reads, calls backed.2.1 = calls w ++ reads
            ∧ Forall (fun c => is_read c = true) reads)
  ∧ (∃ more, calls out.2.1 = calls backed.2.1 ++ more
             ∧ out.2.2 = backed.2.2
             ∧ (backed.1 ≠ Ret true → out.1 = Ret false ∧ out.2 = backed.2 ∧ more = [])
             ∧ (∀ uid, DeleteUser uid ∈ more →
                  backed.1 = Ret true
                  ∧ is_Some (templates_db backed.2.2 !! user_id)
                  ∧ ∃ users d2 user, get_users (dev backed.2.1) = (Ret users, d2)
                      ∧ find_user user_id users = Some user
                      ∧ uid = User.uid user)
             ∧ (out.1 = Ret true →
                  backed.1 = Ret true
                  ∧ is_Some (templates_db backed.2.2 !! user_id)
                  ∧ is_Some (templates_db out.2.2 !! user_id)
                  ∧ ∃ uid, more = [GetUsers; DeleteUser uid])).
Proof.
  cbv zeta. split; [apply backup_only_reads|].
  rewrite block_user_eq.
  pose proof (backup_vault user_id w tm) as V. cbv zeta in V.
  destruct (backup_user_templates user_id (w, tm)) as [r [w1 tm1]] eqn:B.
  cbn [fst snd] in *.
  destruct V as [(R & _ & _) | (user0 & ts & Hts & _ & R & Htm & _)]; subst r.
  - exists []. rewrite app_nil_r. split_and!; try done.
    intros uid Hin. by apply elem_of_nil in Hin.
  - assert (Hsnap : is_Some (templates_db tm1 !! user_id)).
    { rewrite Htm. cbn. rewrite lookup_insert_eq. by eexists. }
    destruct (get_users (dev w1)) as [[users|e] d2] eqn:U.
    2:{ exists [GetUsers]. cbn. split_and!; try done.
        intros uid Hin. apply list_elem_of_singleton in Hin. discriminate. }
    destruct (find_user user_id users) as [user|] eqn:F.
    2:{ exists [GetUsers]. cbn. split_and!; try done.
        intros uid Hin. apply list_elem_of_singleton in Hin. discriminate. }
    destruct (delete_user (User.uid user) d2) as [rd d3].
    exists [GetUsers; DeleteUser (User.uid user)]. cbn.
    split; [by rewrite <- app_assoc|]. split; [done|]. split; [done|].
    split.
    + intros uid Hin. split; [done|]. split; [done|].
      exists users, d2, user. split_and!; try done.
      apply elem_of_cons in Hin as [Hin|Hin]; [discriminate|].
      apply list_elem_of_singleton in Hin. congruence.
    + intros _. split_and!; try done. by eexists.
Qed.

(** *** How each method changes the vault *)

Lemma extends_refl tm : extends tm tm.
Proof. intros k b Hb. by left. Qed.

Lemma extends_trans tm1 tm2 tm3 : extends tm1 tm2 → extends tm2 tm3 → extends tm1 tm3.
Proof.
  intros H12 H23 k b Hb. destruct (H23 k b Hb) as [H|H]; [|by right].
  apply H12, H.
Qed.

Lemma keeps_refl tm : keeps tm tm.
Proof. by intros k Hk. Qed.

Lemma keeps_trans tm1 tm2 tm3 : keeps tm1 tm2 → keeps tm2 tm3 → keeps tm1 tm3.
Proof. intros H12 H23 k Hk. apply H23, H12, Hk. Qed.

Lemma backup_extends user_id w tm :
  extends tm (backup_user_templates user_id (w, tm)).2.2
  ∧ keeps tm (backup_user_templates user_id (w, tm)).2.2.
Proof.
  destruct (backup_vault user_id w tm) as [(_ & -> & _) | (user & ts & Hts & _ & _ & -> & _)].
  - split; [apply extends_refl | apply keeps_refl].
  - split.
    + intros k b. cbn. rewrite lookup_insert. case_decide.
      * intros [= <-]. right. by exists user, ts.
      * by left.
    + intros k Hk. cbn. rewrite lookup_insert. case_decide; [by eexists|done].
Qed.

(** A successful backup leaves a snapshot under [user_id]. *)
Lemma backup_true_has_backup user_id w tm :
  (backup_user_templates user_id (w, tm)).1 = Ret true →
  has_backup user_id (backup_user_templates user_id (w, tm)).2.2 = true.
Proof.
  destruct (backup_vault user_id w tm) as [(R & _ & _) | (user & ts & _ & _ & _ & -> & _)].
  - rewrite R. discriminate.
  - intros _. unfold has_backup. apply bool_decide_eq_true. cbn.
    rewrite lookup_insert_eq. by eexists.
Qed.

Lemma restore_vault user_id (s : World D * t) :
  (restore_user_templates user_id s).2.2 = s.2.
Proof.
  unfold restore_user_templates. unfold_py. destruct s as [w tm]. cbn.
  destruct (templates_db tm !! user_id) as [backup|]; [|reflexivity].
  destruct (fingers_of _) as [fs|e]; [|reflexivity].
  cbn. destruct (save_user_template _ _ _) as [[[]|e] d1]; reflexivity.
Qed.

Lemma block_vault user_id (s : World D * t) :
  (block_user user_id s).2.2 = (backup_user_templates user_id s).2.2.
Proof.
  rewrite block_user_eq.
  destruct (backup_user_templates user_id s) as [[[|]|e] [w1 tm1]]; try reflexivity.
  destruct (get_users (dev w1)) as [[users|e] d2]; [|reflexivity].
  destruct (find_user user_id users) as [user|]; [|reflexivity].
  destruct (delete_user (User.uid user) d2) as [r d3]. reflexivity.
Qed.

(** [block_user] returns [True] only after a successful backup. *)
Lemma block_true_backup user_id (s : World D * t) :
  (block_user user_id s).1 = Ret true →
  (backup_user_templates user_id s).1 = Ret true.
Proof.
  rewrite block_user_eq.
  destruct (backup_user_templates user_id s) as [[[|]|e] [w1 tm1]]; try discriminate.
  done.
Qed.


Lemma backup_each_extends users count (s : World D * t) :
  extends s.2 (backup_each users count s).2.2
  ∧ keeps s.2 (backup_each users count s).2.2.
Proof.
  revert count s. induction users as [|user rest IH]; intros count [w tm].
  - split; [apply extends_refl | apply keeps_refl].
  - cbn [backup_each]. unfold_py.
    pose proof (backup_extends (User.user_id user) w tm) as [E K].
    destruct (backup_returns (User.user_id user) (w, tm)) as [b Hb].
    destruct (backup_user_templates (User.user_id user) (w, tm)) as [r [w1 tm1]].
    cbn in Hb, E, K. subst r.
    destruct (IH (if b then count + 1 else count) (w1, tm1)) as [E' K'].
    split; [eapply extends_trans | eapply keeps_trans]; eauto.
Qed.

Lemma backup_all_extends (s : World D * t) :
  extends s.2 (backup_all_users s).2.2 ∧ keeps s.2 (backup_all_users s).2.2.
Proof.
  unfold backup_all_users. unfold_py. destruct s as [w tm]. cbn.
  destruct (get_users (dev w)) as [[users|e] d1]; cbn.
  2:{ split; [apply extends_refl | apply keeps_refl]. }
  pose proof (backup_each_extends users 0
                (mk_world d1 (calls w ++ [GetUsers]) (ticks w) (writes w), tm)) as IH.
  destruct (backup_each users 0 _) as [[n|e] [w2 tm2]]; exact IH.
Qed.





(** *** The text encoding of payloads *)

Lemma fromhex_hex_byte (b : byte) (rest : string) :
  fromhex (hex_byte b +:+ rest) =
  match fromhex rest with Some xs => Some (b :: xs) | None => None end.
Proof. destruct b; reflexivity. Qed.

(** [bytes.fromhex(b.hex()) == b]. *)
Lemma fromhex_hex (bs : list byte) : fromhex (hex bs) = Some bs.
Proof.
  induction bs as [|b bs IH]; [reflexivity|].
  cbn [hex]. rewrite fromhex_hex_byte, IH. reflexivity.
Qed.

Lemma fingers_of_spec (ts : list Snapshot.template_data) (fs : list Finger.t) :
  fingers_of ts = Ret fs →
  map (fun t => fromhex (Snapshot.template t)) ts
  = map (fun f => Some (Finger.template f)) fs
  ∧ length fs = length ts.
Proof.
  revert fs. induction ts as [|t ts IH]; intros fs; cbn.
  - intros [= <-]. done.
  - destruct (fromhex (Snapshot.template t)) as [bytes|]; [|discriminate].
    destruct (fingers_of ts) as [fs'|e]; [|discriminate].
    intros [= <-]. destruct (IH fs' eq_refl) as [E1 E2]. cbn. by rewrite E1, E2.
Qed.

(** What a backup stored can be decoded again. *)
Lemma captured_decodes (b : Snapshot.t) :
  captured b → ∃ fs, fingers_of (Snapshot.templates b) = Ret fs.
Proof.
  intros (user & ts & _ & ->). cbn. clear user.
  induction ts as [|t ts [fs IH]]; cbn; [by eexists|].
  rewrite fromhex_hex, IH. by eexists.
Qed.

(** What a backup does is decided by what the device reports for the
    user: nothing without templates, a fresh snapshot otherwise. *)
Lemma backup_of_device (user_id : string) (w : World D) (tm : t)
    (user : User.t) (ts : list Finger.t) :
  device_templates user_id (dev w) = Some (user, ts) →
  let out := backup_user_templates user_id (w, tm) in
  match ts with
  | [] => out.1 = Ret false ∧ out.2.2 = tm
  | _ => out.1 = Ret true
         ∧ out.2.2 = mk (templates_file tm)
                        (<[user_id := snapshot_of user ts]> (templates_db tm))
  end.
Proof.
  intros Hdev. cbv zeta. rewrite backup_user_templates_eq.
  unfold device_templates in Hdev.
  destruct (get_users (dev w)) as [[users|e] d1]; [|done].
  destruct (find_user user_id users) as [u|]; [|done].
  destruct (get_templates d1) as [[all_templates|e] d2]; [|done].
  injection Hdev as <- <-.
  destruct (List.filter _ all_templates); done.
Qed.

(** C8.  Take a vault that holds a snapshot [b] for [user_id] whose
    payload texts decode (as those written by a backup do), and a device
    that, once the restored user and templates are uploaded, reports that
    user with the uploaded payloads, under whatever identifiers it
    assigns.  Then the restore succeeds.  When [b] has at least one
    template, the backup that follows succeeds too and puts under
    [user_id] the snapshot of what the device reports, in place of [b];
    that snapshot has as many templates as [b] and, template by
    template, the same payload bytes.  When [b] has no template, the
    device has none to report, the backup answers [False] and the vault
    is as it was. *)
Theorem restore_then_backup_roundtrip
    (user_id : string) (w : World D) (tm : t) (b : Snapshot.t)
    (fs : list Finger.t) (d1 : D) (user' : User.t) (ts' : list Finger.t) :
  templates_db tm !! user_id = Some b →
  fingers_of (Snapshot.templates b) = Ret fs →
  save_user_template (user_of (Snapshot.user b)) fs (dev w) = (Ret tt, d1) →
  device_templates user_id d1 = Some (user', ts') →
  map Finger.template ts' = map Finger.template fs →
  let restored := restore_user_templates user_id (w, tm) in
  let out := backup_user_templates user_id restored.2 in
  let b' := snapshot_of user' ts' in
  restored.1 = Ret true
  ∧ length (Snapshot.templates b') = length (Snapshot.templates b)
  ∧ map (fun t => fromhex (Snapshot.template t)) (Snapshot.templates b')
    = map (fun t => fromhex (Snapshot.template t)) (Snapshot.templates b)
  ∧ map (fun t => fromhex (Snapshot.template t)) (Snapshot.templates b')
    = map (fun f => Some (Finger.template f)) ts'
  ∧ match Snapshot.templates b with
    | [] => out.1 = Ret false ∧ out.2.2 = tm
    | _ => out.1 = Ret true
           ∧ out.2.2 = mk (templates_file tm) (<[user_id := b']> (templates_db tm))
           ∧ templates_db out.2.2 !! user_id = Some b'
    end.
Proof.
  intros Hb Hfs Hsave Hdev Hpay. cbv zeta.
  assert (R : restore_user_templates user_id (w, tm) =
              (Ret true,
               (mk_world d1 (calls w ++ [SaveUserTemplate (user_of (Snapshot.user b)) fs])
                  (ticks w) (writes w), tm))).
  { unfold restore_user_templates. unfold_py. cbn. rewrite Hb, Hfs. cbn.
    rewrite Hsave. reflexivity. }
  rewrite R. cbn [fst snd]. split; [reflexivity|].
  destruct (fingers_of_spec _ _ Hfs) as [Hdec Hlen].
  assert (Hcount : length ts' = length (Snapshot.templates b)).
  { rewrite <- Hlen, <- (length_map Finger.template ts'), Hpay. by rewrite length_map. }
  assert (Hbytes : map (fun t => fromhex (Snapshot.template t))
                       (Snapshot.templates (snapshot_of user' ts'))
                   = map (fun f => Some (Finger.template f)) ts').
  { cbn [snapshot_of Snapshot.templates]. rewrite map_map. cbn.
    apply map_ext. intros f. apply fromhex_hex. }
  split_and!.
  - cbn [snapshot_of Snapshot.templates]. by rewrite length_map.
  - rewrite Hbytes, Hdec.
    by rewrite <- (map_map Finger.template Some ts'), Hpay, map_map.
  - exact Hbytes.
  - match goal with |- context [backup_user_templates user_id (?w1, tm)] =>
      pose proof (backup_of_device user_id w1 tm user' ts' Hdev) as B end.
    cbv zeta in B.
    destruct (Snapshot.templates b) as [|t0 rest]; destruct ts' as [|f0 ts'];
      try discriminate Hcount.
    + exact B.
    + destruct B as [B1 B2]. split_and!; [exact B1|exact B2|].
      rewrite B2. cbn [templates_db]. apply lookup_insert_eq.
Qed.

End Facts.

(** Ana, removed from the terminal, is restored from the vault and backed
    up again: the backup succeeds and stores what the terminal now
    reports, two templates with the bytes of the snapshot. *)
Lemma restore_then_backup_roundtrip_witness :
  let s := (FakeDevice.world Scenario.without_ana, Scenario.vault_with_ana) in
  let restored := restore_user_templates "1001" s in
  let out := backup_user_templates "1001" restored.2 in
  let reported := [Scenario.ana_face; Scenario.ana_finger] in
  restored.1 = Ret true
  ∧ out.1 = Ret true
  ∧ templates_db out.2.2 !! "1001" = Some (snapshot_of Scenario.ana reported)
  ∧ length (Snapshot.templates (snapshot_of Scenario.ana reported))
    = length (Snapshot.templates Scenario.ana_snapshot)
  ∧ map (fun t => fromhex (Snapshot.template t))
        (Snapshot.templates (snapshot_of Scenario.ana reported))
    = map (fun t => fromhex (Snapshot.template t))
          (Snapshot.templates Scenario.ana_snapshot).
Proof.
  cbv zeta.
  destruct (restore_then_backup_roundtrip "1001"
              (FakeDevice.world Scenario.without_ana) Scenario.vault_with_ana
              Scenario.ana_snapshot [Scenario.ana_face; Scenario.ana_finger]
              (FakeDevice.mk [Scenario.luis; Scenario.ana]
                 [Scenario.luis_face; Scenario.ana_face; Scenario.ana_finger] [] [])
              Scenario.ana [Scenario.ana_face; Scenario.ana_finger])
    as (A & B & C & _ & E1 & _ & E3); [reflexivity..|].
  split_and!; [exact A|exact E1|exact E3|exact B|exact C].
Defined.

End TemplateManagerFacts.

Module AutoBlockManagerFacts.
Import DatetimeFacts TemplateManagerFacts AutoBlockManager.

Lemma strptime_midnight (v : pyval) (d : datetime) :
  strptime v = Ret d → midnight d.
Proof.
  destruct v as [| | |s]; try discriminate. cbn. unfold strptime_str.
  destruct (regex_Ymd s) as [[[[y m] dd] rest]|]; [|discriminate].
  destruct (negb _); [discriminate|]. destruct (valid_date y m dd); [|discriminate].
  intros [= <-]. by repeat split.
Qed.

(** Whole days between a midnight and a later moment. *)
Lemma sub_days_midnight (now d : datetime) :
  midnight d → valid_time now → sub_days now d = toordinal now - toordinal d.
Proof.
  intros (Hh & Hm & Hs & Hu) (Vh & Vm & Vs & Vu). unfold sub_days.
  rewrite Hh, Hm, Hs, Hu. symmetry.
  apply Z.div_unique with
    (r := (second now + minute now * 60 + hour now * 3600) * 1000000 + microsecond now);
    lia.
Qed.

Section Facts.
Context {D : Type} `{!Conn D}.
Variable clock : nat → datetime.
Variable exn_str : exn → string.

(** C7, as the code has it.  [should_block_user] decides by the first
    case that applies: not registered, no; status blocked, yes; status
    inactive, yes; expiration missing or empty, yes; expiration that is
    not a [%Y-%m-%d] date, yes, with the error as reason; expiration
    before now, yes, the reason giving the whole days elapsed (for a clock
    within the day, the difference of the day numbers); otherwise no.
    The registry is left as it was. *)
Theorem should_block_precedence (user_id : string) (w : World D) (ab : t) :
  let out := should_block_user clock exn_str user_id (w, ab) in
  let now := clock (ticks w) in
  out.2.2 = ab
  ∧ match memberships ab !! user_id with
    | None => out.1 = Ret (false, "Usuario no registrado en sistema local")
    | Some membership =>
        if get_is membership "status" "blocked" then
          out.1 = Ret (true, "Ya est" +:+ chr 225 +:+ " bloqueado")
        else if get_is membership "status" "inactive" then
          out.1 = Ret (true, "Usuario inactivo")
        else if get_falsy (membership !! "expiration_date") then
          out.1 = Ret (true, "Sin fecha de vencimiento")
        else
          ∀ expiration, membership !! "expiration_date" = Some expiration →
            match strptime expiration with
            | Raise e => out.1 = Ret (true, "Error en fecha: " +:+ exn_str e)
            | Ret exp_date =>
                if gt now exp_date then
                  out.1 = Ret (true, "Membres" +:+ chr 237 +:+ "a vencida hace "
                                     +:+ str_int (sub_days now exp_date)
                                     +:+ " d" +:+ chr 237 +:+ "as")
                  ∧ (valid_time now →
                     sub_days now exp_date = toordinal now - toordinal exp_date)
                else out.1 = Ret (false, "Membres" +:+ chr 237 +:+ "a activa")
            end
    end.
Proof.
  cbv zeta. unfold should_block_user. unfold_py. cbn [fst snd].
  destruct (memberships ab !! user_id) as [membership|]; [|done].
  destruct (get_is membership "status" "blocked"); [done|].
  destruct (get_is membership "status" "inactive"); [done|].
  unfold get_falsy.
  destruct (membership !! "expiration_date") as [expiration|]; [|done].
  destruct (truthy expiration); cbn [negb]; [|done].
  destruct (strptime expiration) as [exp_date|e] eqn:P; cbn.
  - destruct (gt (clock (ticks w)) exp_date) eqn:G; cbn.
    + split; [done|]. intros ? [= <-]. rewrite P, G. split; [done|].
      apply sub_days_midnight. eapply strptime_midnight, P.
    + split; [done|]. intros ? [= <-]. by rewrite P, G.
  - split; [done|]. intros ? [= <-]. by rewrite P.
Qed.

(** With a snapshot in the vault, the automatic block goes straight to
    the user lookup and the delete; the vault is not touched. *)
Lemma block_automatically_with_backup (user_id reason : string) (w : World D) (ab : t) :
  TemplateManager.has_backup user_id (template_manager ab) = true →
  let out := block_user_automatically clock user_id reason (w, ab) in
  template_manager out.2.2 = template_manager ab
  ∧ match get_users (dev w) with
    | (Ret users, d1) =>
        match find_user user_id users with
        | Some user =>
            calls out.2.1 = calls w ++ [GetUsers; DeleteUser (User.uid user)]
            ∧ dev out.2.1 = (delete_user (User.uid user) d1).2
            ∧ out.1 = Ret (returned (delete_user (User.uid user) d1).1)
        | None => calls out.2.1 = calls w ++ [GetUsers] ∧ out.1 = Ret false
        end
    | (Raise _, _) => calls out.2.1 = calls w ++ [GetUsers] ∧ out.1 = Ret false
    end.
Proof.
  intros Hb. cbv zeta. unfold block_user_automatically. unfold_py.
  cbn [fst snd]. rewrite Hb. cbn [negb fst snd].
  destruct (get_users (dev w)) as [[users|e] d1]; [|done].
  destruct (find_user user_id users) as [user|]; [|done].
  cbn [fst snd dev calls ticks writes].
  destruct (delete_user (User.uid user) d1) as [[[]|e] d2]; cbn [fst snd].
  - destruct (memberships ab !! user_id); cbn; by rewrite <- app_assoc.
  - cbn. by rewrite <- app_assoc.
Qed.

(** Without a snapshot, the automatic block starts with a backup and gives
    up when that backup does not succeed. *)
Lemma block_automatically_without_backup (user_id reason : string) (w : World D) (ab : t) :
  TemplateManager.has_backup user_id (template_manager ab) = false →
  let backed := TemplateManager.backup_user_templates user_id (w, template_manager ab) in
  let out := block_user_automatically clock user_id reason (w, ab) in
  template_manager out.2.2 = backed.2.2
  ∧ ∃ more, calls out.2.1 = calls backed.2.1 ++ more
            ∧ (backed.1 ≠ Ret true → out.1 = Ret false ∧ more = [])
            ∧ (out.1 = Ret true → backed.1 = Ret true).
Proof.
  intros Hb. cbv zeta. unfold block_user_automatically, tm_call. unfold_py.
  cbn [fst snd]. rewrite Hb. cbn [negb fst snd].
  destruct (TemplateManager.backup_user_templates user_id (w, template_manager ab))
    as [[[|]|e] [w1 tm1]]; cbn [negb fst snd template_manager].
  - destruct (get_users (dev w1)) as [[users|e] d1].
    2:{ split; [done|]. by exists [GetUsers]. }
    destruct (find_user user_id users) as [user|].
    2:{ split; [done|]. by exists [GetUsers]. }
    cbn [fst snd dev calls ticks writes].
    destruct (delete_user (User.uid user) d1) as [[[]|e] d2]; cbn [fst snd].
    + cbn. destruct (memberships ab !! user_id); cbn;
        (split; [done|]; exists [GetUsers; DeleteUser (User.uid user)];
         by rewrite <- app_assoc).
    + cbn. split; [done|]. exists [GetUsers; DeleteUser (User.uid user)].
      by rewrite <- app_assoc.
  - split; [done|]. exists []. by rewrite app_nil_r.
  - split; [done|]. exists []. by rewrite app_nil_r.
Qed.

End Facts.

(** C7, as the claim has it, fails: a registered, active entry whose
    expiration reads [2999/12/31] is none of blocked, inactive, without
    expiration or expired, and [should_block_user] answers yes. *)
Lemma should_block_otherwise_true :
  let ab := mk "memberships.json" Scenario.empty_vault
              {[ "1003" := Scenario.slashes ]} [] in
  let out := should_block_user Scenario.clock Scenario.exn_str "1003"
               (FakeDevice.world Scenario.enrolled, ab) in
  memberships ab !! "1003" = Some Scenario.slashes
  ∧ get_is Scenario.slashes "status" "blocked" = false
  ∧ get_is Scenario.slashes "status" "inactive" = false
  ∧ get_falsy (Scenario.slashes !! "expiration_date") = false
  ∧ (∀ d, strptime (VStr "2999/12/31") = Ret d → gt Scenario.march_11 d = false)
  ∧ out.1 = Ret (true, "Error en fecha: ").
Proof.
  cbv zeta. split_and!; try (vm_compute; reflexivity).
  intros d. vm_compute. discriminate.
Qed.

(** C10.  When the vault already holds a snapshot for [user_id], the
    automatic block takes no backup: it issues the user lookup and the
    delete and leaves the vault as it was.  Only without a snapshot does
    it start with a backup, on whose failure it stops.  The snapshot
    relied upon can be out of date: with an older enrolment of Ana in the
    vault, blocking her removes her current face and finger templates
    from the device while the vault keeps only the old entry. *)
Theorem auto_block_reuses_snapshot :
  (∀ (D : Type) (C : Conn D) (clock : nat → datetime)
     (user_id reason : string) (w : World D) (ab : t),
     let out := block_user_automatically clock user_id reason (w, ab) in
     if TemplateManager.has_backup user_id (template_manager ab) then
       template_manager out.2.2 = template_manager ab
       ∧ (GetTemplates ∉ drop (length (calls w)) (calls out.2.1))
       ∧ match get_users (dev w) with
         | (Ret users, d1) =>
             match find_user user_id users with
             | Some user =>
                 calls out.2.1 = calls w ++ [GetUsers; DeleteUser (User.uid user)]
                 ∧ dev out.2.1 = (delete_user (User.uid user) d1).2
                 ∧ out.1 = Ret (returned (delete_user (User.uid user) d1).1)
             | None => calls out.2.1 = calls w ++ [GetUsers] ∧ out.1 = Ret false
             end
         | (Raise _, _) => calls out.2.1 = calls w ++ [GetUsers] ∧ out.1 = Ret false
         end
     else
       let backed :=
         TemplateManager.backup_user_templates user_id (w, template_manager ab) in
       template_manager out.2.2 = backed.2.2
       ∧ ∃ more, calls out.2.1 = calls backed.2.1 ++ more
                 ∧ (backed.1 ≠ Ret true → out.1 = Ret false ∧ more = [])
                 ∧ (out.1 = Ret true → backed.1 = Ret true))
  ∧ (let ab := mk "memberships.json" Scenario.stale_vault
                 {[ "1001" := Scenario.overdue ]} [] in
     let out := block_user_automatically Scenario.clock "1001" "vencida"
                  (FakeDevice.world Scenario.enrolled, ab) in
     out.1 = Ret true
     ∧ dev out.2.1 = Scenario.without_ana
     ∧ TemplateManager.templates_db (template_manager out.2.2) !! "1001"
       = Some Scenario.old_snapshot
     ∧ Scenario.old_snapshot ≠ Scenario.ana_snapshot).
Proof.
  split.
  - intros D C clock user_id reason w ab. cbv zeta.
    destruct (TemplateManager.has_backup user_id (template_manager ab)) eqn:Hb.
    + pose proof (block_automatically_with_backup clock user_id reason w ab Hb) as H.
      cbv zeta in H. destruct H as [Htm Hcalls]. split; [exact Htm|].
      split; [|exact Hcalls].
      destruct (get_users (dev w)) as [[users|e] d1].
      * destruct (find_user user_id users) as [user|].
        -- destruct Hcalls as (-> & _). rewrite drop_app_length.
           intros Hin. apply elem_of_cons in Hin as [Hin|Hin]; [discriminate|].
           apply list_elem_of_singleton in Hin. discriminate.
        -- destruct Hcalls as (-> & _). rewrite drop_app_length.
           intros Hin. apply list_elem_of_singleton in Hin. discriminate.
      * destruct Hcalls as (-> & _). rewrite drop_app_length.
        intros Hin. apply list_elem_of_singleton in Hin. discriminate.
    + apply (block_automatically_without_backup clock user_id reason w ab Hb).
  - cbv zeta. split_and!; try (vm_compute; reflexivity).
    intros E. vm_compute in E. discriminate.
Qed.

End AutoBlockManagerFacts.

Module MembershipManagerFacts.
Import DatetimeFacts TemplateManagerFacts MembershipManager.

Ltac unfold_mm :=
  unfold set_field, get_field, save_data, now_str, set_users, tm_call in *;
  unfold_py.

(** Updating a field of a stored record rewrites that record. *)
Lemma alter_insert_field (users : gmap string dict) (user_id : string)
    (user : dict) (f : dict → dict) :
  users !! user_id = Some user →
  alter f user_id users = <[user_id := f user]> users.
Proof.
  intros Hu. apply map_eq. intros k.
  rewrite lookup_alter, lookup_insert. case_decide; [|done].
  subst k. by rewrite Hu.
Qed.

Lemma get_is_other (d : dict) (k s s' : string) :
  get_is d k s = true → s ≠ s' → get_is d k s' = false.
Proof.
  unfold get_is. intros H Hne. apply bool_decide_eq_true in H.
  apply bool_decide_eq_false. rewrite H. intros [= E]. done.
Qed.

Lemma strptime_str_nonempty (e : string) (d : datetime) :
  strptime_str e = Ret d → String.eqb e "" = false.
Proof. destruct e; [discriminate|reflexivity]. Qed.

Section Facts.
Context {D : Type} `{!Conn D}.
Variable clock : nat → datetime.
Variable exn_str : exn → string.

(** C4.  For a registered record with status active whose expiration is
    the date [d]: when [d] is before today's date, one call to
    [validate_membership] denies, turns the status into expired and hands
    the registry to [json.dump]; when [d] is after today's date and the
    record counts [n] visits (none recorded counts as zero), the call
    allows, stores [n + 1] visits and the time of the visit, and hands
    the registry to [json.dump]. *)
Theorem validate_lazy_expiry (user_id : string) (w : World D) (mm : t)
    (user : dict) (e : string) (d : datetime) :
  users mm !! strip user_id = Some user →
  get_is user "status" "active" = true →
  user !! "expiration_date" = Some (VStr e) →
  strptime_str e = Ret d →
  let out := validate_membership clock exn_str user_id (w, mm) in
  let now := clock (ticks w) in
  (date_lt d now = true →
     out.1 = Ret (false, "Membres" +:+ chr 237 +:+ "a vencida desde " +:+ e)
     ∧ users out.2.2
       = <[strip user_id := <["status" := VStr "expired"]> user]> (users mm)
     ∧ writes out.2.1
       = writes w ++ [(data_file mm, DocMemberships (users out.2.2))])
  ∧ (date_lt now d = true →
     ∀ n, count_of (user !! "visit_count") = Some n →
       out.1 = Ret (true, "Membres" +:+ chr 237 +:+ "a activa hasta " +:+ e)
       ∧ users out.2.2
         = <[strip user_id :=
               <["visit_count" := VInt (n + 1)]>
                 (<["last_visit" := VStr (strftime (clock (S (ticks w))))]> user)]>
             (users mm)
       ∧ writes out.2.1
         = writes w ++ [(data_file mm, DocMemberships (users out.2.2))]).
Proof.
  intros Hu Hact Hexp Hparse. cbv zeta.
  unfold validate_membership. unfold_mm. cbn [fst snd]. rewrite Hu.
  rewrite (get_is_other _ _ _ "inactive" Hact), (get_is_other _ _ _ "blocked" Hact)
    by discriminate.
  rewrite Hexp. cbn [truthy]. rewrite (strptime_str_nonempty _ _ Hparse).
  cbn [negb strptime]. rewrite Hparse. cbn [fst snd].
  split.
  - intros Hlt. rewrite (date_lt_gt _ _ Hlt). cbn.
    rewrite (alter_insert_field _ _ _ _ Hu). done.
  - intros Hlt n Hn. rewrite (date_lt_not_gt _ _ Hlt). cbn.
    rewrite (alter_insert_field _ _ _ _ Hu). rewrite lookup_insert_eq. cbn.
    rewrite lookup_insert_ne by discriminate.
    assert (Hadd : add_one (user !! "visit_count") = Ret (VInt (n + 1))).
    { destruct (user !! "visit_count") as [[| | |]|]; cbn in Hn |- *;
        try discriminate; injection Hn as <-; reflexivity. }
    rewrite Hadd. cbn.
    rewrite (alter_insert_field _ _ (<["last_visit" := _]> user)) by apply lookup_insert_eq.
    rewrite insert_insert_eq. done.
Qed.

End Facts.

(** The record that expired on 1 March is denied on 11 March and becomes
    expired. *)
Lemma validate_lazy_expiry_witness :
  let mm := mk "memberships.json" {[ "1001" := Scenario.overdue ]}
              Scenario.empty_vault in
  let out := validate_membership Scenario.clock Scenario.exn_str " 1001 "
               (FakeDevice.world Scenario.enrolled, mm) in
  out.1 = Ret (false, "Membres" +:+ chr 237 +:+ "a vencida desde 2024-03-01")
  ∧ users out.2.2
    = <["1001" := <["status" := VStr "expired"]> Scenario.overdue]> (users mm)
  ∧ writes out.2.1 = [("memberships.json", DocMemberships (users out.2.2))].
Proof.
  cbv zeta.
  apply (validate_lazy_expiry Scenario.clock Scenario.exn_str " 1001 "
           (FakeDevice.world Scenario.enrolled)
           (mk "memberships.json" {[ "1001" := Scenario.overdue ]} Scenario.empty_vault)
           Scenario.overdue "2024-03-01" (mk_datetime 2024 3 1 0 0 0 0));
    reflexivity.
Defined.

End MembershipManagerFacts.

Module SystemFacts.
Import DatetimeFacts TemplateManagerFacts System.

Lemma blocked_alter (users : gmap string dict) (k key : string) (v : pyval) (u : string) :
  blocked (alter <[key := v]> k users) u →
  blocked users u ∨ (u = k ∧ (key, v) = ("status", VStr "blocked")).
Proof.
  intros (record & Hl & Hs). rewrite lookup_alter in Hl. case_decide.
  - subst u. destruct (users !! k) as [r|] eqn:E; [|done]. cbn in Hl.
    injection Hl as <-. rewrite lookup_insert in Hs. case_decide.
    + right. subst key. by injection Hs as ->.
    + left. by exists r.
  - left. by exists record.
Qed.


Lemma covered_alter users tm (k key : string) (v : pyval) :
  (key, v) ≠ ("status", VStr "blocked") →
  covered users tm → covered (alter <[key := v]> k users) tm.
Proof.
  intros Hne Hc u Hu. apply blocked_alter in Hu as [Hu|[_ Hu]]; [by apply Hc|done].
Qed.

Lemma covered_alter_blocked users tm (k key : string) (v : pyval) :
  is_Some (TemplateManager.templates_db tm !! k) →
  covered users tm → covered (alter <[key := v]> k users) tm.
Proof.
  intros Hk Hc u Hu. apply blocked_alter in Hu as [Hu|[-> _]]; [by apply Hc|done].
Qed.

Lemma covered_keeps users tm tm' :
  TemplateManager.keeps tm tm' → covered users tm → covered users tm'.
Proof. intros Hk Hc u Hu. apply Hk, Hc, Hu. Qed.


Ltac covered :=
  cbn [fst snd MembershipManager.users MembershipManager.template_manager
       AutoBlockManager.memberships AutoBlockManager.template_manager];
  repeat first
    [ assumption
    | apply covered_alter; [by intros [=]|] ].

Section Facts.
Context {D : Type} `{!Conn D}.
Variable clock : nat → datetime.
Variable exn_str : exn → string.

(** *** The methods of [MembershipManager] *)

Ltac unfold_mm :=
  unfold MembershipManager.set_field, MembershipManager.get_field,
    MembershipManager.save_data, MembershipManager.now_str,
    MembershipManager.set_users, MembershipManager.tm_call in *;
  unfold_py.

Abbreviation mm_covered mm :=
  (covered (MembershipManager.users mm) (MembershipManager.template_manager mm)).








(** *** The methods of [AutoBlockManager] *)

Ltac unfold_ab :=
  unfold AutoBlockManager.set_field, AutoBlockManager.append_log,
    AutoBlockManager.save_memberships, AutoBlockManager.now_str,
    AutoBlockManager.set_memberships, AutoBlockManager.tm_call in *;
  unfold_py.

Abbreviation ab_covered ab :=
  (covered (AutoBlockManager.memberships ab) (AutoBlockManager.template_manager ab)).


Lemma auto_block_covered u r (w : World D) ab :
  ab_covered ab →
  ab_covered (AutoBlockManager.block_user_automatically clock u r (w, ab)).2.2.
Proof.
  intros Hc. unfold AutoBlockManager.block_user_automatically. unfold_ab.
  cbn [fst snd].
  destruct (TemplateManager.has_backup u (AutoBlockManager.template_manager ab)) eqn:Hb;
    cbn [negb fst snd].
  - unfold TemplateManager.has_backup in Hb. apply bool_decide_eq_true in Hb.
    destruct (get_users (dev w)) as [[users|x] d1]; [|destruct ab; exact Hc].
    destruct (find_user u users) as [user|]; [|destruct ab; exact Hc].
    cbn [fst snd dev calls ticks writes].
    destruct (delete_user (User.uid user) d1) as [[[]|x] d2]; cbn;
      [|destruct ab; exact Hc].
    destruct (AutoBlockManager.memberships ab !! u); cbn; [|exact Hc].
    do 3 (apply covered_alter; [by intros [=]|]).
    by apply covered_alter_blocked.
  - pose proof (backup_true_has_backup u w (AutoBlockManager.template_manager ab)) as B.
    pose proof (backup_extends u w (AutoBlockManager.template_manager ab)) as [_ K].
    destruct (TemplateManager.backup_user_templates u _) as [[[|]|x] [w1 tm1]];
      cbn [fst snd negb] in *; [|cbn; by eapply covered_keeps..].
    specialize (B eq_refl). unfold TemplateManager.has_backup in B.
    apply bool_decide_eq_true in B.
    destruct (get_users (dev w1)) as [[users|x] d1]; [|cbn; by eapply covered_keeps].
    destruct (find_user u users) as [user|]; [|cbn; by eapply covered_keeps].
    cbn [fst snd dev calls ticks writes].
    destruct (delete_user (User.uid user) d1) as [[[]|x] d2]; cbn;
      [|by eapply covered_keeps].
    destruct (AutoBlockManager.memberships ab !! u); cbn; [|by eapply covered_keeps].
    do 3 (apply covered_alter; [by intros [=]|]).
    apply covered_alter_blocked; [exact B|]. by eapply covered_keeps.
Qed.



End Facts.



End SystemFacts.

Module GymforceAPIFacts.
Import GymforceAPI.

Section Facts.
Variable login_endpoint : list request → res (response login_body).
Variable access_endpoint : list request → request → res (response dict).
Variable time_time : nat → Z.
Variable exn_str : exn → string.

Ltac unfold_api :=
  unfold net, this, set_this, post_login, post_access, time_now in *; unfold_py.

(** [login] returns [True] or [False]; it never raises. *)
Lemma login_returns (s : Net * t) :
  ∃ b : bool, (login login_endpoint time_time s).1 = Ret b.
Proof.
  unfold login. unfold_api.
  destruct (login_endpoint _) as [r|e]; cbn; [|by exists false].
  destruct (status_code r =? 200); [|by exists false].
  destruct (json r) as [data|e]; cbn; [|by exists false].
  destruct (body_token data); cbn; [|by exists false].
  destruct (body_expires_in data) as [secs|e]; cbn; [|by exists false].
  destruct (Float.of_int secs); cbn; [by exists true|by exists false].
Qed.

Lemma ensure_token_returns (s : Net * t) :
  ∃ b : bool, (ensure_token login_endpoint time_time s).1 = Ret b.
Proof.
  unfold ensure_token. unfold_api. cbn [fst snd].
  destruct (token s.2) as [v|]; [destruct (truthy v)|]; cbn;
    try apply login_returns.
  destruct (_ <? _); cbn; [by exists true|apply login_returns].
Qed.

(** With at least one frame left, [validar_acceso] returns; it does not
    raise. *)
Lemma validar_acceso_returns (depth : nat) (socio_id : string) (sucursal_id : Z)
    (s : Net * t) :
  ∃ r, (validar_acceso login_endpoint access_endpoint time_time exn_str
          (S depth) socio_id sucursal_id s).1 = Ret r.
Proof.
  cbn [validar_acceso]. unfold mbind at 1, M_bind at 1, bind at 1.
  destruct (ensure_token_returns s) as [ok Hok].
  destruct (ensure_token login_endpoint time_time s) as [r0 s0].
  cbn in Hok. subst r0. destruct ok; cbn [negb]; [|by eexists].
  unfold try_except.
  match goal with |- context [let (_, _) := ?m s0 in _] => destruct (m s0) as [[r|e] s1] end.
  - by eexists.
  - destruct e; by eexists.
Qed.

End Facts.

(** C3 fails on the code in two ways.  When a query is answered with 401
    and the login that follows is refused, [validar_acceso] reaches the
    end of its body and returns [None], not a decision.  When the query
    repeated after a fresh login is answered with 401 again, the method
    logs in and asks again: three queries and three logins are sent for a
    service that allows the third query. *)
Theorem validar_acceso_reauth_defects :
  (∀ depth,
     let out := validar_acceso Scenario.login_once Scenario.always_401
                  Scenario.time_time Scenario.exn_str (S depth) "1001" 1
                  (Scenario.offline, new) in
     out.1 = Ret None
     ∧ posts out.2.1 = [Login EMAIL PASSWORD; Access (Some (VStr "t0k3n")) "1001" 1;
                        Login EMAIL PASSWORD])
  ∧ (let out := validar_acceso Scenario.login_always Scenario.allow_third_query
                  Scenario.time_time Scenario.exn_str 1000 "1001" 1
                  (Scenario.offline, new) in
     out.1 = Ret (Some Scenario.allow)
     ∧ posts out.2.1
       = [Login EMAIL PASSWORD; Access (Some (VStr "t0k3n")) "1001" 1;
          Login EMAIL PASSWORD; Access (Some (VStr "t0k3n")) "1001" 1;
          Login EMAIL PASSWORD; Access (Some (VStr "t0k3n")) "1001" 1]).
Proof.
  split.
  - intros depth. cbv zeta. split; reflexivity.
  - cbv zeta. split; vm_compute; reflexivity.
Qed.

End GymforceAPIFacts.

Module ZKListenerFacts.
Import DatetimeFacts ZKListener.

(** *** The stable sort *)

Lemma insert_by_timestamp_perm r l : insert_by_timestamp r l ≡ₚ r :: l.
Proof.
  induction l as [|x l IH]; cbn; [done|].
  destruct (gt _ _); [|done]. rewrite IH. apply Permutation_swap.
Qed.

Lemma sorted_by_timestamp_perm l : sorted_by_timestamp l ≡ₚ l.
Proof.
  induction l as [|x l IH]; cbn; [done|].
  rewrite insert_by_timestamp_perm. by rewrite IH.
Qed.

Lemma insert_by_timestamp_sorted r l :
  StronglySorted not_after l → StronglySorted not_after (insert_by_timestamp r l).
Proof.
  induction l as [|x l IH]; cbn; intros Hs; [repeat constructor|].
  apply StronglySorted_inv in Hs as [Hl Hx].
  destruct (gt (Attendance.timestamp r) (Attendance.timestamp x)) eqn:G.
  - constructor; [by apply IH|].
    rewrite insert_by_timestamp_perm. constructor; [|exact Hx].
    by apply gt_asym.
  - constructor; [by constructor|]. constructor; [exact G|].
    eapply Forall_impl; [exact Hx|]. intros y Hy. unfold not_after in *.
    by eapply le_trans.
Qed.

Lemma sorted_by_timestamp_sorted l : StronglySorted not_after (sorted_by_timestamp l).
Proof.
  induction l as [|x l IH]; cbn; [constructor|]. by apply insert_by_timestamp_sorted.
Qed.

(** The last record of a sorted list has the latest timestamp. *)
Lemma sorted_last l x :
  StronglySorted not_after l → last l = Some x → Forall (fun r => not_after r x) l.
Proof.
  induction l as [|a l IH]; intros Hs Hl; [constructor|].
  apply StronglySorted_inv in Hs as [Hs Ha].
  destruct l as [|b l].
  - injection Hl as <-. repeat constructor. apply gt_irrefl.
  - assert (Hl' : last (b :: l) = Some x) by exact Hl.
    constructor; [|by apply IH].
    rewrite Forall_forall in Ha. apply Ha. by apply last_Some_elem_of.
Qed.

Section Facts.
Context {D : Type} `{!Conn D}.
Variable login_endpoint : list GymforceAPI.request → res (GymforceAPI.response GymforceAPI.login_body).
Variable access_endpoint : list GymforceAPI.request → GymforceAPI.request → res (GymforceAPI.response dict).
Variable time_time : nat → Z.
Variable exn_str : exn → string.
Variable depth : nat.

Abbreviation state := ((World D * GymforceAPI.Net) * t)%type.
Abbreviation process_attendance_record :=
  (ZKListener.process_attendance_record (D := D) login_endpoint access_endpoint
     time_time exn_str depth).
Abbreviation process_all :=
  (ZKListener.process_all (D := D) login_endpoint access_endpoint time_time
     exn_str depth).
Abbreviation poll_and_process_records :=
  (ZKListener.poll_and_process_records (D := D) login_endpoint access_endpoint
     time_time exn_str depth).

Ltac unfold_listener :=
  unfold device, api_call, me, set_me, set_mark, set_records, emit in *; unfold_py.

(** Processing one record returns, emits its event, and touches neither
    the device nor the mark. *)
Lemma process_attendance_record_spec (record : Attendance.t) (s : state) :
  let out := process_attendance_record record s in
  out.1 = Ret tt
  ∧ same_session s out.2
  ∧ last_processed_time out.2.2 = last_processed_time s.2
  ∧ emitted out.2.2 = emitted s.2 ++ [event record].
Proof.
  cbv zeta. unfold ZKListener.process_attendance_record, same_session.
  unfold_listener. cbn [fst snd api].
  destruct (GymforceAPI.validar_acceso _ _ _ _ _ _ _ _) as [[[result|]|e] [n1 a1]];
    cbn; try done.
  by destruct (update_first _ _ _ _ _).
Qed.

Lemma process_all_cons (r : Attendance.t) (records : list Attendance.t) (s : state) :
  process_all (r :: records) s =
  let out := process_attendance_record r s in
  match out.1 with
  | Ret _ => process_all records (out.2.1, set_mark (Attendance.timestamp r) out.2.2)
  | Raise e => (Raise e, out.2)
  end.
Proof.
  cbn [ZKListener.process_all]. unfold mbind, M_bind, bind, set_me, modify.
  destruct (process_attendance_record r s) as [[[]|e] s1]; reflexivity.
Qed.

Lemma process_all_spec (records : list Attendance.t) (s : state) :
  let out := process_all records s in
  out.1 = Ret tt
  ∧ same_session s out.2
  ∧ last_processed_time out.2.2
    = match last records with
      | Some r => Some (Attendance.timestamp r)
      | None => last_processed_time s.2
      end
  ∧ emitted out.2.2 = emitted s.2 ++ map event records.
Proof.
  cbv zeta. revert s. induction records as [|r records IH]; intros s.
  - cbn. unfold same_session. by rewrite app_nil_r.
  - rewrite process_all_cons. cbv zeta.
    pose proof (process_attendance_record_spec r s) as (R & S1 & M1 & E1).
    rewrite R.
    specialize (IH ((process_attendance_record r s).2.1,
                    set_mark (Attendance.timestamp r) (process_attendance_record r s).2.2)).
    destruct IH as (R3 & S3 & M3 & E3). unfold same_session in *. cbn in S3, M3, E3.
    destruct S1 as (A1 & A2 & A3 & A4), S3 as (B1 & B2 & B3 & B4).
    split; [done|]. split; [split_and!; etrans; eauto|]. split.
    + rewrite M3. destruct records as [|r' records]; [reflexivity|].
      change (last (r :: r' :: records)) with (last (r' :: records)).
      destruct (last (r' :: records)) eqn:L; [reflexivity|].
      by apply last_None in L.
    + rewrite E3, E1. cbn. by rewrite <- app_assoc.
Qed.

(** A polling pass, once the device has answered and the mark is set. *)
Lemma poll_and_process_records_eq (s : state) (records : list Attendance.t)
    (d1 : D) (m : datetime) :
  conn s.2 = true →
  last_processed_time s.2 = Some m →
  get_attendance (dev s.1.1) = (Ret records, d1) →
  poll_and_process_records s =
  process_all (sorted_by_timestamp (after_mark m records))
    ((mk_world d1 (calls s.1.1 ++ [GetAttendance]) (ticks s.1.1) (writes s.1.1),
      s.1.2), s.2).
Proof.
  intros Hc Hm Hr. unfold ZKListener.poll_and_process_records. unfold_listener.
  destruct s as [[w n] l]. cbn [fst snd] in *. rewrite Hc. cbn [negb fst snd].
  rewrite Hr. cbn [fst snd].
  rewrite Hm. unfold newer_than, after_mark. destruct records; reflexivity.
Qed.

Lemma max_timestamp_spec (acc : datetime) (rest : list Attendance.t) :
  let mx := foldl (fun m r => if gt (Attendance.timestamp r) m
                              then Attendance.timestamp r else m) acc rest in
  gt acc mx = false
  ∧ Forall (fun r => gt (Attendance.timestamp r) mx = false) rest
  ∧ (mx = acc ∨ ∃ r, r ∈ rest ∧ Attendance.timestamp r = mx).
Proof.
  cbv zeta. revert acc. induction rest as [|r rest IH]; intros acc; cbn.
  - split; [apply gt_irrefl|]. split; [constructor|by left].
  - destruct (gt (Attendance.timestamp r) acc) eqn:G.
    + destruct (IH (Attendance.timestamp r)) as (H1 & H2 & H3).
      split; [eapply le_trans; [by apply gt_asym|exact H1]|].
      split; [by constructor|]. right.
      destruct H3 as [->|(r' & Hin & E)].
      * exists r. split; [by left|done].
      * exists r'. split; [by right|done].
    + destruct (IH acc) as (H1 & H2 & H3).
      split; [exact H1|]. split; [constructor; [by eapply le_trans|exact H2]|].
      destruct H3 as [->|(r' & Hin & E)]; [by left|].
      right. exists r'. split; [by right|done].
Qed.

Section Activation.
Variable clock : nat → datetime.

(** C5.  A polling pass on a connected listener whose mark is [m], when
    the device reports [records]: the events emitted are those of the
    records stamped strictly after [m] and of no others, in non-decreasing
    order of timestamp; afterwards the mark is the timestamp of the last
    record processed, which no processed record exceeds, and is unchanged
    when nothing was processed.  On activation without a mark, the mark
    becomes the greatest timestamp among the device's records, or the
    current time when the device has none or there is no connection. *)
Theorem poll_pass_in_order (s : state) (records : list Attendance.t)
    (d1 : D) (m : datetime) :
  conn s.2 = true →
  last_processed_time s.2 = Some m →
  get_attendance (dev s.1.1) = (Ret records, d1) →
  let out := poll_and_process_records s in
  let processed := sorted_by_timestamp (after_mark m records) in
  (out.1 = Ret tt
   ∧ emitted out.2.2 = emitted s.2 ++ map event processed
   ∧ processed ≡ₚ after_mark m records
   ∧ (∀ r, r ∈ processed ↔ r ∈ records ∧ gt (Attendance.timestamp r) m = true)
   ∧ StronglySorted not_after processed
   ∧ match last processed with
     | Some x =>
         last_processed_time out.2.2 = Some (Attendance.timestamp x)
         ∧ Forall (fun r => not_after r x) processed
     | None => last_processed_time out.2.2 = Some m
     end)
  ∧ (∀ s0 : state,
       last_processed_time s0.2 = None →
       let out0 := initialize_polling_timestamp clock s0 in
       if conn s0.2 then
         match get_attendance (dev s0.1.1) with
         | (Ret (first :: rest), _) =>
             out0.1 = Ret tt
             ∧ last_processed_time out0.2.2 = Some (max_timestamp first rest)
             ∧ Forall (fun r => gt (Attendance.timestamp r) (max_timestamp first rest)
                                = false) (first :: rest)
             ∧ ∃ r, r ∈ first :: rest
                    ∧ Attendance.timestamp r = max_timestamp first rest
         | (Ret [], _) =>
             out0.1 = Ret tt
             ∧ last_processed_time out0.2.2 = Some (clock (ticks s0.1.1))
         | (Raise e, _) => out0.1 = Raise e ∧ last_processed_time out0.2.2 = None
         end
       else
         out0.1 = Ret tt
         ∧ last_processed_time out0.2.2 = Some (clock (ticks s0.1.1))).
Proof.
  intros Hc Hm Hr. cbv zeta. split.
  - rewrite (poll_and_process_records_eq s records d1 m Hc Hm Hr).
    match goal with |- context [process_all ?p ?s1] =>
      pose proof (process_all_spec p s1) as (R & _ & M & E) end.
    cbn [fst snd] in M, E.
    pose proof (sorted_by_timestamp_perm (after_mark m records)) as P.
    pose proof (sorted_by_timestamp_sorted (after_mark m records)) as S.
    split; [exact R|]. split; [exact E|]. split; [exact P|]. split.
    { intros r. rewrite P. unfold after_mark.
      rewrite list_elem_of_In, filter_In, <- list_elem_of_In. done. }
    split; [exact S|]. rewrite M.
    destruct (last (sorted_by_timestamp (after_mark m records))) as [x|] eqn:L.
    + split; [done|]. by apply sorted_last.
    + exact Hm.
  - intros [[w0 n0] l0] Hnone. cbn [fst snd] in *.
    unfold initialize_polling_timestamp. unfold_listener. cbn [fst snd].
    rewrite Hnone. destruct (conn l0); cbn [fst snd]; [|done].
    destruct (get_attendance (dev w0)) as [[[|first rest]|e] d0]; cbn; try done.
    split; [done|]. split; [done|].
    destruct (max_timestamp_spec (Attendance.timestamp first) rest) as (H1 & H2 & H3).
    split; [by constructor|].
    destruct H3 as [E|(r & Hin & E)].
    + exists first. split; [by left|]. by rewrite <- E.
    + exists r. split; [by right|done].
Qed.

End Activation.

(** C6.  Two polling passes in a row, the device reporting the same
    records to both: the second pass emits no event, stores none and
    leaves the mark where the first put it; and it returns normally when
    the first did. *)
Theorem repoll_processes_nothing (s : state) (records : list Attendance.t) (d1 d2 : D) :
  get_attendance (dev s.1.1) = (Ret records, d1) →
  get_attendance d1 = (Ret records, d2) →
  let first := poll_and_process_records s in
  let second := poll_and_process_records first.2 in
  emitted second.2.2 = emitted first.2.2
  ∧ attendance_records second.2.2 = attendance_records first.2.2
  ∧ last_processed_time second.2.2 = last_processed_time first.2.2
  ∧ (first.1 = Ret tt → second.1 = Ret tt).
Proof.
  intros Hr1 Hr2. cbv zeta.
  destruct (conn s.2) eqn:Hc.
  2:{ assert (E : poll_and_process_records s = (Ret tt, s)).
      { unfold ZKListener.poll_and_process_records. unfold_listener.
        cbn [fst snd]. by rewrite Hc. }
      rewrite E. cbn [fst snd]. by rewrite E. }
  destruct (last_processed_time s.2) as [m|] eqn:Hm.
  2:{ assert (E : ∀ s' : state, conn s'.2 = true → last_processed_time s'.2 = None →
                  ∀ d', get_attendance (dev s'.1.1) = (Ret records, d') →
                  poll_and_process_records s' =
                  (match records with [] => Ret tt | _ => Raise TypeError_compare end,
                   ((mk_world d' (calls s'.1.1 ++ [GetAttendance])
                       (ticks s'.1.1) (writes s'.1.1), s'.1.2), s'.2))).
      { intros [[w' n'] l'] Hc' Hm' d' Hr'. cbn [fst snd] in *.
        unfold ZKListener.poll_and_process_records. unfold_listener.
        cbn [fst snd]. rewrite Hc'. cbn [negb fst snd]. rewrite Hr'.
        cbn [fst snd]. rewrite Hm'. by destruct records. }
      rewrite (E s Hc Hm d1 Hr1). cbn [fst snd].
      erewrite E; [done|exact Hc|exact Hm|exact Hr2]. }
  rewrite (poll_and_process_records_eq s records d1 m Hc Hm Hr1).
  set (s1 := ((mk_world d1 (calls s.1.1 ++ [GetAttendance]) (ticks s.1.1)
                 (writes s.1.1), s.1.2), s.2)).
  set (processed := sorted_by_timestamp (after_mark m records)).
  pose proof (process_all_spec processed s1) as (R & (S1 & S2 & _) & M & E).
  pose proof (sorted_by_timestamp_perm (after_mark m records)) as P.
  pose proof (sorted_by_timestamp_sorted (after_mark m records)) as S.
  fold processed in P, S.
  set (s2 := (process_all processed s1).2) in *.
  assert (Hmark : ∃ m', last_processed_time s2.2 = Some m'
                        ∧ Forall (fun r => gt (Attendance.timestamp r) m' = false) records).
  { rewrite M. destruct (last processed) as [x|] eqn:L.
    - exists (Attendance.timestamp x). split; [done|].
      pose proof (sorted_last _ _ S L) as Hmax. rewrite Forall_forall in Hmax.
      assert (Hx : gt (Attendance.timestamp x) m = true).
      { apply last_Some_elem_of in L. rewrite P in L. unfold after_mark in L.
        apply list_elem_of_In, filter_In in L. tauto. }
      apply Forall_forall. intros r Hin.
      destruct (gt (Attendance.timestamp r) m) eqn:G.
      + apply Hmax. rewrite P. unfold after_mark.
        apply list_elem_of_In, filter_In. by rewrite <- list_elem_of_In.
      + by eapply le_gt_trans.
    - apply last_None in L. exists m. split; [exact Hm|].
      apply Forall_forall. intros r Hin.
      destruct (gt (Attendance.timestamp r) m) eqn:G; [|done].
      assert (Hr : r ∈ processed).
      { rewrite P. unfold after_mark. apply list_elem_of_In, filter_In.
        by rewrite <- list_elem_of_In. }
      rewrite L in Hr. by apply elem_of_nil in Hr. }
  destruct Hmark as (m' & Hm' & Hall).
  assert (Hc2 : conn s2.2 = true) by (rewrite S2; exact Hc).
  assert (Hr2' : get_attendance (dev s2.1.1) = (Ret records, d2)).
  { rewrite S1. exact Hr2. }
  rewrite (poll_and_process_records_eq s2 records d2 m' Hc2 Hm' Hr2').
  assert (Hnone : after_mark m' records = []).
  { unfold after_mark. clear -Hall. induction Hall as [|r l Hr _ IH]; [done|].
    cbn. by rewrite Hr. }
  rewrite Hnone. cbn. done.
Qed.

End Facts.

(** Punches at 9, 12, 7 and 10 o'clock with the mark at 8: those of 9, 10
    and 12 are processed, in that order, and the mark ends at 12. *)
Lemma poll_pass_in_order_witness :
  let s := ((FakeDevice.world Scenario.turnstile, Scenario.offline), Scenario.listening) in
  let out := poll_and_process_records Scenario.login_always Scenario.always_allow
               Scenario.time_time Scenario.exn_str 1000 s in
  emitted out.2.2
  = map event [Attendance.mk "1001" (Scenario.at_hour 9);
               Attendance.mk " 1003" (Scenario.at_hour 10);
               Attendance.mk "1002" (Scenario.at_hour 12)]
  ∧ last_processed_time out.2.2 = Some (Scenario.at_hour 12).
Proof.
  cbv zeta.
  destruct (poll_pass_in_order Scenario.login_always Scenario.always_allow
              Scenario.time_time Scenario.exn_str 1000 Scenario.clock
              ((FakeDevice.world Scenario.turnstile, Scenario.offline), Scenario.listening)
              Scenario.punches Scenario.turnstile (Scenario.at_hour 8))
    as [(_ & E & _ & _ & _ & L) _]; [reflexivity..|].
  split; [exact E|exact (proj1 L)].
Defined.

(** The same terminal polled twice: the second pass adds nothing to the
    three events of the first. *)
Lemma repoll_processes_nothing_witness :
  let s := ((FakeDevice.world Scenario.turnstile, Scenario.offline), Scenario.listening) in
  let poll := poll_and_process_records Scenario.login_always Scenario.always_allow
                Scenario.time_time Scenario.exn_str 1000 in
  emitted (poll (poll s).2).2.2 = emitted (poll s).2.2
  ∧ attendance_records (poll (poll s).2).2.2 = attendance_records (poll s).2.2
  ∧ last_processed_time (poll (poll s).2).2.2 = last_processed_time (poll s).2.2
  ∧ ((poll s).1 = Ret tt → (poll (poll s).2).1 = Ret tt).
Proof.
  cbv zeta.
  apply (repoll_processes_nothing Scenario.login_always Scenario.always_allow
           Scenario.time_time Scenario.exn_str 1000
           ((FakeDevice.world Scenario.turnstile, Scenario.offline), Scenario.listening)
           Scenario.punches Scenario.turnstile Scenario.turnstile);
    reflexivity.
Defined.

End ZKListenerFacts.

(* ===================================================================== *)
(** ** More on src/template_manager.py                                   *)
(* ===================================================================== *)

Module TemplateManagerMore.
Import TemplateManagerFacts TemplateManager.

Section Facts.
Context {D : Type} `{!Conn D}.

Lemma user_of_snapshot (user : User.t) (ts : list Finger.t) :
  user_of (Snapshot.user (snapshot_of user ts)) = user.
Proof. by destruct user. Qed.

Lemma fingers_of_snapshot (user : User.t) (ts : list Finger.t) :
  fingers_of (Snapshot.templates (snapshot_of user ts)) = Ret ts.
Proof.
  cbn. induction ts as [|t ts IH]; [reflexivity|].
  cbn. rewrite fromhex_hex, IH. by destruct t.
Qed.

(** The outcomes of a restore, read off the vault and the upload. *)
Lemma restore_user_templates_eq (user_id : string) (w : World D) (tm : t) :
  restore_user_templates user_id (w, tm) =
  match templates_db tm !! user_id with
  | None => (Ret false, (w, tm))
  | Some backup =>
      match fingers_of (Snapshot.templates backup) with
      | Raise _ => (Ret false, (w, tm))
      | Ret templates =>
          let user := user_of (Snapshot.user backup) in
          let up := save_user_template user templates (dev w) in
          (Ret (returned up.1),
           (mk_world up.2 (calls w ++ [SaveUserTemplate user templates])
              (ticks w) (writes w), tm))
      end
  end.
Proof.
  unfold restore_user_templates. unfold_py. cbn [fst snd].
  destruct (templates_db tm !! user_id) as [backup|]; [|reflexivity].
  destruct (fingers_of _) as [fs|e]; [|reflexivity]. cbn.
  destruct (save_user_template _ _ _) as [[[]|e] d1]; reflexivity.
Qed.

(** A backup of an enrolled user with templates succeeds and stores them. *)
Lemma backup_of_enrolled (user_id : string) (w : World D) (tm : t)
    (user : User.t) (ts : list Finger.t) :
  device_templates user_id (dev w) = Some (user, ts) →
  ts ≠ [] →
  (backup_user_templates user_id (w, tm)).1 = Ret true
  ∧ (backup_user_templates user_id (w, tm)).2.2
    = mk (templates_file tm) (<[user_id := snapshot_of user ts]> (templates_db tm)).
Proof.
  intros Hdev Hts. rewrite backup_user_templates_eq. unfold device_templates in Hdev.
  destruct (get_users (dev w)) as [[users|e] d1]; [|done].
  destruct (find_user user_id users) as [u|]; [|done].
  destruct (get_templates d1) as [[all_templates|e] d2]; [|done].
  injection Hdev as <- <-.
  destruct (List.filter _ all_templates); done.
Qed.

(** X1.  Whatever a block saved is what the unblock uploads: when the
    device reports [user] with the templates [ts] (at least one), then
    after [block_user], [unblock_user] makes exactly one call on the
    device, the upload of that same user and those same templates
    (identifiers, slots, validity flags and payload bytes), it succeeds
    when the upload does, and it leaves the vault as the block left it. *)
Theorem unblock_uploads_what_block_saved
    (user_id : string) (w : World D) (tm : t) (user : User.t) (ts : list Finger.t) :
  device_templates user_id (dev w) = Some (user, ts) →
  ts ≠ [] →
  let blocked := block_user user_id (w, tm) in
  let out := unblock_user user_id blocked.2 in
  calls out.2.1 = calls blocked.2.1 ++ [SaveUserTemplate user ts]
  ∧ out.1 = Ret (returned (save_user_template user ts (dev blocked.2.1)).1)
  ∧ dev out.2.1 = (save_user_template user ts (dev blocked.2.1)).2
  ∧ out.2.2 = blocked.2.2.
Proof.
  intros Hdev Hts. cbv zeta. unfold unblock_user.
  pose proof (block_vault user_id (w, tm)) as V.
  destruct (backup_of_enrolled user_id w tm user ts Hdev Hts) as [_ T].
  rewrite T in V. clear T.
  destruct (block_user user_id (w, tm)) as [r [w1 tm1]]. cbn [fst snd] in *.
  subst tm1. rewrite restore_user_templates_eq. cbn [templates_db].
  rewrite lookup_insert_eq, fingers_of_snapshot. cbv zeta.
  rewrite user_of_snapshot. done.
Qed.

(** X2.  [delete_backup] answers whether there was a snapshot, removes
    it and no other, and makes no call on the device; from then on a
    restore of that user fails without touching the device or the vault. *)
Theorem delete_backup_forgets (user_id : string) (w : World D) (tm : t) :
  let deleted := delete_backup user_id (w, tm) in
  let out := restore_user_templates user_id deleted.2 in
  deleted.1 = Ret (has_backup user_id tm)
  ∧ templates_db deleted.2.2 = delete user_id (templates_db tm)
  ∧ has_backup user_id deleted.2.2 = false
  ∧ dev deleted.2.1 = dev w
  ∧ calls deleted.2.1 = calls w
  ∧ out.1 = Ret false
  ∧ out.2 = deleted.2.
Proof.
  cbv zeta.
  assert (E : delete_backup user_id (w, tm) =
              if has_backup user_id tm then
                (Ret true,
                 (mk_world (dev w) (calls w) (ticks w)
                    (writes w ++ [(templates_file tm,
                                   DocTemplates (delete user_id (templates_db tm)))]),
                  mk (templates_file tm) (delete user_id (templates_db tm))))
              else (Ret false, (w, tm))).
  { unfold delete_backup, save_templates, set_db. unfold_py. cbn [fst snd].
    by destruct (has_backup user_id tm). }
  rewrite E. unfold has_backup in *.
  destruct (bool_decide (is_Some (templates_db tm !! user_id))) eqn:B; cbn [fst snd].
  - rewrite restore_user_templates_eq. cbn [templates_db dev calls].
    rewrite lookup_delete_eq. split_and!; try done.
  - apply bool_decide_eq_false in B.
    assert (N : templates_db tm !! user_id = None).
    { destruct (templates_db tm !! user_id); [|done]. exfalso. apply B. by eexists. }
    rewrite restore_user_templates_eq, N. split_and!; try done.
    symmetry. by apply delete_id.
Qed.

(** The loop of [backup_all_users] counts at most one per user, only
    reads from the device and loses no snapshot. *)
Lemma backup_each_counts (users : list User.t) (count : Z) (s : World D * t) :
  let out := backup_each users count s in
  (∃ n, out.1 = Ret n ∧ count <= n <= count + Z.of_nat (length users))
  ∧ (∃ reads, calls out.2.1 = calls s.1 ++ reads
              ∧ Forall (fun c => is_read c = true) reads).
Proof.
  cbv zeta. revert count s. induction users as [|user rest IH]; intros count [w tm].
  - cbn. split; [exists count; split; [done|lia]|].
    exists []. by rewrite app_nil_r.
  - assert (E : backup_each (user :: rest) count (w, tm) =
                let out := backup_user_templates (User.user_id user) (w, tm) in
                match out.1 with
                | Ret ok => backup_each rest (if ok then count + 1 else count) out.2
                | Raise e => (Raise e, out.2)
                end).
    { cbn [backup_each]. unfold mbind, M_bind, bind.
      by destruct (backup_user_templates _ _) as [[ok|e] s1]. }
    rewrite E. cbv zeta.
    destruct (backup_returns (User.user_id user) (w, tm)) as [ok Hok].
    destruct (backup_only_reads (User.user_id user) w tm) as (reads & Hc & Hr).
    rewrite Hok.
    destruct (IH (if ok then count + 1 else count)
                 (backup_user_templates (User.user_id user) (w, tm)).2)
      as [(n & Hn & Hb) (reads' & Hc' & Hr')].
    split.
    + exists n. split; [done|]. cbn [length]. destruct ok; lia.
    + exists (reads ++ reads'). rewrite Hc', Hc. cbn [fst].
      split; [by rewrite app_assoc|]. by apply Forall_app.
Qed.

(** X3.  [backup_all_users] returns a count between zero and the number
    of users the device reports (zero, with the vault untouched, when the
    device cannot be read); it only reads from the device, and every
    snapshot held before is still held afterwards. *)
Theorem backup_all_users_counts (w : World D) (tm : t) :
  let out := backup_all_users (w, tm) in
  (∃ n, out.1 = Ret n
        ∧ match get_users (dev w) with
          | (Ret users, _) => 0 <= n <= Z.of_nat (length users)
          | (Raise _, _) => n = 0 ∧ out.2.2 = tm
          end)
  ∧ (∃ reads, calls out.2.1 = calls w ++ reads
              ∧ Forall (fun c => is_read c = true) reads)
  ∧ keeps tm out.2.2.
Proof.
  cbv zeta. split_and!; [| |apply (backup_all_extends (w, tm))].
  - unfold backup_all_users. unfold_py. cbn [fst snd].
    destruct (get_users (dev w)) as [[users|e] d1]; cbn; [|by exists 0].
    match goal with |- context [backup_each users 0 ?s] =>
      destruct (backup_each_counts users 0 s) as [(n & Hn & Hb) _];
      destruct (backup_each users 0 s) as [r s2] end.
    cbn in Hn. subst r. exists n. split; [done|lia].
  - unfold backup_all_users. unfold_py. cbn [fst snd].
    destruct (get_users (dev w)) as [[users|e] d1]; cbn.
    2:{ exists [GetUsers]. split; [done|]. by repeat constructor. }
    match goal with |- context [backup_each users 0 ?s] =>
      destruct (backup_each_counts users 0 s) as [(n & Hn & _) (reads & Hc & Hr)];
      destruct (backup_each users 0 s) as [r s2] end.
    cbn in Hn, Hc. subst r. cbn. exists (GetUsers :: reads).
    split; [by rewrite Hc, <- app_assoc|]. by constructor.
Qed.

End Facts.

(** Ana is blocked on the terminal and unblocked again: the upload carries
    her identity and her two templates. *)
Lemma unblock_uploads_what_block_saved_witness :
  let blocked := block_user "1001"
                   (FakeDevice.world Scenario.enrolled, Scenario.empty_vault) in
  let out := unblock_user "1001" blocked.2 in
  calls out.2.1
  = [GetUsers; GetTemplates; GetUsers; DeleteUser 7;
     SaveUserTemplate Scenario.ana [Scenario.ana_face; Scenario.ana_finger]]
  ∧ out.1 = Ret true.
Proof.
  cbv zeta.
  destruct (unblock_uploads_what_block_saved "1001"
              (FakeDevice.world Scenario.enrolled) Scenario.empty_vault
              Scenario.ana [Scenario.ana_face; Scenario.ana_finger])
    as (A & B & _ & _); [reflexivity|discriminate|].
  split; [rewrite A|rewrite B]; reflexivity.
Defined.

End TemplateManagerMore.

(* ===================================================================== *)
(** ** More on src/membership_manager.py                                 *)
(* ===================================================================== *)

Module MembershipManagerMore.
Import DatetimeFacts TemplateManagerFacts MembershipManagerFacts MembershipManager.

Ltac unfold_mm :=
  unfold set_field, get_field, save_data, now_str, set_users, tm_call in *;
  unfold_py.

Lemma alter_inserted (users : gmap string dict) (user_id : string)
    (user : dict) (f : dict → dict) :
  alter f user_id (<[user_id := user]> users) = <[user_id := f user]> users.
Proof.
  rewrite (alter_insert_field _ _ user) by apply lookup_insert_eq.
  apply insert_insert_eq.
Qed.

(** Rewrites a chain of field updates of one stored record into the
    insertion of the updated record. *)
Ltac alters Hu :=
  rewrite (alter_insert_field _ _ _ _ Hu); rewrite ?alter_inserted.

Section Facts.
Context {D : Type} `{!Conn D}.
Variable clock : nat → datetime.
Variable exn_str : exn → string.

Abbreviation validate_membership := (MembershipManager.validate_membership clock exn_str).

(** The state after a validation that lets the member in. *)
Lemma validate_allow (user_id : string) (w : World D) (mm : t)
    (user : dict) (expiration : pyval) (d : datetime) (n : Z) :
  users mm !! strip user_id = Some user →
  get_is user "status" "inactive" = false →
  get_is user "status" "blocked" = false →
  user !! "expiration_date" = Some expiration →
  strptime expiration = Ret d →
  gt (clock (ticks w)) d = false →
  count_of (user !! "visit_count") = Some n →
  let users' :=
    <[strip user_id :=
        <["visit_count" := VInt (n + 1)]>
          (<["last_visit" := VStr (strftime (clock (S (ticks w))))]> user)]>
      (users mm) in
  validate_membership user_id (w, mm) =
  (Ret (true, "Membres" +:+ chr 237 +:+ "a activa hasta " +:+ py_str expiration),
   (mk_world (dev w) (calls w) (S (S (ticks w)))
      (writes w ++ [(data_file mm, DocMemberships users')]),
    mk (data_file mm) users' (template_manager mm))).
Proof.
  intros Hu Hi Hb Hexp Hparse Hgt Hn. cbv zeta.
  unfold MembershipManager.validate_membership. unfold_mm. cbn [fst snd].
  rewrite Hu, Hi, Hb, Hexp.
  assert (Ht : truthy expiration = true).
  { destruct expiration as [| | |e]; try discriminate. cbn in *.
    by rewrite (strptime_str_nonempty _ _ Hparse). }
  rewrite Ht. cbn [negb]. rewrite Hparse. cbn [fst snd]. rewrite Hgt. cbn.
  rewrite (alter_insert_field _ _ _ _ Hu). rewrite lookup_insert_eq. cbn.
  rewrite lookup_insert_ne by discriminate.
  assert (Hadd : add_one (user !! "visit_count") = Ret (VInt (n + 1))).
  { destruct (user !! "visit_count") as [[| | |]|]; cbn in Hn |- *;
      try discriminate; injection Hn as <-; reflexivity. }
  rewrite Hadd. cbn.
  rewrite (alter_insert_field _ _ (<["last_visit" := _]> user)) by apply lookup_insert_eq.
  rewrite insert_insert_eq. done.
Qed.

(** X4.  [validate_membership] lets a member in only if the member is
    registered, neither inactive nor blocked, and has an expiration that
    reads as a date the clock has not passed; and it always returns. *)
Theorem validate_allows_only_paid (user_id : string) (w : World D) (mm : t) :
  let out := validate_membership user_id (w, mm) in
  (∃ allowed reason, out.1 = Ret (allowed, reason))
  ∧ (∀ reason, out.1 = Ret (true, reason) →
       ∃ user expiration exp_date,
         users mm !! strip user_id = Some user
         ∧ get_is user "status" "inactive" = false
         ∧ get_is user "status" "blocked" = false
         ∧ user !! "expiration_date" = Some expiration
         ∧ strptime expiration = Ret exp_date
         ∧ gt (clock (ticks w)) exp_date = false).
Proof.
  cbv zeta. unfold MembershipManager.validate_membership. unfold_mm. cbn [fst snd].
  destruct (users mm !! strip user_id) as [user|] eqn:Hu; [|split; [by eexists _, _|done]].
  destruct (get_is user "status" "inactive") eqn:Hi; [split; [by eexists _, _|done]|].
  destruct (get_is user "status" "blocked") eqn:Hb; [split; [by eexists _, _|done]|].
  destruct (user !! "expiration_date") as [expiration|] eqn:He;
    [|split; [by eexists _, _|done]].
  destruct (negb (truthy expiration)); [split; [by eexists _, _|done]|].
  destruct (strptime expiration) as [exp_date|e] eqn:Hp; cbn [fst snd];
    [|split; [by eexists _, _|done]].
  destruct (gt (clock (ticks w)) exp_date) eqn:Hg; cbn.
  - split; [by eexists _, _|done].
  - destruct (add_one _) as [c|e]; cbn.
    + split; [by eexists _, _|]. intros _ _. by exists user, expiration, exp_date.
    + split; [by eexists _, _|done].
Qed.

(** X5.  When the member is unknown, inactive, blocked, without an
    expiration, or with one that does not read as a date, the validation
    denies and leaves no trace: the registry and the world are exactly as
    before (no clock read, no write). *)
Theorem validate_denies_without_trace (user_id : string) (w : World D) (mm : t) :
  (users mm !! strip user_id = None
   ∨ ∃ user, users mm !! strip user_id = Some user
       ∧ (get_is user "status" "inactive" = true
          ∨ get_is user "status" "blocked" = true
          ∨ get_falsy (user !! "expiration_date") = true
          ∨ ∃ expiration e, user !! "expiration_date" = Some expiration
                            ∧ strptime expiration = Raise e)) →
  let out := validate_membership user_id (w, mm) in
  out.2 = (w, mm) ∧ ∃ reason, out.1 = Ret (false, reason).
Proof.
  intros Hcase. cbv zeta.
  unfold MembershipManager.validate_membership. unfold_mm. cbn [fst snd].
  destruct Hcase as [Hu|(user & Hu & Hcase)]; rewrite Hu; [by eauto|].
  destruct (get_is user "status" "inactive") eqn:Hi; [by eauto|].
  destruct (get_is user "status" "blocked") eqn:Hb; [by eauto|].
  destruct Hcase as [?|[?|[Hf|(expiration & e & He & Hp)]]]; try done.
  - unfold get_falsy in Hf.
    destruct (user !! "expiration_date") as [expiration|]; [|by eauto].
    rewrite Hf. by eauto.
  - rewrite He. destruct (negb (truthy expiration)); [by eauto|].
    rewrite Hp. cbn. by eauto.
Qed.

(** The state after [add_user]. *)
Lemma add_user_eq (user_id name expiration_date status : string) (kwargs : dict)
    (w : World D) (mm : t) :
  let record : dict :=
    (<["user_id" := VStr (strip user_id)]> (<["name" := VStr name]>
     (<["expiration_date" := VStr expiration_date]> (<["status" := VStr status]> ∅))))
    ∪ kwargs
    ∪ (<["created_at" := VStr (strftime (clock (ticks w)))]> (<["last_visit" := VNone]>
       (<["visit_count" := VInt 0]> ∅))) in
  let users' := <[strip user_id := record]> (users mm) in
  add_user clock user_id name expiration_date status kwargs (w, mm) =
  (Ret tt,
   (mk_world (dev w) (calls w) (S (ticks w))
      (writes w ++ [(data_file mm, DocMemberships users')]),
    mk (data_file mm) users' (template_manager mm))).
Proof. reflexivity. Qed.

Lemma named_lookup (a b c d : pyval) (kwargs defaults : dict) (k : string) (v : pyval) :
  (<["user_id" := a]> (<["name" := b]>
     (<["expiration_date" := c]> (<["status" := d]> (∅ : dict))))) !! k = Some v →
  ((<["user_id" := a]> (<["name" := b]>
     (<["expiration_date" := c]> (<["status" := d]> ∅)))) ∪ kwargs ∪ defaults) !! k
  = Some v.
Proof. intros H. apply lookup_union_Some_l, lookup_union_Some_l, H. Qed.

(** X6.  Registering a user as active with an expiration date still
    ahead, then validating: the member is let in and the record counts
    one visit, whatever the registry held for that user before. *)
Theorem add_then_validate_allows (user_id name e : string) (kwargs : dict)
    (w : World D) (mm : t) (d : datetime) :
  strptime_str e = Ret d →
  gt (clock (S (ticks w))) d = false →
  kwargs !! "visit_count" = None →
  let added := add_user clock user_id name e "active" kwargs (w, mm) in
  let out := validate_membership user_id added.2 in
  out.1 = Ret (true, "Membres" +:+ chr 237 +:+ "a activa hasta " +:+ e)
  ∧ users out.2.2 !! strip user_id ≫= (.!! "visit_count") = Some (VInt 1)
  ∧ users out.2.2 !! strip user_id ≫= (.!! "name") = Some (VStr name)
  ∧ ∀ other, other ≠ strip user_id → users out.2.2 !! other = users mm !! other.
Proof.
  intros Hp Hg Hk. cbv zeta. rewrite add_user_eq. cbv zeta. cbn [fst snd].
  erewrite (validate_allow user_id _ _ _ (VStr e) d 0); cbn [users ticks].
  - cbn [fst snd users]. rewrite !lookup_insert_eq. cbn.
    rewrite lookup_insert_eq. split; [done|]. split; [done|].
    rewrite lookup_insert_ne, lookup_insert_ne by discriminate.
    split.
    + erewrite named_lookup; [done|].
      by rewrite lookup_insert_ne, lookup_insert_eq by discriminate.
    + intros other Hne. by rewrite !lookup_insert_ne.
  - apply lookup_insert_eq.
  - apply bool_decide_eq_false. erewrite named_lookup; [|by rewrite !lookup_insert_ne, lookup_insert_eq by discriminate]. by intros [=].
  - apply bool_decide_eq_false. erewrite named_lookup; [|by rewrite !lookup_insert_ne, lookup_insert_eq by discriminate]. by intros [=].
  - apply named_lookup. by rewrite !lookup_insert_ne, lookup_insert_eq by discriminate.
  - exact Hp.
  - exact Hg.
  - rewrite lookup_union_r.
    + by rewrite !lookup_insert_ne, lookup_insert_eq by discriminate.
    + apply lookup_union_None. split; [|exact Hk].
      by rewrite !lookup_insert_ne by discriminate.
Qed.

(** [block_user_with_backup], read off the template manager's block. *)
Lemma block_user_with_backup_eq (user_id : string) (w : World D) (mm : t) :
  block_user_with_backup clock user_id (w, mm) =
  let b := TemplateManager.block_user (strip user_id) (w, template_manager mm) in
  match b.1 with
  | Ret true =>
      match users mm !! strip user_id with
      | Some user =>
          let users' :=
            <[strip user_id :=
                <["blocked_at" := VStr (strftime (clock (ticks b.2.1)))]>
                  (<["status" := VStr "blocked"]> user)]> (users mm) in
          (Ret true,
           (mk_world (dev b.2.1) (calls b.2.1) (S (ticks b.2.1))
              (writes b.2.1 ++ [(data_file mm, DocMemberships users')]),
            mk (data_file mm) users' b.2.2))
      | None => (Ret true, (b.2.1, mk (data_file mm) (users mm) b.2.2))
      end
  | _ => (Ret false, (b.2.1, mk (data_file mm) (users mm) b.2.2))
  end.
Proof.
  unfold block_user_with_backup. unfold_mm. cbn [fst snd]. cbv zeta.
  destruct (TemplateManager.block_user _ _) as [[[|]|e] [w1 tm1]]; cbn; try done.
  destruct (users mm !! strip user_id) as [user|] eqn:Hu; cbn; [|done].
  by alters Hu.
Qed.

(** X7.  After a successful [block_user_with_backup] of a registered
    user, the gate denies that user as blocked, without touching the
    registry again, and the vault holds the user's snapshot; after a
    failed one the registry is as it was. *)
Theorem block_then_validate_denies (user_id : string) (w : World D) (mm : t)
    (user : dict) :
  users mm !! strip user_id = Some user →
  let blocked := block_user_with_backup clock user_id (w, mm) in
  let out := validate_membership user_id blocked.2 in
  (blocked.1 = Ret true →
     out.1 = Ret (false, "Usuario bloqueado temporalmente")
     ∧ out.2 = blocked.2
     ∧ TemplateManager.has_backup (strip user_id) (template_manager blocked.2.2) = true)
  ∧ (blocked.1 ≠ Ret true → blocked.1 = Ret false ∧ users blocked.2.2 = users mm).
Proof.
  intros Hu. cbv zeta. rewrite block_user_with_backup_eq. cbv zeta.
  pose proof (block_vault (strip user_id) (w, template_manager mm)) as V.
  pose proof (block_true_backup (strip user_id) (w, template_manager mm)) as T.
  pose proof (backup_true_has_backup (strip user_id) w (template_manager mm)) as B.
  rewrite <- V in B.
  destruct (TemplateManager.block_user _ _) as [[[|]|e] [w1 tm1]];
    cbn [fst snd] in *; try (split; [done|]; done).
  rewrite Hu. cbn [fst snd]. split; [|done]. intros _.
  split_and!; [| |by apply B, T].
  - unfold MembershipManager.validate_membership. unfold_mm. cbn [fst snd users].
    rewrite lookup_insert_eq.
    assert (Hi : ∀ s, get_is (<["blocked_at" := VStr s]> (<["status" := VStr "blocked"]> user))
                   "status" "inactive" = false).
    { intros s. apply bool_decide_eq_false.
      rewrite lookup_insert_ne, lookup_insert_eq by discriminate. by intros [=]. }
    assert (Hb : ∀ s, get_is (<["blocked_at" := VStr s]> (<["status" := VStr "blocked"]> user))
                   "status" "blocked" = true).
    { intros s. apply bool_decide_eq_true.
      by rewrite lookup_insert_ne, lookup_insert_eq by discriminate. }
    by rewrite Hi, Hb.
  - unfold MembershipManager.validate_membership. unfold_mm. cbn [fst snd users].
    rewrite lookup_insert_eq.
    assert (Hi : ∀ s, get_is (<["blocked_at" := VStr s]> (<["status" := VStr "blocked"]> user))
                   "status" "inactive" = false).
    { intros s. apply bool_decide_eq_false.
      rewrite lookup_insert_ne, lookup_insert_eq by discriminate. by intros [=]. }
    assert (Hb : ∀ s, get_is (<["blocked_at" := VStr s]> (<["status" := VStr "blocked"]> user))
                   "status" "blocked" = true).
    { intros s. apply bool_decide_eq_true.
      by rewrite lookup_insert_ne, lookup_insert_eq by discriminate. }
    by rewrite Hi, Hb.
Qed.

(** [unblock_user_with_restore], read off the template manager's restore. *)
Lemma unblock_user_with_restore_eq (user_id : string) (new_expiration : option string)
    (w : World D) (mm : t) :
  unblock_user_with_restore clock user_id new_expiration (w, mm) =
  let r := TemplateManager.restore_user_templates (strip user_id)
             (w, template_manager mm) in
  match r.1 with
  | Ret true =>
      match users mm !! strip user_id with
      | Some user =>
          let renewed :=
            match given new_expiration with
            | Some e => <["expiration_date" := VStr e]> (<["status" := VStr "active"]> user)
            | None => <["status" := VStr "active"]> user
            end in
          let users' :=
            <[strip user_id :=
                <["unblocked_at" := VStr (strftime (clock (ticks r.2.1)))]> renewed]>
              (users mm) in
          (Ret true,
           (mk_world (dev r.2.1) (calls r.2.1) (S (ticks r.2.1))
              (writes r.2.1 ++ [(data_file mm, DocMemberships users')]),
            mk (data_file mm) users' (template_manager mm)))
      | None => (Ret true, (r.2.1, mm))
      end
  | _ => (Ret false, (r.2.1, mm))
  end.
Proof.
  unfold unblock_user_with_restore, TemplateManager.unblock_user. unfold_mm.
  cbn [fst snd]. cbv zeta.
  pose proof (restore_vault (strip user_id) (w, template_manager mm)) as V.
  destruct (TemplateManager.restore_user_templates _ _) as [[[|]|e] [w1 tm1]];
    cbn [fst snd] in *; subst tm1; try (by destruct mm).
  cbn. destruct (users mm !! strip user_id) as [user|] eqn:Hu; cbn; [|by destruct mm].
  destruct (given new_expiration) as [e|]; cbn; by alters Hu.
Qed.

(** X8.  [unblock_user_with_restore] without a snapshot fails and
    changes nothing, the device included.  When it succeeds for a
    registered user, the record is active again, its expiration is the
    new one if a non-empty one was given and the old one otherwise, and
    the vault still holds every snapshot. *)
Theorem unblock_with_restore_effects (user_id : string)
    (new_expiration : option string) (w : World D) (mm : t) :
  let out := unblock_user_with_restore clock user_id new_expiration (w, mm) in
  template_manager out.2.2 = template_manager mm
  ∧ (TemplateManager.templates_db (template_manager mm) !! strip user_id = None →
       out = (Ret false, (w, mm)))
  ∧ (∀ user, out.1 = Ret true → users mm !! strip user_id = Some user →
       users out.2.2 !! strip user_id ≫= (.!! "status") = Some (VStr "active")
       ∧ users out.2.2 !! strip user_id ≫= (.!! "expiration_date")
         = match given new_expiration with
           | Some e => Some (VStr e)
           | None => user !! "expiration_date"
           end).
Proof.
  cbv zeta. rewrite unblock_user_with_restore_eq. cbv zeta.
  split_and!.
  - destruct (TemplateManager.restore_user_templates _ _).1 as [[|]|e]; try done.
    by destruct (users mm !! strip user_id).
  - intros Hnone. rewrite TemplateManagerMore.restore_user_templates_eq, Hnone. done.
  - intros user Ht Hu. revert Ht.
    destruct (TemplateManager.restore_user_templates _ _).1 as [[|]|e]; try done.
    rewrite Hu. cbn [fst snd users]. intros _. rewrite lookup_insert_eq. cbn.
    destruct (given new_expiration) as [e|].
    + rewrite !lookup_insert_ne, lookup_insert_eq by discriminate.
      by rewrite lookup_insert_ne, lookup_insert_eq by discriminate.
    + rewrite !lookup_insert_ne, lookup_insert_eq by discriminate.
      by rewrite !lookup_insert_ne by discriminate.
Qed.

(** X9.  Registering, validating, renewing, deactivating and
    reactivating concern the registry alone: they make no call on the
    device, leave the vault of the registry as it is, and do not touch
    the orchestrator. *)
Theorem registry_operations_leave_the_device (o : System.op) (s : System.t D) :
  Cases.registry_only o = true →
  let s' := System.step clock exn_str o s in
  dev (System.world s') = dev (System.world s)
  ∧ calls (System.world s') = calls (System.world s)
  ∧ template_manager (System.registry s') = template_manager (System.registry s)
  ∧ System.orchestrator s' = System.orchestrator s.
Proof.
  intros Ho. cbv zeta. destruct s as [w mm ab].
  destruct o; try discriminate; cbn [System.step]; unfold System.on_registry;
    cbn [System.world System.registry System.orchestrator].
  - rewrite add_user_eq. done.
  - unfold MembershipManager.validate_membership. unfold_mm. cbn [fst snd].
    destruct (users mm !! strip user_id) as [user|]; [|done].
    destruct (get_is user "status" "inactive"); [done|].
    destruct (get_is user "status" "blocked"); [done|].
    destruct (user !! "expiration_date") as [expiration|]; [|done].
    destruct (negb (truthy expiration)); [done|].
    destruct (strptime expiration) as [exp_date|e]; [|done]. cbn [fst snd].
    destruct (gt _ exp_date); cbn; [done|].
    by destruct (add_one _).
  - unfold update_expiration. unfold_mm. cbn [fst snd].
    by destruct (users mm !! strip user_id).
  - unfold deactivate_user. unfold_mm. cbn [fst snd].
    by destruct (users mm !! strip user_id).
  - unfold reactivate_user. unfold_mm. cbn [fst snd].
    destruct (users mm !! strip user_id); [|done].
    by destruct (given new_expiration).
Qed.

Lemma deactivate_user_eq (user_id : string) (w : World D) (mm : t) (user : dict) :
  users mm !! strip user_id = Some user →
  let users' :=
    <[strip user_id :=
        <["deactivated_at" := VStr (strftime (clock (ticks w)))]>
          (<["status" := VStr "inactive"]> user)]> (users mm) in
  deactivate_user clock user_id (w, mm) =
  (Ret tt,
   (mk_world (dev w) (calls w) (S (ticks w))
      (writes w ++ [(data_file mm, DocMemberships users')]),
    mk (data_file mm) users' (template_manager mm))).
Proof.
  intros Hu. cbv zeta. unfold deactivate_user. unfold_mm. cbn [fst snd].
  rewrite Hu. cbn. by alters Hu.
Qed.

Lemma reactivate_user_eq (user_id : string) (w : World D) (mm : t) (user : dict) :
  users mm !! strip user_id = Some user →
  let users' :=
    <[strip user_id :=
        <["reactivated_at" := VStr (strftime (clock (ticks w)))]>
          (<["status" := VStr "active"]> user)]> (users mm) in
  reactivate_user clock user_id None (w, mm) =
  (Ret tt,
   (mk_world (dev w) (calls w) (S (ticks w))
      (writes w ++ [(data_file mm, DocMemberships users')]),
    mk (data_file mm) users' (template_manager mm))).
Proof.
  intros Hu. cbv zeta. unfold reactivate_user. unfold_mm. cbn [fst snd].
  rewrite Hu. cbn. by alters Hu.
Qed.

(** X10.  A deactivated member is denied as inactive, whatever the
    expiration, and the denial leaves no trace; reactivating without a
    new expiration makes the record active again and keeps the
    expiration and the visit count it had. *)
Theorem deactivate_then_reactivate (user_id : string) (w : World D) (mm : t)
    (user : dict) :
  users mm !! strip user_id = Some user →
  let off := deactivate_user clock user_id (w, mm) in
  let denied := validate_membership user_id off.2 in
  let on := reactivate_user clock user_id None off.2 in
  denied.1 = Ret (false, "Usuario inactivo")
  ∧ denied.2 = off.2
  ∧ users on.2.2 !! strip user_id ≫= (.!! "status") = Some (VStr "active")
  ∧ users on.2.2 !! strip user_id ≫= (.!! "expiration_date")
    = user !! "expiration_date"
  ∧ users on.2.2 !! strip user_id ≫= (.!! "visit_count") = user !! "visit_count".
Proof.
  intros Hu. cbv zeta. rewrite (deactivate_user_eq _ _ _ _ Hu). cbv zeta.
  cbn [fst snd].
  split_and!.
  - unfold MembershipManager.validate_membership. unfold_mm. cbn [fst snd users].
    rewrite lookup_insert_eq.
    assert (Hi : ∀ v, get_is (<["deactivated_at" := v]> (<["status" := VStr "inactive"]> user))
                   "status" "inactive" = true).
    { intros v. apply bool_decide_eq_true.
      by rewrite lookup_insert_ne, lookup_insert_eq by discriminate. }
    by rewrite Hi.
  - unfold MembershipManager.validate_membership. unfold_mm. cbn [fst snd users].
    rewrite lookup_insert_eq.
    assert (Hi : ∀ v, get_is (<["deactivated_at" := v]> (<["status" := VStr "inactive"]> user))
                   "status" "inactive" = true).
    { intros v. apply bool_decide_eq_true.
      by rewrite lookup_insert_ne, lookup_insert_eq by discriminate. }
    by rewrite Hi.
  - erewrite reactivate_user_eq by apply lookup_insert_eq. cbn [fst snd users].
    rewrite !lookup_insert_eq. cbn.
    by rewrite lookup_insert_ne, lookup_insert_eq by discriminate.
  - erewrite reactivate_user_eq by apply lookup_insert_eq. cbn [fst snd users].
    rewrite !lookup_insert_eq. cbn.
    by rewrite !lookup_insert_ne by discriminate.
  - erewrite reactivate_user_eq by apply lookup_insert_eq. cbn [fst snd users].
    rewrite !lookup_insert_eq. cbn.
    by rewrite !lookup_insert_ne by discriminate.
Qed.

(** X11.  [get_expired_users] lists exactly the stored records whose
    expiration reads as a date the clock has passed and whose status is
    not blocked (a record without expiration, or with one that does not
    parse, is passed over); it changes nothing; and every record it lists
    is denied at the gate. *)
Theorem expired_users_are_denied (w : World D) (mm : t) :
  let out := MembershipQueries.get_expired_users clock (w, mm) in
  let today := clock (ticks w) in
  out.2.2 = mm
  ∧ ∃ listed, out.1 = Ret listed
      ∧ (∀ record, record ∈ listed ↔
           (∃ key, users mm !! key = Some record)
           ∧ get_is record "status" "blocked" = false
           ∧ ∃ expiration exp_date,
               record !! "expiration_date" = Some expiration
               ∧ strptime expiration = Ret exp_date
               ∧ gt today exp_date = true)
      ∧ (∀ key record, users mm !! key = Some record → strip key = key →
           record ∈ listed →
           ∃ reason, (validate_membership key (w, mm)).1 = Ret (false, reason)).
Proof.
  cbv zeta. unfold MembershipQueries.get_expired_users. unfold_py. cbn [fst snd].
  split; [done|]. eexists. split; [reflexivity|].
  assert (Hexp : ∀ record, MembershipQueries.is_expired (clock (ticks w)) record = true ↔
            get_is record "status" "blocked" = false
            ∧ ∃ expiration exp_date,
                record !! "expiration_date" = Some expiration
                ∧ strptime expiration = Ret exp_date
                ∧ gt (clock (ticks w)) exp_date = true).
  { intros record. unfold MembershipQueries.is_expired.
    destruct (record !! "expiration_date") as [expiration|].
    2:{ split; [done|]. by intros (_ & ? & ? & ? & _). }
    destruct (truthy expiration) eqn:Ht.
    - destruct (strptime expiration) as [exp_date|e] eqn:Hp.
      + rewrite andb_true_iff, negb_true_iff. split.
        * intros [Hg Hb]. split; [done|]. by exists expiration, exp_date.
        * intros (Hb & e' & d' & [= <-] & Hp' & Hg). rewrite Hp in Hp'.
          injection Hp' as <-. done.
      + split; [done|]. intros (_ & e' & d' & [= <-] & Hp' & _). congruence.
    - split; [done|]. intros (_ & e' & d' & [= <-] & Hp' & _).
      destruct expiration as [| | |s]; try discriminate. cbn in Ht, Hp'.
      rewrite (strptime_str_nonempty _ _ Hp') in Ht. discriminate. }
  assert (Hin : ∀ record,
            record ∈ List.filter (MembershipQueries.is_expired (clock (ticks w)))
                       (map_to_list (users mm)).*2 ↔
            (∃ key, users mm !! key = Some record)
            ∧ MembershipQueries.is_expired (clock (ticks w)) record = true).
  { intros record. rewrite list_elem_of_In, filter_In, <- list_elem_of_In.
    rewrite list_elem_of_fmap. split.
    - intros [([k r] & -> & Hkr) He]. split; [|done]. exists k.
      by apply elem_of_map_to_list.
    - intros [(k & Hk) He]. split; [|done]. exists (k, record). split; [done|].
      by apply elem_of_map_to_list. }
  split.
  - intros record. rewrite Hin, Hexp. tauto.
  - intros key record Hk Hs Hl. apply Hin in Hl as [_ He].
    apply Hexp in He as (Hb & expiration & exp_date & He & Hp & Hg).
    unfold MembershipManager.validate_membership. unfold_mm. cbn [fst snd].
    rewrite Hs, Hk. destruct (get_is record "status" "inactive"); [by eauto|].
    rewrite Hb, He.
    destruct (negb (truthy expiration)); [by eauto|].
    rewrite Hp. cbn [fst snd]. rewrite Hg. cbn. by eauto.
Qed.

End Facts.

(** Nobody is registered under 9999: the denial leaves no trace. *)
Lemma validate_denies_without_trace_witness :
  let s := (FakeDevice.world Scenario.enrolled, Cases.manager) in
  let out := validate_membership Scenario.clock Scenario.exn_str "9999" s in
  out.2 = s ∧ ∃ reason, out.1 = Ret (false, reason).
Proof.
  cbv zeta.
  apply (validate_denies_without_trace Scenario.clock Scenario.exn_str "9999"
           (FakeDevice.world Scenario.enrolled) Cases.manager).
  left. reflexivity.
Defined.

(** Ana, overdue in the registry, is registered anew until the end of
    2030: she is let in, with one visit. *)
Lemma add_then_validate_allows_witness :
  let added := add_user Scenario.clock " 1001" "Ana" "2030-12-31" "active" ∅
                 (FakeDevice.world Scenario.enrolled, Cases.manager) in
  let out := validate_membership Scenario.clock Scenario.exn_str " 1001" added.2 in
  out.1 = Ret (true, "Membres" +:+ chr 237 +:+ "a activa hasta 2030-12-31")
  ∧ users out.2.2 !! "1001" ≫= (.!! "visit_count") = Some (VInt 1).
Proof.
  cbv zeta.
  destruct (add_then_validate_allows Scenario.clock Scenario.exn_str
              " 1001" "Ana" "2030-12-31" ∅
              (FakeDevice.world Scenario.enrolled) Cases.manager
              (mk_datetime 2030 12 31 0 0 0 0)) as (A & B & _);
    [reflexivity..|].
  split; [exact A|exact B].
Defined.

(** Ana is blocked at the terminal: the gate then denies her as blocked. *)
Lemma block_then_validate_denies_witness :
  let blocked := block_user_with_backup Scenario.clock "1001"
                   (FakeDevice.world Scenario.enrolled, Cases.manager) in
  let out := validate_membership Scenario.clock Scenario.exn_str "1001" blocked.2 in
  blocked.1 = Ret true
  ∧ out.1 = Ret (false, "Usuario bloqueado temporalmente")
  ∧ out.2 = blocked.2.
Proof.
  cbv zeta.
  destruct (block_then_validate_denies Scenario.clock Scenario.exn_str "1001"
              (FakeDevice.world Scenario.enrolled) Cases.manager Scenario.overdue)
    as [H _]; [reflexivity|].
  assert (B : (block_user_with_backup Scenario.clock "1001"
                 (FakeDevice.world Scenario.enrolled, Cases.manager)).1 = Ret true)
    by (vm_compute; reflexivity).
  destruct (H B) as (H1 & H2 & _). split; [exact B|]. split; [exact H1|exact H2].
Defined.

(** Validating Luis makes no call on the terminal. *)
Lemma registry_operations_leave_the_device_witness :
  let s := System.mk (FakeDevice.world Scenario.enrolled) Cases.manager
             Cases.orchestrator in
  let s' := System.step Scenario.clock Scenario.exn_str (System.Validate "1002") s in
  dev (System.world s') = Scenario.enrolled
  ∧ calls (System.world s') = []
  ∧ template_manager (System.registry s') = Scenario.empty_vault
  ∧ System.orchestrator s' = Cases.orchestrator.
Proof.
  cbv zeta.
  apply (registry_operations_leave_the_device Scenario.clock Scenario.exn_str
           (System.Validate "1002")
           (System.mk (FakeDevice.world Scenario.enrolled) Cases.manager
              Cases.orchestrator)).
  reflexivity.
Defined.

(** Luis is deactivated, denied, and reactivated with his expiration and
    his two visits intact. *)
Lemma deactivate_then_reactivate_witness :
  let off := deactivate_user Scenario.clock "1002"
               (FakeDevice.world Scenario.enrolled, Cases.manager) in
  let denied := validate_membership Scenario.clock Scenario.exn_str "1002" off.2 in
  let on := reactivate_user Scenario.clock "1002" None off.2 in
  denied.1 = Ret (false, "Usuario inactivo")
  ∧ denied.2 = off.2
  ∧ users on.2.2 !! "1002" ≫= (.!! "status") = Some (VStr "active")
  ∧ users on.2.2 !! "1002" ≫= (.!! "expiration_date") = Some (VStr "2030-12-31")
  ∧ users on.2.2 !! "1002" ≫= (.!! "visit_count") = Some (VInt 2).
Proof.
  cbv zeta.
  apply (deactivate_then_reactivate Scenario.clock Scenario.exn_str "1002"
           (FakeDevice.world Scenario.enrolled) Cases.manager Cases.paid).
  reflexivity.
Defined.

End MembershipManagerMore.

(* ===================================================================== *)
(** ** More on src/auto_block_manager.py                                 *)
(* ===================================================================== *)

Module AutoBlockManagerMore.
Import DatetimeFacts TemplateManagerFacts TemplateManagerMore SystemFacts Sweeps AutoBlockManager.

Ltac unfold_ab :=
  unfold set_field, append_log, save_memberships, now_str, set_memberships,
    tm_call in *;
  unfold_py.

Section Facts.
Context {D : Type} `{!Conn D}.
Variable clock : nat → datetime.
Variable exn_str : exn → string.

Abbreviation should_block_user := (AutoBlockManager.should_block_user clock exn_str).
Abbreviation block_user_automatically := (AutoBlockManager.block_user_automatically clock).
Abbreviation unblock_user_automatically :=
  (AutoBlockManager.unblock_user_automatically clock).

Lemma grown_refl ab : grown ab ab [].
Proof.
  split; [apply keeps_refl|]. split; [done|]. by rewrite app_nil_r.
Qed.

Lemma grown_trans ab1 ab2 ab3 l1 l2 :
  grown ab1 ab2 l1 → grown ab2 ab3 l2 → grown ab1 ab3 (l1 ++ l2).
Proof.
  intros (K1 & M1 & L1 & F1) (K2 & M2 & L2 & F2).
  split; [by eapply keeps_trans|]. split; [intros u; by rewrite M2, M1|].
  split; [by rewrite L2, L1, app_assoc|congruence].
Qed.

Lemma lookup_alter_None_iff (m : gmap string dict) (f : dict → dict) (k u : string) :
  alter f k m !! u = None ↔ m !! u = None.
Proof.
  rewrite lookup_alter. case_decide; [subst|done].
  destruct (m !! u); cbn; split; done.
Qed.

(** [should_block_user] returns, changes nothing but the count of clock
    reads, and says no for a user the registry does not know. *)
Lemma should_block_user_spec (user_id : string) (w : World D) (ab : t) :
  let out := should_block_user user_id (w, ab) in
  out.2.2 = ab
  ∧ dev out.2.1 = dev w ∧ calls out.2.1 = calls w ∧ writes out.2.1 = writes w
  ∧ ∃ due reason, out.1 = Ret (due, reason)
      ∧ (memberships ab !! user_id = None → due = false).
Proof.
  cbv zeta. unfold AutoBlockManager.should_block_user. unfold_py. cbn [fst snd].
  assert (A : ∀ (due : bool) (reason : string) w',
            dev w' = dev w → calls w' = calls w → writes w' = writes w →
            (memberships ab !! user_id = None → due = false) →
            (Ret (due, reason), (w', ab)).2.2 = ab
            ∧ dev (Ret (due, reason), (w', ab)).2.1 = dev w
            ∧ calls (Ret (due, reason), (w', ab)).2.1 = calls w
            ∧ writes (Ret (due, reason), (w', ab)).2.1 = writes w
            ∧ ∃ due' reason', (Ret (due, reason), (w', ab)).1 = Ret (due', reason')
                ∧ (memberships ab !! user_id = None → due' = false)).
  { intros due reason w' H1 H2 H3 H4. cbn. split_and!; try done. by exists due, reason. }
  destruct (memberships ab !! user_id) as [membership|]; [|by apply A].
  destruct (get_is membership "status" "blocked"); [by apply A|].
  destruct (get_is membership "status" "inactive"); [by apply A|].
  destruct (membership !! "expiration_date") as [expiration|]; [|by apply A].
  destruct (negb (truthy expiration)); [by apply A|].
  destruct (strptime expiration) as [exp_date|e]; cbn [fst snd]; [|by apply A].
  destruct (gt _ exp_date); by apply A.
Qed.

(** [block_user_automatically] returns; the vault loses nothing, the
    registry keeps its keys, and the log gains one line when, and only
    when, the answer is [True]. *)
Lemma block_user_automatically_spec (user_id reason : string) (w : World D) (ab : t) :
  let out := block_user_automatically user_id reason (w, ab) in
  ∃ ok : bool, out.1 = Ret ok
    ∧ ∃ lines, grown ab out.2.2 lines
        ∧ (if ok then ∃ stamp, lines = [block_line user_id reason stamp]
           else lines = []).
Proof.
  cbv zeta. unfold AutoBlockManager.block_user_automatically. unfold_ab.
  cbn [fst snd].
  assert (G0 : ∀ tm', TemplateManager.keeps (template_manager ab) tm' →
            grown ab (mk (memberships_file ab) tm' (memberships ab) (auto_block_log ab)) []).
  { intros tm' K. split; [exact K|]. split; [done|]. cbn. by rewrite app_nil_r. }
  assert (G1 : ∀ tm' f l, TemplateManager.keeps (template_manager ab) tm' →
            (∀ u, f (memberships ab) !! u = None ↔ memberships ab !! u = None) →
            grown ab (mk (memberships_file ab) tm' (f (memberships ab))
                        (auto_block_log ab ++ l)) l).
  { intros tm' f l K Hf. split; [exact K|]. by split. }
  destruct (TemplateManager.has_backup user_id (template_manager ab)) eqn:Hb;
    cbn [negb fst snd].
  - destruct (get_users (dev w)) as [[users|x] d1].
    2:{ exists false. split; [done|]. exists []. split; [|done].
        destruct ab. apply grown_refl. }
    destruct (find_user user_id users) as [user|].
    2:{ exists false. split; [done|]. exists []. split; [|done].
        destruct ab. apply grown_refl. }
    cbn [fst snd dev calls ticks writes].
    destruct (delete_user (User.uid user) d1) as [[[]|x] d2]; cbn.
    2:{ exists false. split; [done|]. exists []. split; [|done].
        destruct ab. apply grown_refl. }
    destruct (memberships ab !! user_id) eqn:Hm; cbn.
    + exists true. split; [done|]. eexists. split; [|by eexists].
      apply (G1 _ (fun m => alter _ user_id (alter _ user_id (alter _ user_id
                              (alter _ user_id m))))); [apply keeps_refl|].
      intros u. by rewrite !lookup_alter_None_iff.
    + exists true. split; [done|]. eexists. split; [|by eexists].
      apply (G1 _ (fun m => m)); [apply keeps_refl|done].
  - pose proof (backup_extends user_id w (template_manager ab)) as [_ K].
    pose proof (backup_returns user_id (w, template_manager ab)) as [b Hret].
    destruct (TemplateManager.backup_user_templates user_id _) as [r [w1 tm1]].
    cbn [fst snd] in *. subst r. destruct b; cbn [negb fst snd].
    2:{ exists false. split; [done|]. exists []. split; [|done]. by apply G0. }
    destruct (get_users (dev w1)) as [[users|x] d1].
    2:{ exists false. split; [done|]. exists []. split; [|done]. by apply G0. }
    destruct (find_user user_id users) as [user|].
    2:{ exists false. split; [done|]. exists []. split; [|done]. by apply G0. }
    cbn [fst snd dev calls ticks writes].
    destruct (delete_user (User.uid user) d1) as [[[]|x] d2]; cbn.
    2:{ exists false. split; [done|]. exists []. split; [|done]. by apply G0. }
    destruct (memberships ab !! user_id) eqn:Hm; cbn.
    + exists true. split; [done|]. eexists. split; [|by eexists].
      apply (G1 _ (fun m => alter _ user_id (alter _ user_id (alter _ user_id
                              (alter _ user_id m))))); [exact K|].
      intros u. by rewrite !lookup_alter_None_iff.
    + exists true. split; [done|]. eexists. split; [|by eexists].
      apply (G1 _ (fun m => m)); [exact K|done].
Qed.


Abbreviation backup_if_missing := (AutoBlockSync.backup_if_missing (D := D)).
Abbreviation block_if_due := (AutoBlockSync.block_if_due clock exn_str).
Abbreviation sync_each := (AutoBlockSync.sync_each clock exn_str).
Abbreviation daily_each := (AutoBlockSync.daily_each clock exn_str).
Abbreviation sync_device_users_on_startup :=
  (AutoBlockSync.sync_device_users_on_startup clock exn_str).
Abbreviation check_and_block_expired_daily :=
  (AutoBlockSync.check_and_block_expired_daily clock exn_str).
Abbreviation force_sync_all := (AutoBlockSync.force_sync_all clock exn_str).

Abbreviation ab_covered ab :=
  (System.covered (memberships ab) (template_manager ab)).

Lemma backup_if_missing_spec (user_id : string) (b : Z) (w : World D) (ab : t) :
  let out := backup_if_missing user_id b (w, ab) in
  ∃ b', out.1 = Ret b' ∧ b ≤ b' ≤ b + 1
    ∧ grown ab out.2.2 [] ∧ memberships out.2.2 = memberships ab
    ∧ ∃ reads, calls out.2.1 = calls w ++ reads
               ∧ Forall (fun c => is_read c = true) reads.
Proof.
  cbv zeta. unfold AutoBlockSync.backup_if_missing. unfold_ab. cbn [fst snd].
  destruct (TemplateManager.has_backup user_id (template_manager ab));
    cbn [negb fst snd].
  - exists b. split_and!; try done; try lia; [apply grown_refl|].
    exists []. by rewrite app_nil_r.
  - pose proof (backup_extends user_id w (template_manager ab)) as [_ K].
    pose proof (backup_returns user_id (w, template_manager ab)) as [ok Hret].
    pose proof (backup_only_reads user_id w (template_manager ab)) as R.
    destruct (TemplateManager.backup_user_templates user_id _) as [r [w1 tm1]].
    cbn [fst snd] in *. subst r. cbn.
    exists (if ok then b + 1 else b). split_and!; try done; try (destruct ok; lia).
    split; [exact K|]. split; [done|]. cbn. by rewrite app_nil_r.
Qed.


Lemma backup_if_missing_covered (user_id : string) (b : Z) (w : World D) (ab : t) :
  ab_covered ab → ab_covered (backup_if_missing user_id b (w, ab)).2.2.
Proof.
  intros Hc.
  destruct (backup_if_missing_spec user_id b w ab) as (b' & _ & _ & (K & _) & Hm & _).
  rewrite Hm. by eapply covered_keeps.
Qed.

(** The block step: the counter moves by the number of lines the log
    gains, which is one or none; a user the registry does not know is
    left alone, and so is the device. *)
Lemma block_if_due_spec (user_id : string) (k : Z) (w : World D) (ab : t) :
  let out := block_if_due user_id k (w, ab) in
  ∃ lines, out.1 = Ret (k + Z.of_nat (length lines))
    ∧ (length lines ≤ 1)%nat
    ∧ Forall AutoBlockSync.is_block_entry lines
    ∧ grown ab out.2.2 lines
    ∧ (ab_covered ab → ab_covered out.2.2)
    ∧ (memberships ab !! user_id = None →
         out.2.2 = ab ∧ calls out.2.1 = calls w).
Proof.
  cbv zeta. unfold AutoBlockSync.block_if_due, mbind, M_bind, bind, mret, M_ret, ret.
  pose proof (should_block_user_spec user_id w ab) as S. cbv zeta in S.
  destruct (should_block_user user_id (w, ab)) as [r [w1 ab1]].
  cbn [fst snd] in S. destruct S as (-> & _ & Hcalls & _ & due & reason & -> & Hnone).
  cbn [fst snd]. destruct due; cbn [fst snd].
  - pose proof (block_user_automatically_spec user_id reason w1 ab) as B.
    pose proof (auto_block_covered clock user_id reason w1 ab) as C.
    cbv zeta in B.
    destruct (block_user_automatically user_id reason (w1, ab)) as [r [w2 ab2]].
    cbn [fst snd] in B, C. destruct B as (ok & -> & lines & G & Hl).
    cbn [fst snd]. destruct ok.
    + destruct Hl as (stamp & ->). exists [block_line user_id reason stamp].
      cbn. split_and!; try done; try lia.
      * by repeat constructor.
      * intros Hn. by specialize (Hnone Hn).
    + subst lines. exists []. cbn. split_and!; try done; try lia.
      * f_equal. lia.
      * intros Hn. by specialize (Hnone Hn).
  - exists []. cbn. split_and!; try done; try lia.
    + f_equal. lia.
    + apply grown_refl.
Qed.


Lemma sync_each_cons (user : User.t) (rest : list User.t) (b k : Z)
    (s : World D * t) :
  sync_each (user :: rest) b k s =
  match backup_if_missing (User.user_id user) b s with
  | (Ret b1, s1) =>
      match block_if_due (User.user_id user) k s1 with
      | (Ret k1, s2) => sync_each rest b1 k1 s2
      | (Raise e, s2) => (Raise e, s2)
      end
  | (Raise e, s1) => (Raise e, s1)
  end.
Proof.
  cbn [AutoBlockSync.sync_each]. unfold mbind, M_bind, bind.
  destruct (backup_if_missing _ b s) as [[b1|e] s1]; [|done].
  by destruct (block_if_due _ k s1) as [[k1|e] s2].
Qed.

Lemma daily_each_cons (user : User.t) (rest : list User.t) (k : Z)
    (s : World D * t) :
  daily_each (user :: rest) k s =
  match block_if_due (User.user_id user) k s with
  | (Ret k1, s1) => daily_each rest k1 s1
  | (Raise e, s1) => (Raise e, s1)
  end.
Proof.
  cbn [AutoBlockSync.daily_each]. unfold mbind, M_bind, bind.
  by destruct (block_if_due _ k s) as [[k1|e] s1].
Qed.

(** The loop of the startup sweep returns; its two counters are bounded
    by the number of users, and the second one counts the lines the log
    gained. *)
Lemma sync_each_spec (users : list User.t) (b k : Z) (w : World D) (ab : t) :
  let out := sync_each users b k (w, ab) in
  ∃ b' lines, out.1 = Ret (b', k + Z.of_nat (length lines))
    ∧ b ≤ b' ≤ b + Z.of_nat (length users)
    ∧ (length lines ≤ length users)%nat
    ∧ Forall AutoBlockSync.is_block_entry lines
    ∧ grown ab out.2.2 lines
    ∧ (ab_covered ab → ab_covered out.2.2).
Proof.
  cbv zeta. revert b k w ab. induction users as [|user rest IH]; intros b k w ab.
  - exists b, []. cbn. split_and!; try done; try lia; [f_equal; f_equal; lia|].
    apply grown_refl.
  - rewrite sync_each_cons.
    pose proof (backup_if_missing_spec (User.user_id user) b w ab) as B.
    pose proof (backup_if_missing_covered (User.user_id user) b w ab) as BC.
    cbv zeta in B.
    destruct (backup_if_missing _ b (w, ab)) as [r [w1 ab1]]. cbn [fst snd] in B, BC.
    destruct B as (b1 & -> & Hb1 & G1 & _).
    pose proof (block_if_due_spec (User.user_id user) k w1 ab1) as K. cbv zeta in K.
    destruct (block_if_due _ k (w1, ab1)) as [r [w2 ab2]]. cbn [fst snd] in K.
    destruct K as (l1 & -> & Hl1 & F1 & G2 & C2 & _).
    destruct (IH b1 (k + Z.of_nat (length l1)) w2 ab2)
      as (b' & l2 & E & Hb' & Hl2 & F2 & G3 & C3).
    exists b', (l1 ++ l2). rewrite E. split_and!.
    + f_equal. f_equal. rewrite length_app. lia.
    + cbn [length]. lia.
    + cbn [length]. lia.
    + rewrite length_app. cbn [length]. lia.
    + by apply Forall_app.
    + pose proof (grown_trans _ _ _ _ _ G1 G2) as G12. cbn [app] in G12.
      by eapply grown_trans.
    + auto.
Qed.

Lemma daily_each_spec (users : list User.t) (k : Z) (w : World D) (ab : t) :
  let out := daily_each users k (w, ab) in
  ∃ lines, out.1 = Ret (k + Z.of_nat (length lines))
    ∧ (length lines ≤ length users)%nat
    ∧ Forall AutoBlockSync.is_block_entry lines
    ∧ grown ab out.2.2 lines
    ∧ (ab_covered ab → ab_covered out.2.2).
Proof.
  cbv zeta. revert k w ab. induction users as [|user rest IH]; intros k w ab.
  - exists []. cbn. split_and!; try done; try lia; [f_equal; lia|].
    apply grown_refl.
  - rewrite daily_each_cons.
    pose proof (block_if_due_spec (User.user_id user) k w ab) as K. cbv zeta in K.
    destruct (block_if_due _ k (w, ab)) as [r [w2 ab2]]. cbn [fst snd] in K.
    destruct K as (l1 & -> & Hl1 & F1 & G2 & C2 & _).
    destruct (IH (k + Z.of_nat (length l1)) w2 ab2) as (l2 & E & Hl2 & F2 & G3 & C3).
    exists (l1 ++ l2). rewrite E. split_and!.
    + f_equal. rewrite length_app. lia.
    + rewrite length_app. cbn [length]. lia.
    + by apply Forall_app.
    + by eapply grown_trans.
    + auto.
Qed.

(** Device users the registry does not know go through the startup loop
    without a block: the device is only read, and the registry and the
    log stay as they are. *)
Lemma sync_each_strangers (users : list User.t) (b k : Z) (w : World D) (ab : t) :
  AutoBlockSync.unregistered ab users →
  let out := sync_each users b k (w, ab) in
  (∃ b', out.1 = Ret (b', k))
  ∧ memberships out.2.2 = memberships ab
  ∧ auto_block_log out.2.2 = auto_block_log ab
  ∧ ∃ reads, calls out.2.1 = calls w ++ reads
             ∧ Forall (fun c => is_read c = true) reads.
Proof.
  cbv zeta. revert b k w ab. induction users as [|user rest IH]; intros b k w ab Hu.
  - cbn. split_and!; try done; [by exists b|]. exists []. by rewrite app_nil_r.
  - rewrite sync_each_cons. apply Forall_cons in Hu as [Hu Hrest].
    pose proof (backup_if_missing_spec (User.user_id user) b w ab) as B.
    cbv zeta in B.
    destruct (backup_if_missing _ b (w, ab)) as [r [w1 ab1]]. cbn [fst snd] in B.
    destruct B as (b1 & -> & _ & (_ & _ & L1 & _) & M1 & reads1 & R1 & F1).
    pose proof (block_if_due_spec (User.user_id user) k w1 ab1) as K. cbv zeta in K.
    destruct (block_if_due _ k (w1, ab1)) as [r [w2 ab2]]. cbn [fst snd] in K.
    destruct K as (l1 & -> & _ & _ & (_ & _ & L2 & _) & _ & N).
    rewrite M1 in N. destruct (N Hu) as [-> C2].
    rewrite L1, app_nil_r in L2. apply (f_equal length) in L2.
    assert (l1 = []) as ->.
    { destruct l1; [done|]. rewrite length_app in L2. cbn in L2. lia. }
    cbn [length]. replace (k + Z.of_nat 0) with k by lia.
    destruct (IH b1 k w2 ab1) as (E & M3 & L3 & reads2 & R2 & F2).
    { unfold AutoBlockSync.unregistered. by rewrite M1. }
    split_and!; [exact E|congruence| |].
    + by rewrite L3, L1, app_nil_r.
    + exists (reads1 ++ reads2). rewrite R2, C2, R1, app_assoc. split; [done|].
      by apply Forall_app.
Qed.


Lemma sync_startup_eq (w : World D) (ab : t) :
  sync_device_users_on_startup (w, ab) =
  let w1 := mk_world (get_users (dev w)).2 (calls w ++ [GetUsers]) (ticks w) (writes w) in
  match (get_users (dev w)).1 with
  | Ret device_users =>
      let out := sync_each device_users 0 0 (w1, ab) in
      match out.1 with
      | Ret counts => (Ret (Z.of_nat (length device_users), counts.1, counts.2), out.2)
      | Raise _ => (Ret (0, 0, 0), out.2)
      end
  | Raise _ => (Ret (0, 0, 0), (w1, ab))
  end.
Proof.
  unfold AutoBlockSync.sync_device_users_on_startup. unfold_py. cbn [fst snd].
  destruct (get_users (dev w)) as [[users|e] d1]; cbn [fst snd]; [|done].
  by destruct (sync_each users 0 0 _) as [[counts|e] s1].
Qed.

Lemma force_sync_eq (w : World D) (ab : t) :
  force_sync_all (w, ab) =
  let w1 := mk_world (get_users (dev w)).2 (calls w ++ [GetUsers]) (ticks w) (writes w) in
  let local := Z.of_nat (size (memberships ab)) in
  match (get_users (dev w)).1 with
  | Ret device_users =>
      let out := sync_each device_users 0 0 (w1, ab) in
      match out.1 with
      | Ret counts =>
          (Ret (AutoBlockSync.mk_stats (Z.of_nat (length device_users)) local
                  counts.1 counts.2 []), out.2)
      | Raise e => (Ret (AutoBlockSync.mk_stats 0 local 0 0 [exn_str e]), out.2)
      end
  | Raise e => (Ret (AutoBlockSync.mk_stats 0 local 0 0 [exn_str e]), (w1, ab))
  end.
Proof.
  unfold AutoBlockSync.force_sync_all. unfold_py. cbn [fst snd].
  destruct (get_users (dev w)) as [[users|e] d1]; cbn [fst snd]; [|done].
  by destruct (sync_each users 0 0 _) as [[counts|e] s1].
Qed.

Lemma daily_check_eq (w : World D) (ab : t) :
  check_and_block_expired_daily (w, ab) =
  let w1 := mk_world (get_users (dev w)).2 (calls w ++ [GetUsers]) (ticks w) (writes w) in
  match (get_users (dev w)).1 with
  | Ret device_users => daily_each device_users 0 (w1, ab)
  | Raise e => (Raise e, (w1, ab))
  end.
Proof.
  unfold AutoBlockSync.check_and_block_expired_daily. unfold_py. cbn [fst snd].
  by destruct (get_users (dev w)) as [[users|e] d1].
Qed.

(** X12.  The startup sweep always returns a triple.  When the device
    does not list its users the triple is (0, 0, 0) and the orchestrator
    is as before.  Otherwise the first number is the number of device
    users, the other two lie between zero and it, and the log has gained
    exactly as many lines as the third number says, every one of them an
    "auto_block" line. *)
Theorem startup_sync_counts (w : World D) (ab : t) :
  let out := sync_device_users_on_startup (w, ab) in
  match (get_users (dev w)).1 with
  | Raise _ => out.1 = Ret (0, 0, 0) ∧ out.2.2 = ab
  | Ret device_users =>
      ∃ backed_up lines,
        out.1 = Ret (Z.of_nat (length device_users), backed_up,
                     Z.of_nat (length lines))
        ∧ 0 ≤ backed_up ≤ Z.of_nat (length device_users)
        ∧ (length lines ≤ length device_users)%nat
        ∧ Forall AutoBlockSync.is_block_entry lines
        ∧ auto_block_log out.2.2 = auto_block_log ab ++ lines
  end.
Proof.
  cbv zeta. rewrite sync_startup_eq. cbv zeta.
  destruct (get_users (dev w)) as [[users|e] d1]; cbn [fst snd]; [|done].
  match goal with |- context [sync_each users 0 0 (?w1, ab)] =>
    destruct (sync_each_spec users 0 0 w1 ab)
      as (b' & lines & E & Hb & Hl & F & (_ & _ & L & _) & _) end.
  rewrite E. cbn [fst snd]. exists b', lines. split_and!; try done; lia.
Qed.

(** X13.  No sweep leaves a blocked record without a snapshot: if every
    record marked "blocked" has one before the startup sweep, the daily
    check or the forced sweep, every such record has one after it. *)
Theorem sweeps_keep_blocked_backed_up (w : World D) (ab : t) :
  ab_covered ab →
  ab_covered (sync_device_users_on_startup (w, ab)).2.2
  ∧ ab_covered (check_and_block_expired_daily (w, ab)).2.2
  ∧ ab_covered (force_sync_all (w, ab)).2.2.
Proof.
  intros Hc.
  rewrite sync_startup_eq, force_sync_eq, daily_check_eq. cbv zeta.
  destruct (get_users (dev w)) as [[users|e] d1]; cbn [fst snd]; [|done].
  match goal with |- context [sync_each users 0 0 (?w1, ab)] =>
    destruct (sync_each_spec users 0 0 w1 ab)
      as (b' & lines & E & _ & _ & _ & _ & C);
    destruct (daily_each_spec users 0 w1 ab)
      as (lines' & E' & _ & _ & _ & C') end.
  rewrite E. cbn [fst snd]. split_and!; auto.
Qed.

(** X14.  Device users the registry does not know are never blocked by
    the startup sweep: its third number is zero, it asks the device for
    nothing but reads, and the registry and the log are as before. *)
Theorem startup_sync_spares_strangers (w : World D) (ab : t)
    (device_users : list User.t) :
  (get_users (dev w)).1 = Ret device_users →
  AutoBlockSync.unregistered ab device_users →
  let out := sync_device_users_on_startup (w, ab) in
  (∃ backed_up, out.1 = Ret (Z.of_nat (length device_users), backed_up, 0))
  ∧ memberships out.2.2 = memberships ab
  ∧ auto_block_log out.2.2 = auto_block_log ab
  ∧ ∃ reads, calls out.2.1 = calls w ++ reads
             ∧ Forall (fun c => is_read c = true) reads.
Proof.
  intros Hg Hu. cbv zeta. rewrite sync_startup_eq. cbv zeta. rewrite Hg.
  match goal with |- context [sync_each device_users 0 0 (?w1, ab)] =>
    destruct (sync_each_strangers device_users 0 0 w1 ab Hu)
      as ((b' & E) & M & L & reads & R & F) end.
  rewrite E. cbn [fst snd] in *. split_and!; try done; [by exists b'|].
  exists (GetUsers :: reads). rewrite R. cbn [calls]. rewrite <- app_assoc.
  split; [done|]. by constructor.
Qed.

(** X15.  [force_sync_all] does to the device, the vault, the registry
    and the log exactly what the startup sweep does, and reports the same
    three numbers; it adds the size of the registry and, when the device
    did not list its users, the text of the error. *)
Theorem force_sync_is_startup_sync (w : World D) (ab : t) :
  let forced := force_sync_all (w, ab) in
  let startup := sync_device_users_on_startup (w, ab) in
  forced.2 = startup.2
  ∧ ∃ stats, forced.1 = Ret stats
      ∧ startup.1 = Ret (AutoBlockSync.total_device stats,
                         AutoBlockSync.backed_up stats, AutoBlockSync.blocked stats)
      ∧ AutoBlockSync.total_local stats = Z.of_nat (size (memberships ab))
      ∧ AutoBlockSync.errors stats
        = match (get_users (dev w)).1 with
          | Ret _ => []
          | Raise e => [exn_str e]
          end.
Proof.
  cbv zeta. rewrite sync_startup_eq, force_sync_eq. cbv zeta.
  destruct (get_users (dev w)) as [[users|e] d1]; cbn [fst snd].
  2:{ split; [done|]. by eexists. }
  match goal with |- context [sync_each users 0 0 (?w1, ab)] =>
    destruct (sync_each_spec users 0 0 w1 ab) as (b' & lines & E & _) end.
  rewrite E. cbn [fst snd]. split; [done|]. by eexists.
Qed.

(** X16.  The daily check has no handler of its own: when the device does
    not list its users the exception leaves the method, where the startup
    sweep answers (0, 0, 0).  When the device does, the check returns the
    number of lines the log has gained, at most one per device user,
    every one of them an "auto_block" line. *)
Theorem daily_check_counts (w : World D) (ab : t) :
  let out := check_and_block_expired_daily (w, ab) in
  match (get_users (dev w)).1 with
  | Raise e =>
      out.1 = Raise e ∧ out.2.2 = ab
      ∧ (sync_device_users_on_startup (w, ab)).1 = Ret (0, 0, 0)
  | Ret device_users =>
      ∃ lines,
        out.1 = Ret (Z.of_nat (length lines))
        ∧ (length lines ≤ length device_users)%nat
        ∧ Forall AutoBlockSync.is_block_entry lines
        ∧ auto_block_log out.2.2 = auto_block_log ab ++ lines
  end.
Proof.
  cbv zeta. rewrite sync_startup_eq, daily_check_eq. cbv zeta.
  destruct (get_users (dev w)) as [[users|e] d1]; cbn [fst snd]; [|done].
  match goal with |- context [daily_each users 0 (?w1, ab)] =>
    destruct (daily_each_spec users 0 w1 ab)
      as (lines & E & Hl & F & (_ & _ & L & _) & _) end.
  rewrite E. by exists lines.
Qed.


Lemma unblock_user_automatically_spec (user_id new_expiration : string)
    (w : World D) (ab : t) :
  let out := unblock_user_automatically user_id new_expiration (w, ab) in
  template_manager out.2.2 = template_manager ab
  ∧ (TemplateManager.has_backup user_id (template_manager ab) = false →
       out = (Ret false, (w, ab)))
  ∧ (out.1 = Ret true ∨ (out.1 = Ret false ∧ out.2.2 = ab))
  ∧ (out.1 = Ret true →
       (∃ stamp, auto_block_log out.2.2
                 = auto_block_log ab ++ [unblock_line user_id new_expiration stamp])
       ∧ (is_Some (memberships ab !! user_id) →
            memberships out.2.2 !! user_id ≫= (.!! "status") = Some (VStr "active")
            ∧ memberships out.2.2 !! user_id ≫= (.!! "expiration_date")
              = Some (VStr new_expiration))).
Proof.
  cbv zeta. unfold AutoBlockManager.unblock_user_automatically. unfold_ab.
  cbn [fst snd]. rewrite restore_user_templates_eq.
  unfold TemplateManager.has_backup.
  destruct (TemplateManager.templates_db (template_manager ab) !! user_id)
    as [backup|] eqn:Hb.
  2:{ cbn. destruct ab. split_and!; try done. by right. }
  destruct (TemplateManager.fingers_of _) as [fs|e].
  2:{ cbn. destruct ab. split_and!; try done. by right. }
  cbv zeta. cbn [fst snd].
  destruct (save_user_template _ fs (dev w)) as [[[]|e] d1]; cbn [returned negb fst snd].
  2:{ cbn. destruct ab. split_and!; try done. by right. }
  cbn [fst snd memberships template_manager memberships_file auto_block_log].
  destruct (memberships ab !! user_id) as [record|] eqn:Hm; cbn.
  - split_and!; try done; [by left|].
    intros _. split; [by eexists|]. intros _.
    rewrite !lookup_alter_eq, Hm. cbn.
    rewrite lookup_insert_ne by done. rewrite lookup_insert_ne by done.
    rewrite lookup_insert_ne by done. rewrite lookup_insert_eq.
    rewrite lookup_insert_ne by done. rewrite lookup_insert_ne by done.
    by rewrite lookup_insert_eq.
  - split_and!; try done; [by left|].
    intros _. split; [by eexists|]. by intros [? ?].
Qed.

(** X17.  [unblock_user_automatically] never touches the vault.  Without
    a snapshot it answers [False] and changes nothing, the device
    included.  Whenever it answers anything but [True] the orchestrator
    is as before; when it answers [True] the log has gained one
    "auto_unblock" line carrying the new expiration, and a registered
    user's record is active with that expiration. *)
Theorem auto_unblock_effects (user_id new_expiration : string)
    (w : World D) (ab : t) :
  let out := unblock_user_automatically user_id new_expiration (w, ab) in
  template_manager out.2.2 = template_manager ab
  ∧ (TemplateManager.has_backup user_id (template_manager ab) = false →
       out = (Ret false, (w, ab)))
  ∧ (out.1 = Ret true ∨ (out.1 = Ret false ∧ out.2.2 = ab))
  ∧ (out.1 = Ret true →
       (∃ stamp, auto_block_log out.2.2
                 = auto_block_log ab ++ [unblock_line user_id new_expiration stamp])
       ∧ (is_Some (memberships ab !! user_id) →
            memberships out.2.2 !! user_id ≫= (.!! "status") = Some (VStr "active")
            ∧ memberships out.2.2 !! user_id ≫= (.!! "expiration_date")
              = Some (VStr new_expiration))).
Proof. apply unblock_user_automatically_spec. Qed.


(** X18.  A renewal clears the block: after [unblock_user_automatically]
    has answered [True] for a registered user, with a new expiration
    that reads as a date the clock has not passed, [should_block_user]
    finds the membership active. *)
Theorem renewed_member_is_not_due (user_id new_expiration : string)
    (w : World D) (ab : t) (exp_date : datetime) :
  let out := unblock_user_automatically user_id new_expiration (w, ab) in
  out.1 = Ret true →
  is_Some (memberships ab !! user_id) →
  strptime_str new_expiration = Ret exp_date →
  gt (clock (ticks out.2.1)) exp_date = false →
  (should_block_user user_id out.2).1
  = Ret (false, "Membres" +:+ chr 237 +:+ "a activa").
Proof.
  cbv zeta. intros Hok Hreg Hparse Hnow.
  pose proof (unblock_user_automatically_spec user_id new_expiration w ab) as E.
  cbv zeta in E. destruct E as (_ & _ & _ & E).
  destruct (E Hok) as (_ & F). destruct (F Hreg) as (Hs & He). clear E F.
  destruct (unblock_user_automatically user_id new_expiration (w, ab))
    as [r [w1 ab1]]. cbn [fst snd] in *.
  unfold AutoBlockManager.should_block_user. unfold_py. cbn [fst snd].
  destruct (memberships ab1 !! user_id) as [record|]; [|discriminate].
  cbn in Hs, He. unfold get_is. rewrite Hs, He.
  rewrite !bool_decide_eq_false_2 by (intros [=]).
  cbn [truthy]. rewrite (MembershipManagerFacts.strptime_str_nonempty _ _ Hparse).
  cbn [negb strptime]. rewrite Hparse. cbn [fst snd]. by rewrite Hnow.
Qed.

(** X19.  The gate and the sweep agree: a member whom
    [validate_membership] lets in is, by the same record and at the same
    reading of the clock, not due for a block. *)
Theorem allowed_member_is_not_due (user_id reason : string)
    (w w' : World D) (mm : MembershipManager.t) (ab : t) :
  (MembershipManager.validate_membership clock exn_str user_id (w, mm)).1
  = Ret (true, reason) →
  memberships ab !! strip user_id = MembershipManager.users mm !! strip user_id →
  ticks w' = ticks w →
  (should_block_user (strip user_id) (w', ab)).1
  = Ret (false, "Membres" +:+ chr 237 +:+ "a activa").
Proof.
  intros Hallow Hsame Hticks.
  unfold MembershipManager.validate_membership in Hallow.
  unfold AutoBlockManager.should_block_user.
  unfold MembershipManager.set_field, MembershipManager.get_field,
    MembershipManager.save_data, MembershipManager.now_str,
    MembershipManager.set_users in Hallow.
  unfold_py. cbn [fst snd] in *. rewrite Hsame.
  destruct (MembershipManager.users mm !! strip user_id) as [user|];
    [|discriminate].
  destruct (get_is user "status" "inactive"); [discriminate|].
  destruct (get_is user "status" "blocked"); [discriminate|].
  destruct (user !! "expiration_date") as [expiration|]; [|discriminate].
  destruct (negb (truthy expiration)); [discriminate|].
  destruct (strptime expiration) as [exp_date|e]; cbn [fst snd] in *;
    [|discriminate].
  rewrite Hticks.
  destruct (gt (clock (ticks w)) exp_date); [discriminate|]. done.
Qed.

End Facts.

(** With Ana overdue and Luis paid, no record is blocked before the
    sweeps, and after each of them every blocked record has a snapshot. *)
Lemma sweeps_keep_blocked_backed_up_witness :
  let s := (FakeDevice.world Scenario.enrolled, Cases.orchestrator) in
  let covered_after (ab : t) :=
    System.covered (memberships ab) (template_manager ab) in
  covered_after (AutoBlockSync.sync_device_users_on_startup
                   Scenario.clock Scenario.exn_str s).2.2
  ∧ covered_after (AutoBlockSync.check_and_block_expired_daily
                     Scenario.clock Scenario.exn_str s).2.2
  ∧ covered_after (AutoBlockSync.force_sync_all
                     Scenario.clock Scenario.exn_str s).2.2.
Proof.
  cbv zeta.
  apply (sweeps_keep_blocked_backed_up Scenario.clock Scenario.exn_str
           (FakeDevice.world Scenario.enrolled) Cases.orchestrator).
  intros u (record & Hu & Hs). cbn in Hu. unfold Cases.registry in Hu.
  apply lookup_insert_Some in Hu as [[_ <-]|[_ Hu]]; [vm_compute in Hs; discriminate|].
  apply lookup_singleton_Some in Hu as [_ <-]. vm_compute in Hs. discriminate.
Defined.

(** An orchestrator with an empty registry sweeps a terminal with two
    enrolled users: nobody is blocked. *)
Lemma startup_sync_spares_strangers_witness :
  let out := AutoBlockSync.sync_device_users_on_startup Scenario.clock Scenario.exn_str
               (FakeDevice.world Scenario.enrolled, Cases.stranger_orchestrator) in
  (∃ backed_up, out.1 = Ret (2, backed_up, 0))
  ∧ memberships out.2.2 = ∅
  ∧ auto_block_log out.2.2 = []
  ∧ ∃ reads, calls out.2.1 = reads ∧ Forall (fun c => is_read c = true) reads.
Proof.
  cbv zeta.
  apply (startup_sync_spares_strangers Scenario.clock Scenario.exn_str
           (FakeDevice.world Scenario.enrolled) Cases.stranger_orchestrator
           [Scenario.ana; Scenario.luis]).
  - reflexivity.
  - repeat constructor.
Defined.

(** Ana, blocked with her snapshot in the vault and off the terminal,
    renews until the end of 2024: she is no longer due. *)
Lemma renewed_member_is_not_due_witness :
  let ab := mk "memberships.json" Scenario.vault_with_ana
              {[ "1001" := <["status" := VStr "blocked"]> Scenario.overdue ]} [] in
  let out := unblock_user_automatically Scenario.clock "1001" "2024-12-31"
               (FakeDevice.world Scenario.without_ana, ab) in
  (AutoBlockManager.should_block_user Scenario.clock Scenario.exn_str "1001" out.2).1
  = Ret (false, "Membres" +:+ chr 237 +:+ "a activa").
Proof.
  cbv zeta.
  apply (renewed_member_is_not_due Scenario.clock Scenario.exn_str "1001" "2024-12-31"
           (FakeDevice.world Scenario.without_ana) _ (mk_datetime 2024 12 31 0 0 0 0)).
  - vm_compute. reflexivity.
  - eexists. apply lookup_singleton_eq.
  - reflexivity.
  - reflexivity.
Defined.

(** Luis, paid until the end of 2030, is let in by the gate and is not
    due for a block. *)
Lemma allowed_member_is_not_due_witness :
  (AutoBlockManager.should_block_user Scenario.clock Scenario.exn_str (strip "1002")
     (FakeDevice.world Scenario.enrolled, Cases.orchestrator)).1
  = Ret (false, "Membres" +:+ chr 237 +:+ "a activa").
Proof.
  apply (allowed_member_is_not_due Scenario.clock Scenario.exn_str "1002"
           ("Membres" +:+ chr 237 +:+ "a activa hasta 2030-12-31")
           (FakeDevice.world Scenario.enrolled) (FakeDevice.world Scenario.enrolled)
           Cases.manager Cases.orchestrator).
  - vm_compute. reflexivity.
  - reflexivity.
  - reflexivity.
Defined.

End AutoBlockManagerMore.

(* ===================================================================== *)
(** ** Floats that hold whole numbers                                    *)
(* ===================================================================== *)

Module FloatFacts.
Import Float.




End FloatFacts.

(* ===================================================================== *)
(** ** More on src/gymforce_api.py                                       *)
(* ===================================================================== *)

Module GymforceAPIMore.
Import GymforceAPI GymforceAPIFacts FloatFacts.

Ltac unfold_api :=
  unfold net, this, set_this, post_login, post_access, time_now in *; unfold_py.


Section Facts.
Variable login_endpoint : list request → res (response login_body).
Variable access_endpoint : list request → request → res (response dict).
Variable time_time : nat → Z.
Variable exn_str : exn → string.

Abbreviation login := (GymforceAPI.login login_endpoint time_time).
Abbreviation ensure_token := (GymforceAPI.ensure_token login_endpoint time_time).
Abbreviation validar_acceso :=
  (GymforceAPI.validar_acceso login_endpoint access_endpoint time_time exn_str).

(** [login] posts once, and holds a token when it answers [True]. *)
Lemma login_posts (n : Net) (a : t) :
  let out := login (n, a) in
  posts out.2.1 = posts n ++ [Login EMAIL PASSWORD]
  ∧ (out.1 = Ret true → is_Some (token out.2.2)).
Proof.
  cbv zeta. unfold GymforceAPI.login. unfold_api. cbn [fst snd].
  destruct (login_endpoint (posts n)) as [r|e]; cbn [fst snd]; [|done].
  destruct (status_code r =? 200); cbn [fst snd]; [|done].
  destruct (json r) as [data|e]; cbn [fst snd]; [|done].
  destruct (body_token data) as [tok|]; cbn [fst snd]; [|done].
  destruct (body_expires_in data) as [secs|e]; cbn; [|done].
  destruct (Float.of_int secs) as [lifetime|e]; cbn; [|done].
  split; [done|]. by eexists.
Qed.


Lemma ensure_token_spec (n : Net) (a : t) :
  let out := ensure_token (n, a) in
  match token a with
  | Some v =>
      if truthy v then
        if time_time (time_reads n) <? token_expiration a
        then out = (Ret true, (mk_net (posts n) (S (time_reads n)), a))
        else out = login (mk_net (posts n) (S (time_reads n)), a)
      else out = login (n, a)
  | None => out = login (n, a)
  end.
Proof.
  cbv zeta. unfold GymforceAPI.ensure_token. unfold_api. cbn [fst snd].
  destruct (token a) as [v|]; [|done].
  destruct (truthy v); [|done]. cbn.
  by destruct (_ <? _).
Qed.

Lemma ensure_token_posts (n : Net) (a : t) :
  let out := ensure_token (n, a) in
  let valid := match token a with
               | Some v => truthy v && (time_time (time_reads n) <? token_expiration a)
               | None => false
               end in
  (∃ ok : bool, out.1 = Ret ok)
  ∧ (valid = true → out.1 = Ret true ∧ out.2.2 = a ∧ posts out.2.1 = posts n)
  ∧ (valid = false →
       posts out.2.1 = posts n ++ [Login EMAIL PASSWORD]
       ∧ (out.1 = Ret true → is_Some (token out.2.2))).
Proof.
  cbv zeta. split; [apply ensure_token_returns|].
  pose proof (ensure_token_spec n a) as E. cbv zeta in E.
  assert (L : ∀ n', posts n' = posts n →
            posts (login (n', a)).2.1 = posts n ++ [Login EMAIL PASSWORD]
            ∧ ((login (n', a)).1 = Ret true → is_Some (token (login (n', a)).2.2))).
  { intros n' Hn'. destruct (login_posts n' a) as (P & T).
    rewrite Hn' in P. by split. }
  destruct (token a) as [v|].
  - destruct (truthy v); cbn [andb].
    + destruct (_ <? _); rewrite E; [by split|]. split; [done|]. intros _. by apply L.
    + rewrite E. split; [done|]. intros _. by apply L.
  - rewrite E. split; [done|]. intros _. by apply L.
Qed.

(** X21.  [ensure_token] with a token in hand that has not expired
    answers [True] without a post and leaves the client as it is.
    Without a token, or with an expired one, it posts the credentials
    once, and when it then answers [True] the client holds a token. *)
Theorem ensure_token_posts_only_when_stale (n : Net) (a : t) :
  let out := ensure_token (n, a) in
  let valid := match token a with
               | Some v => truthy v && (time_time (time_reads n) <? token_expiration a)
               | None => false
               end in
  (∃ ok : bool, out.1 = Ret ok)
  ∧ (valid = true → out.1 = Ret true ∧ out.2.2 = a ∧ posts out.2.1 = posts n)
  ∧ (valid = false →
       posts out.2.1 = posts n ++ [Login EMAIL PASSWORD]
       ∧ (out.1 = Ret true → is_Some (token out.2.2))).
Proof. apply ensure_token_posts. Qed.

(** What [validar_acceso] can return, and where it comes from: a dict is
    a refusal built by the client or the body of a 200 answer to a query
    the client posted; [None] follows a 401 answer to such a query. *)
Lemma validar_acceso_outcome (depth : nat) (socio_id : string) (sucursal_id : Z)
    (s : Net * t) (result : res (option dict)) (s' : Net * t) :
  validar_acceso depth socio_id sucursal_id s = (result, s') →
  let answered (code : Z) (body : option dict) :=
    ∃ before later tok r,
      posts s'.1 = before ++ Access tok socio_id sucursal_id :: later
      ∧ access_endpoint before (Access tok socio_id sucursal_id) = Ret r
      ∧ status_code r = code
      ∧ match body with Some d => json r = Ret d | None => True end in
  match result with
  | Ret (Some d) => (∃ msg, d = deny msg) ∨ answered 200 (Some d)
  | Ret None => answered 401 None
  | Raise _ => False
  end.
Proof.
  cbv zeta. revert s result s'.
  induction depth as [|depth IH]; intros s result s' E.
  all: cbn [GymforceAPI.validar_acceso] in E.
  all: unfold mbind at 1, M_bind at 1, bind at 1 in E.
  all: destruct (ensure_token_returns login_endpoint time_time s) as [ok Hok].
  all: destruct (ensure_token s) as [r0 s0]; cbn in Hok; subst r0.
  all: destruct ok; cbn [negb] in E; [|injection E as <- <-; left; by eexists].
  all: unfold try_except in E; unfold_api; cbn [fst snd] in E.
  all: destruct (access_endpoint (posts s0.1) _) as [r|e] eqn:Ha; cbn [fst snd] in E;
    [|destruct e; injection E as <- <-; left; by eexists].
  all: destruct (status_code r =? 200) eqn:H200;
    [apply Z.eqb_eq in H200;
     destruct (json r) as [d|e] eqn:Hj; cbn in E;
     [injection E as <- <-; right;
      exists (posts s0.1), [], (token s0.2), r; by rewrite Ha
     |destruct e; injection E as <- <-; left; by eexists]|].
  all: destruct (status_code r =? 401) eqn:H401; cbn [fst snd] in E;
    [|injection E as <- <-; left; by eexists].
  all: apply Z.eqb_eq in H401.
  - unfold login_without_stack, try_except, raise in E. cbn in E.
    injection E as <- <-. exists (posts s0.1), [], (token s0.2), r.
    by rewrite Ha.
  - match type of E with context [GymforceAPI.login _ _ ?s1] =>
      pose proof (login_posts s1.1 s1.2) as L; cbv zeta in L;
      destruct L as (P & _); cbn [fst snd] in P;
      destruct (login_returns login_endpoint time_time s1) as [renewed Hr];
      destruct (GymforceAPI.login login_endpoint time_time s1) as [r1 s2] end.
    cbn [fst snd] in *. subst r1. destruct renewed.
    + specialize (IH s2).
      destruct (GymforceAPI.validar_acceso _ _ _ _ depth socio_id sucursal_id s2)
        as [[[d|]|e] s3]; cbn [fst snd] in *.
      * injection E as <- <-. exact (IH _ _ eq_refl).
      * injection E as <- <-. exact (IH _ _ eq_refl).
      * destruct e; injection E as <- <-; left; by eexists.
    + injection E as <- <-.
      exists (posts s0.1), [Login EMAIL PASSWORD], (token s0.2), r.
      rewrite P, Ha. split_and!; try done. cbn [posts]. by rewrite <- app_assoc.
Qed.


Lemma deny_access (msg : string) : deny msg !! "access" = Some (VStr "deny").
Proof. unfold deny. rewrite lookup_insert_ne by done. by rewrite lookup_insert_eq. Qed.

(** X22.  [validar_acceso] fails closed.  With at least one frame left it
    returns, and what it returns is one of three things: a refusal built
    by the client, whose "access" is "deny"; the body of a 200 answer the
    service gave to a query this client posted for this member; or
    [None], after a 401 answer to such a query.  An "allow" is therefore
    always the service's own. *)
Theorem validar_acceso_fails_closed (depth : nat) (socio_id : string)
    (sucursal_id : Z) (s : Net * t) :
  let out := validar_acceso (S depth) socio_id sucursal_id s in
  let answered (code : Z) (body : option dict) :=
    ∃ before later tok r,
      posts out.2.1 = before ++ Access tok socio_id sucursal_id :: later
      ∧ access_endpoint before (Access tok socio_id sucursal_id) = Ret r
      ∧ status_code r = code
      ∧ match body with Some d => json r = Ret d | None => True end in
  ∃ result, out.1 = Ret result
    ∧ match result with
      | Some d => d !! "access" = Some (VStr "deny") ∨ answered 200 (Some d)
      | None => answered 401 None
      end.
Proof.
  cbv zeta.
  pose proof (validar_acceso_outcome (S depth) socio_id sucursal_id s) as O.
  destruct (validar_acceso (S depth) socio_id sucursal_id s) as [result s'].
  specialize (O result s' eq_refl). cbv zeta in O. cbn [fst snd].
  destruct result as [[d|]|e]; [| |done].
  - exists (Some d). split; [done|]. destruct O as [[msg ->]|O]; [left|by right].
    apply deny_access.
  - by exists None.
Qed.

(** X23.  Without a token there is no query: when [ensure_token] answers
    [False], [validar_acceso] refuses with "Sin token válido" and the
    only post it has made is the login. *)
Theorem validar_acceso_without_token (depth : nat) (socio_id : string)
    (sucursal_id : Z) (n : Net) (a : t) :
  (ensure_token (n, a)).1 = Ret false →
  let out := validar_acceso (S depth) socio_id sucursal_id (n, a) in
  out.1 = Ret (Some (deny ("Sin token v" +:+ chr 225 +:+ "lido")))
  ∧ posts out.2.1 = posts n ++ [Login EMAIL PASSWORD].
Proof.
  intros Hno. cbv zeta.
  assert (E : validar_acceso (S depth) socio_id sucursal_id (n, a)
              = (Ret (Some (deny ("Sin token v" +:+ chr 225 +:+ "lido"))),
                 (ensure_token (n, a)).2)).
  { cbn [GymforceAPI.validar_acceso]. unfold mbind at 1, M_bind at 1, bind at 1.
    destruct (ensure_token (n, a)) as [r0 s0]. cbn [fst snd] in *. by subst r0. }
  rewrite E. cbn [fst snd]. split; [done|].
  destruct (ensure_token_posts n a) as (_ & V & S). cbv zeta in V, S.
  destruct (match token a with
            | Some v => truthy v && (time_time (time_reads n) <? token_expiration a)
            | None => false
            end).
  - destruct (V eq_refl) as [V1 _]. rewrite Hno in V1. discriminate.
  - by destruct (S eq_refl).
Qed.

(** X24.  One query with a token in hand: when the token has not expired
    and the service does not answer 401, [validar_acceso] posts exactly
    one query, carrying that token, and returns the body of a 200 answer
    as it is; a timeout, any other exception, an unreadable body and any
    other status each become a refusal that names the cause. *)
Theorem validar_acceso_single_query (depth : nat) (socio_id : string)
    (sucursal_id : Z) (n : Net) (a : t) (v : pyval) :
  token a = Some v → truthy v = true →
  time_time (time_reads n) < token_expiration a →
  let query := Access (Some v) socio_id sucursal_id in
  let answer := access_endpoint (posts n) query in
  (∀ r, answer = Ret r → status_code r ≠ 401) →
  let out := validar_acceso (S depth) socio_id sucursal_id (n, a) in
  posts out.2.1 = posts n ++ [query]
  ∧ out.2.2 = a
  ∧ out.1 = Ret (Some
      match answer with
      | Ret r =>
          if status_code r =? 200 then
            match json r with
            | Ret data => data
            | Raise Timeout => deny "Timeout"
            | Raise e => deny (exn_str e)
            end
          else deny ("HTTP " +:+ str_int (status_code r))
      | Raise Timeout => deny "Timeout"
      | Raise e => deny (exn_str e)
      end).
Proof.
  intros Ht Hv Hfresh. cbv zeta. intros Hno401.
  match goal with |- _ ∧ _ ∧ _ = Ret (Some ?d) =>
    assert (E : validar_acceso (S depth) socio_id sucursal_id (n, a)
                = (Ret (Some d),
                   (mk_net (posts n ++ [Access (Some v) socio_id sucursal_id])
                      (S (time_reads n)), a))) end.
  { cbn [GymforceAPI.validar_acceso]. unfold mbind at 1, M_bind at 1, bind at 1.
    pose proof (ensure_token_spec n a) as E. cbv zeta in E.
    rewrite Ht, Hv in E. apply Z.ltb_lt in Hfresh. rewrite Hfresh in E.
    rewrite E. cbn [negb]. unfold try_except. unfold_api. cbn [fst snd posts].
    rewrite Ht.
    destruct (access_endpoint (posts n) _) as [r|e]; cbn [fst snd].
    2:{ by destruct e. }
    destruct (status_code r =? 200) eqn:H200.
    { destruct (json r) as [d|e]; cbn; [done|]. by destruct e. }
    destruct (status_code r =? 401) eqn:H401; [|done].
    apply Z.eqb_eq in H401. by destruct (Hno401 r eq_refl). }
  by rewrite E.
Qed.

End Facts.

(** The service refuses every login: no query leaves the client. *)
Lemma validar_acceso_without_token_witness :
  let out := GymforceAPI.validar_acceso Cases.login_never Scenario.always_allow
               Scenario.time_time Scenario.exn_str 1 "1001" 1
               (Scenario.offline, new) in
  out.1 = Ret (Some (deny ("Sin token v" +:+ chr 225 +:+ "lido")))
  ∧ posts out.2.1 = [Login EMAIL PASSWORD].
Proof.
  cbv zeta.
  apply (validar_acceso_without_token Cases.login_never Scenario.always_allow
           Scenario.time_time Scenario.exn_str 0 "1001" 1 Scenario.offline new).
  reflexivity.
Defined.

(** A client whose token is valid until second 5000 asks at second 1000
    a service that allows: one query, and the answer is the body. *)
Lemma validar_acceso_single_query_witness :
  let out := GymforceAPI.validar_acceso Cases.login_never Scenario.always_allow
               Scenario.time_time Scenario.exn_str 1 "1001" 1
               (Scenario.offline, Cases.logged_in) in
  posts out.2.1 = [Access (Some (VStr "t0k3n")) "1001" 1]
  ∧ out.2.2 = Cases.logged_in
  ∧ out.1 = Ret (Some Scenario.allow).
Proof.
  cbv zeta.
  apply (validar_acceso_single_query Cases.login_never Scenario.always_allow
           Scenario.time_time Scenario.exn_str 0 "1001" 1 Scenario.offline
           Cases.logged_in (VStr "t0k3n")).
  - reflexivity.
  - reflexivity.
  - reflexivity.
  - intros r [= <-]. discriminate.
Defined.

End GymforceAPIMore.

(* ===================================================================== *)
(** ** More on src/zk_listener.py                                        *)
(* ===================================================================== *)

Module ZKListenerMore.
Import DatetimeFacts ZKListener ZKListenerFacts Rows.

Ltac unfold_listener :=
  unfold device, api_call, me, set_me, set_mark, set_records, emit in *; unfold_py.

(** Looks a key up through a chain of insertions. *)
Ltac look :=
  repeat (rewrite lookup_insert_eq || rewrite lookup_insert_ne by done
          || rewrite lookup_empty).

Lemma update_first_keys (socio_id timestamp status : string) (reason : pyval)
    (recs recs' : list dict) :
  update_first socio_id timestamp status reason recs = Ret recs' →
  map row_key recs' = map row_key recs.
Proof.
  revert recs'. induction recs as [|rec rest IH]; intros recs'; cbn [update_first].
  { by intros [= <-]. }
  destruct (row_test socio_id timestamp rec) as [[|]|e]; [| |done].
  - intros [= <-]. cbn [map]. f_equal. unfold row_key. by rewrite !lookup_insert_ne.
  - destruct (update_first _ _ _ _ rest) as [rest'|e]; [|done].
    intros [= <-]. cbn [map]. by rewrite (IH rest').
Qed.

(** The loop passes over the rows that fail the test and updates the
    first one that passes it. *)
Lemma update_first_found (socio_id timestamp status : string) (reason : pyval)
    (before after : list dict) (row : dict) :
  Forall (fun rec => row_test socio_id timestamp rec = Ret false) before →
  row_test socio_id timestamp row = Ret true →
  update_first socio_id timestamp status reason (before ++ row :: after)
  = Ret (before ++ <["reason" := reason]> (<["status" := VStr status]> row) :: after).
Proof.
  intros Hf Hrow. induction Hf as [|rec rest Hrec _ IH]; cbn.
  - by rewrite Hrow.
  - by rewrite Hrec, IH.
Qed.

Lemma record_data_row_test (socio_id timestamp : string) :
  row_test socio_id timestamp (record_data socio_id timestamp) = Ret true.
Proof.
  unfold row_test, record_data.
  rewrite lookup_insert_ne by done. rewrite lookup_insert_eq.
  rewrite bool_decide_eq_true_2 by done. rewrite lookup_insert_eq.
  by rewrite bool_decide_eq_true_2.
Qed.

Section Facts.
Context {D : Type} `{!Conn D}.
Variable login_endpoint : list GymforceAPI.request → res (GymforceAPI.response GymforceAPI.login_body).
Variable access_endpoint : list GymforceAPI.request → GymforceAPI.request → res (GymforceAPI.response dict).
Variable time_time : nat → Z.
Variable exn_str : exn → string.
Variable depth : nat.

Abbreviation state := ((World D * GymforceAPI.Net) * t)%type.
Abbreviation validar_acceso :=
  (GymforceAPI.validar_acceso login_endpoint access_endpoint time_time exn_str depth).
Abbreviation process_attendance_record :=
  (ZKListener.process_attendance_record (D := D) login_endpoint access_endpoint
     time_time exn_str depth).
Abbreviation process_all :=
  (ZKListener.process_all (D := D) login_endpoint access_endpoint time_time
     exn_str depth).
Abbreviation poll_and_process_records :=
  (ZKListener.poll_and_process_records (D := D) login_endpoint access_endpoint
     time_time exn_str depth).

(** The table after one record: the new row is appended, and when the
    client returned a dict the update loop runs on the table; a loop that
    raises leaves the table with the new row only. *)
Lemma process_attendance_record_table (record : Attendance.t) (s : state) :
  let socio_id := strip (Attendance.user_id record) in
  let timestamp := strftime (Attendance.timestamp record) in
  let asked := validar_acceso socio_id 1 (s.1.2, api s.2) in
  let out := process_attendance_record record s in
  let appended := attendance_records s.2 ++ [record_data socio_id timestamp] in
  out.2.1.2 = asked.2.1
  ∧ api out.2.2 = asked.2.2
  ∧ attendance_records out.2.2
    = match asked.1 with
      | Ret (Some result) =>
          match update_first socio_id timestamp (verdict asked.1)
                  (default (VStr "") (result !! "respuesta")) appended with
          | Ret updated => updated
          | Raise _ => appended
          end
      | _ => appended
      end.
Proof.
  cbv zeta. unfold ZKListener.process_attendance_record.
  unfold_listener. cbn [fst snd api].
  destruct (GymforceAPI.validar_acceso _ _ _ _ _ _ _ _) as [[[result|]|e] [n1 a1]];
    cbn; try done.
  by destruct (update_first _ _ _ _ _).
Qed.

(** X25.  A punch arrives at a table in which every row has a user id,
    the rows of this user have a timestamp, and none is of this user and
    second.  Then the punch adds one row, and the row carries the
    verdict: "allowed" only when the client returned a dict whose
    "access" is "allow", "denied" for any other dict, and "processing"
    when the client returned [None] or raised. *)
Theorem punch_row_carries_the_verdict (record : Attendance.t) (s : state) :
  let socio_id := strip (Attendance.user_id record) in
  let timestamp := strftime (Attendance.timestamp record) in
  Forall (fun rec => row_test socio_id timestamp rec = Ret false)
         (attendance_records s.2) →
  let asked := validar_acceso socio_id 1 (s.1.2, api s.2) in
  let out := process_attendance_record record s in
  ∃ row, attendance_records out.2.2 = attendance_records s.2 ++ [row]
    ∧ row !! "user_id" = Some (VStr socio_id)
    ∧ row !! "timestamp" = Some (VStr timestamp)
    ∧ row !! "status" = Some (VStr (verdict asked.1))
    ∧ row !! "reason"
      = match asked.1 with
        | Ret (Some result) => Some (default (VStr "") (result !! "respuesta"))
        | _ => None
        end.
Proof.
  cbv zeta. intros Hfresh.
  destruct (process_attendance_record_table record s) as (_ & _ & T).
  cbv zeta in T. rewrite T. clear T.
  destruct (validar_acceso _ 1 _) as [[[result|]|e] s1]; cbn [fst snd verdict].
  - rewrite (update_first_found _ _ _ _ _ [] _ Hfresh (record_data_row_test _ _)).
    eexists. split; [done|]. unfold record_data.
    split_and!; by look.
  - eexists. split; [done|]. unfold record_data. split_and!; by look.
  - eexists. split; [done|]. unfold record_data. split_and!; by look.
Qed.

(** X26.  A punch of a user and second the table already has: when the
    client returns a dict, the verdict and the reason go to the first
    row of that user and second, every other row is as it was, and the
    row appended for the punch stays "processing".  When the client
    returns [None] or raises, the row is appended and no row changes. *)
Theorem repeated_punch_stays_processing (record : Attendance.t) (s : state)
    (before after : list dict) (row : dict) :
  let socio_id := strip (Attendance.user_id record) in
  let timestamp := strftime (Attendance.timestamp record) in
  attendance_records s.2 = before ++ row :: after →
  Forall (fun rec => row_test socio_id timestamp rec = Ret false) before →
  row_test socio_id timestamp row = Ret true →
  let asked := validar_acceso socio_id 1 (s.1.2, api s.2) in
  let out := process_attendance_record record s in
  attendance_records out.2.2
  = match asked.1 with
    | Ret (Some result) =>
        before
        ++ <["reason" := default (VStr "") (result !! "respuesta")]>
             (<["status" := VStr (verdict asked.1)]> row)
           :: after ++ [record_data socio_id timestamp]
    | _ => before ++ row :: after ++ [record_data socio_id timestamp]
    end.
Proof.
  cbv zeta. intros Htable Hbefore Hrow.
  destruct (process_attendance_record_table record s) as (_ & _ & T).
  cbv zeta in T. rewrite T, Htable. clear T.
  destruct (validar_acceso _ 1 _) as [[[result|]|e] s1]; cbn [fst snd].
  - rewrite <- app_assoc. cbn [app].
    by rewrite (update_first_found _ _ _ _ _ _ _ Hbefore Hrow).
  - by rewrite <- app_assoc.
  - by rewrite <- app_assoc.
Qed.

Lemma process_attendance_record_keys (record : Attendance.t) (s : state) :
  map row_key (attendance_records (process_attendance_record record s).2.2)
  = map row_key (attendance_records s.2) ++ [row_key (event record)].
Proof.
  destruct (process_attendance_record_table record s) as (_ & _ & T).
  cbv zeta in T. rewrite T. clear T.
  destruct (validar_acceso _ 1 _) as [[[result|]|e] s1]; cbn [fst snd];
    try by rewrite map_app.
  destruct (update_first _ _ _ _ _) as [updated|e] eqn:U; [|by rewrite map_app].
  rewrite (update_first_keys _ _ _ _ _ _ U). by rewrite map_app.
Qed.

Lemma process_all_keys (records : list Attendance.t) (s : state) :
  map row_key (attendance_records (process_all records s).2.2)
  = map row_key (attendance_records s.2) ++ map row_key (map event records).
Proof.
  revert s. induction records as [|r records IH]; intros s.
  - cbn. by rewrite app_nil_r.
  - rewrite process_all_cons. cbv zeta.
    pose proof (process_attendance_record_spec login_endpoint access_endpoint
                  time_time exn_str depth r s) as (R & _).
    pose proof (process_attendance_record_keys r s) as K.
    destruct (process_attendance_record r s) as [r0 s1]. cbn [fst snd] in *.
    subst r0. rewrite IH. cbn [fst snd attendance_records set_mark].
    rewrite K. cbn [map]. by rewrite <- app_assoc.
Qed.

Lemma poll_rows (s : state) (records : list Attendance.t) (d1 : D) (m : datetime) :
  conn s.2 = true →
  last_processed_time s.2 = Some m →
  get_attendance (dev s.1.1) = (Ret records, d1) →
  map row_key (attendance_records (poll_and_process_records s).2.2)
  = map row_key (attendance_records s.2)
    ++ map (fun r => row_key (event r)) (sorted_by_timestamp (after_mark m records)).
Proof.
  intros Hc Hm Hr.
  rewrite (poll_and_process_records_eq login_endpoint access_endpoint time_time
             exn_str depth s records d1 m Hc Hm Hr).
  rewrite process_all_keys. cbn [fst snd]. by rewrite map_map.
Qed.

(** X27.  One row per punch: after a polling pass the table has, after
    the rows it had, one row for each record newer than the mark, in
    order of time, each with the stripped user id and the formatted
    timestamp of its record; earlier rows keep their user and timestamp,
    whatever the client answered. *)
Theorem poll_adds_one_row_per_punch (s : state) (records : list Attendance.t)
    (d1 : D) (m : datetime) :
  conn s.2 = true →
  last_processed_time s.2 = Some m →
  get_attendance (dev s.1.1) = (Ret records, d1) →
  let out := poll_and_process_records s in
  map row_key (attendance_records out.2.2)
  = map row_key (attendance_records s.2)
    ++ map (fun r => (Some (VStr (strip (Attendance.user_id r))),
                      Some (VStr (strftime (Attendance.timestamp r)))))
           (sorted_by_timestamp (after_mark m records)).
Proof.
  intros Hc Hm Hr. cbv zeta. rewrite (poll_rows s records d1 m Hc Hm Hr).
  f_equal.
Qed.


Section Startup.
Variable clock : nat → datetime.

Abbreviation polling_rounds :=
  (ZKListener.polling_rounds (D := D) login_endpoint access_endpoint time_time
     exn_str depth).
Abbreviation start_optimized_polling :=
  (ZKListener.start_optimized_polling (D := D) clock login_endpoint access_endpoint
     time_time exn_str depth).

(** What the rounds leave alone when nothing on the device is newer than
    the mark. *)
Lemma polling_rounds_idle (n : nat) (s : state) (records : list Attendance.t)
    (m : datetime) (result : res unit) (s' : state) :
  conn s.2 = true →
  last_processed_time s.2 = Some m →
  get_attendance (dev s.1.1) = (Ret records, dev s.1.1) →
  Forall (fun r => gt (Attendance.timestamp r) m = false) records →
  polling_rounds n s = (result, s') →
  result = Ret tt ∧ s'.2 = s.2 ∧ s'.1.2 = s.1.2 ∧ dev s'.1.1 = dev s.1.1.
Proof.
  revert s. induction n as [|n IH]; intros s Hc Hm Hr Hall E.
  { by injection E as <- <-. }
  cbn [ZKListener.polling_rounds] in E.
  unfold mbind at 1, M_bind at 1, bind at 1 in E.
  unfold me at 1, gets at 1 in E. cbn [fst snd] in E.
  destruct (running s.2 && connected s.2); [|by injection E as <- <-].
  unfold mbind at 1, M_bind at 1, bind at 1, try_except at 1 in E.
  rewrite (poll_and_process_records_eq login_endpoint access_endpoint time_time
             exn_str depth s records (dev s.1.1) m Hc Hm Hr) in E.
  assert (Hnone : after_mark m records = []).
  { unfold after_mark. clear -Hall. induction Hall as [|r l Hr _ IH]; [done|].
    cbn. by rewrite Hr. }
  rewrite Hnone in E. cbn [sorted_by_timestamp foldr ZKListener.process_all] in E.
  unfold mret at 1, M_ret at 1, ret at 1 in E. cbn [fst snd] in E.
  by apply IH in E.
Qed.

(** X28.  The history on the terminal is not processed.  A listener that
    starts without a mark on a connected terminal takes as its mark the
    latest timestamp on the terminal (the time of the clock when there is
    none), and as long as the terminal lists the same records, no number
    of polling rounds emits an event, adds a row or calls the
    membership service. *)
Theorem history_is_not_processed (n : nat) (s : state)
    (records : list Attendance.t) :
  conn s.2 = true →
  last_processed_time s.2 = None →
  get_attendance (dev s.1.1) = (Ret records, dev s.1.1) →
  let out := start_optimized_polling n s in
  out.1 = Ret tt
  ∧ emitted out.2.2 = emitted s.2
  ∧ attendance_records out.2.2 = attendance_records s.2
  ∧ api out.2.2 = api s.2
  ∧ out.2.1.2 = s.1.2
  ∧ last_processed_time out.2.2
    = Some match records with
           | first :: rest => max_timestamp first rest
           | [] => clock (ticks s.1.1)
           end
  ∧ Forall (fun r => gt (Attendance.timestamp r)
                        match records with
                        | first :: rest => max_timestamp first rest
                        | [] => clock (ticks s.1.1)
                        end = false) records.
Proof.
  intros Hc Hm Hr. cbv zeta.
  set (mark := match records with
               | first :: rest => max_timestamp first rest
               | [] => clock (ticks s.1.1)
               end).
  assert (Hall : Forall (fun r => gt (Attendance.timestamp r) mark = false) records).
  { destruct records as [|first rest]; [done|].
    pose proof (max_timestamp_spec (Attendance.timestamp first) rest) as (A & B & _).
    constructor; [exact A|exact B]. }
  assert (E : ∃ s1 : state,
            start_optimized_polling n s
            = match polling_rounds n s1 with
              | (Ret a, s2) => (Ret a, s2)
              | (Raise _, s2) => (Ret tt, s2)
              end
            ∧ s1.2 = set_mark mark s.2 ∧ s1.1.2 = s.1.2
            ∧ dev s1.1.1 = dev s.1.1).
  { unfold ZKListener.start_optimized_polling, try_except.
    unfold mbind at 1, M_bind at 1, bind at 1.
    unfold ZKListener.initialize_polling_timestamp. unfold_listener.
    cbn [fst snd]. rewrite Hm, Hc, Hr. cbn [fst snd].
    destruct records as [|first rest]; cbn [fst snd];
      (eexists; split; [reflexivity|]; cbn; by rewrite ?Hc). }
  destruct E as (s1 & -> & H2 & H3 & H4).
  destruct (polling_rounds n s1) as [result s2] eqn:P.
  apply (polling_rounds_idle n s1 records mark) in P as (-> & L & N & _).
  - cbn [fst snd]. rewrite L, N, H2, H3. cbn. split_and!; done.
  - by rewrite H2.
  - by rewrite H2.
  - by rewrite H4.
  - exact Hall.
Qed.

End Startup.

End Facts.
(** The table has a row of Ana at 09:00; Eva punches at 10:00 with a
    padded id and the service allows: her row says so. *)
Lemma punch_row_carries_the_verdict_witness :
  let earlier := event (Attendance.mk "1001" (Scenario.at_hour 9)) in
  let listener := ZKListener.mk true true true (Some (Scenario.at_hour 8))
                    GymforceAPI.new [earlier] [] in
  let out := ZKListener.process_attendance_record Scenario.login_always
               Scenario.always_allow Scenario.time_time Scenario.exn_str 1000
               (Attendance.mk " 1003" (Scenario.at_hour 10))
               ((FakeDevice.world Scenario.turnstile, Scenario.offline), listener) in
  ∃ row, attendance_records out.2.2 = [earlier; row]
    ∧ row !! "user_id" = Some (VStr "1003")
    ∧ row !! "timestamp" = Some (VStr "2024-03-11 10:00:00")
    ∧ row !! "status" = Some (VStr "allowed")
    ∧ row !! "reason" = Some (VStr "Bienvenido").
Proof.
  cbv zeta.
  destruct (punch_row_carries_the_verdict Scenario.login_always Scenario.always_allow
              Scenario.time_time Scenario.exn_str 1000
              (Attendance.mk " 1003" (Scenario.at_hour 10))
              ((FakeDevice.world Scenario.turnstile, Scenario.offline),
               ZKListener.mk true true true (Some (Scenario.at_hour 8)) GymforceAPI.new
                 [event (Attendance.mk "1001" (Scenario.at_hour 9))] []))
    as (row & A & B & C & E & F); [constructor; [reflexivity|constructor]|].
  exists row. split_and!; [exact A|exact B|exact C|exact E|exact F].
Defined.

(** The table already has a row of Ana at 09:00: the verdict of a second
    punch of that second goes to it, and the row added stays
    "processing". *)
Lemma repeated_punch_stays_processing_witness :
  let punch := Attendance.mk "1001" (Scenario.at_hour 9) in
  let listener := ZKListener.mk true true true (Some (Scenario.at_hour 8))
                    GymforceAPI.new [event punch] [] in
  let out := ZKListener.process_attendance_record Scenario.login_always
               Scenario.always_allow Scenario.time_time Scenario.exn_str 1000 punch
               ((FakeDevice.world Scenario.turnstile, Scenario.offline), listener) in
  attendance_records out.2.2
  = [<["reason" := VStr "Bienvenido"]> (<["status" := VStr "allowed"]> (event punch));
     event punch].
Proof.
  cbv zeta.
  apply (repeated_punch_stays_processing Scenario.login_always Scenario.always_allow
           Scenario.time_time Scenario.exn_str 1000
           (Attendance.mk "1001" (Scenario.at_hour 9))
           ((FakeDevice.world Scenario.turnstile, Scenario.offline),
            ZKListener.mk true true true (Some (Scenario.at_hour 8)) GymforceAPI.new
              [event (Attendance.mk "1001" (Scenario.at_hour 9))] [])
           [] [] (event (Attendance.mk "1001" (Scenario.at_hour 9))));
    [reflexivity|constructor|reflexivity].
Defined.

(** Three punches after 08:00: three rows, in order of time. *)
Lemma poll_adds_one_row_per_punch_witness :
  let s := ((FakeDevice.world Scenario.turnstile, Scenario.offline), Scenario.listening) in
  let out := ZKListener.poll_and_process_records Scenario.login_always
               Scenario.always_allow Scenario.time_time Scenario.exn_str 1000 s in
  map row_key (attendance_records out.2.2)
  = [(Some (VStr "1001"), Some (VStr "2024-03-11 09:00:00"));
     (Some (VStr "1003"), Some (VStr "2024-03-11 10:00:00"));
     (Some (VStr "1002"), Some (VStr "2024-03-11 12:00:00"))].
Proof.
  cbv zeta.
  apply (poll_adds_one_row_per_punch Scenario.login_always Scenario.always_allow
           Scenario.time_time Scenario.exn_str 1000
           ((FakeDevice.world Scenario.turnstile, Scenario.offline), Scenario.listening)
           Scenario.punches Scenario.turnstile (Scenario.at_hour 8));
    reflexivity.
Defined.

(** A listener without a mark starts on a terminal that lists four
    punches: after three rounds nothing has been emitted, and the mark
    is the latest of them. *)
Lemma history_is_not_processed_witness :
  let s := ((FakeDevice.world Scenario.turnstile, Scenario.offline),
            Cases.fresh_listener) in
  let out := ZKListener.start_optimized_polling Scenario.clock Scenario.login_always
               Scenario.always_allow Scenario.time_time Scenario.exn_str 1000 3 s in
  out.1 = Ret tt
  ∧ emitted out.2.2 = []
  ∧ attendance_records out.2.2 = []
  ∧ last_processed_time out.2.2 = Some (Scenario.at_hour 12).
Proof.
  cbv zeta.
  destruct (history_is_not_processed Scenario.login_always Scenario.always_allow
              Scenario.time_time Scenario.exn_str 1000 Scenario.clock 3
              ((FakeDevice.world Scenario.turnstile, Scenario.offline),
               Cases.fresh_listener) Scenario.punches)
    as (A & B & C & _ & _ & E & _); [reflexivity..|].
  split_and!; [exact A|exact B|exact C|exact E].
Defined.

End ZKListenerMore.

(* ===================================================================== *)
(** ** More on src/csv_exporter.py                                       *)
(* ===================================================================== *)

Module CSVExporterMore.
Import ZKListener ZKListenerFacts Rows CSVExporter.

Ltac look :=
  repeat (rewrite lookup_insert_eq || rewrite lookup_insert_ne by done
          || rewrite lookup_empty).

Lemma validate_record_clean (t u st rs : string) :
  validate_record (<["timestamp" := VStr t]> (<["user_id" := VStr u]>
                  (<["status" := VStr st]> (<["reason" := VStr rs]> ∅))))
  = Some (<["timestamp" := VStr t]> (<["user_id" := VStr u]>
         (<["status" := VStr st]> (<["reason" := VStr rs]> ∅)))).
Proof.
  unfold validate_record. look.
  rewrite !bool_decide_eq_true_2 by by eexists. by cbn.
Qed.

Lemma validate_record_shape (record out : dict) :
  validate_record record = Some out →
  exportable record
  ∧ ∃ t u st rs,
      out = <["timestamp" := VStr t]> (<["user_id" := VStr u]>
            (<["status" := VStr st]> (<["reason" := VStr rs]> ∅)))
      ∧ (∀ x, record !! "timestamp" = Some (VStr x) → t = x)
      ∧ (∀ x, record !! "user_id" = Some (VStr x) → u = x)
      ∧ (∀ x, record !! "status" = Some (VStr x) → st = x).
Proof.
  unfold validate_record, exportable.
  destruct (bool_decide (is_Some (record !! "timestamp"))) eqn:Ht; [|done].
  destruct (bool_decide (is_Some (record !! "user_id"))) eqn:Hu; [|done].
  cbn. intros [= <-]. apply bool_decide_eq_true in Ht, Hu. split; [done|].
  do 4 eexists. split; [reflexivity|].
  split_and!; intros x Hx; by rewrite Hx.
Qed.

Lemma validate_record_exportable (record : dict) :
  exportable record → is_Some (validate_record record).
Proof.
  intros [Ht Hu]. unfold validate_record.
  rewrite !bool_decide_eq_true_2 by done. by eexists.
Qed.

(** X29.  [validate_records] returns no more records than it is given,
    and one for each when every record has a timestamp and a user id;
    every record it returns is made from a given record that has both,
    has the four columns and nothing else, all strings, with the
    timestamp, the user id and the status of that record when those were
    strings; and validating twice changes nothing more. *)
Theorem validate_records_cleans (records : list dict) :
  let out := validate_records records in
  validate_records out = out
  ∧ (length out ≤ length records)%nat
  ∧ (Forall exportable records → length out = length records)
  ∧ Forall (fun row =>
       ∃ record t u st rs, record ∈ records ∧ exportable record
         ∧ row = <["timestamp" := VStr t]> (<["user_id" := VStr u]>
                 (<["status" := VStr st]> (<["reason" := VStr rs]> ∅)))
         ∧ (∀ x, record !! "timestamp" = Some (VStr x) → t = x)
         ∧ (∀ x, record !! "user_id" = Some (VStr x) → u = x)
         ∧ (∀ x, record !! "status" = Some (VStr x) → st = x)) out.
Proof.
  cbv zeta. unfold validate_records.
  induction records as [|record rest (I & L & E & F)]; [by cbn|].
  cbn [omap list_omap].
  destruct (validate_record record) as [row|] eqn:V.
  - destruct (validate_record_shape _ _ V) as (X & t & u & st & rs & -> & H1 & H2 & H3).
    cbn [omap list_omap length]. rewrite validate_record_clean.
    split_and!.
    + by rewrite I.
    + lia.
    + intros Hall. apply Forall_cons in Hall as [_ Hall]. by rewrite (E Hall).
    + constructor.
      * exists record, t, u, st, rs. split_and!; try done. by left.
      * eapply Forall_impl; [exact F|]. cbn.
        intros row (r & t' & u' & st' & rs' & Hin & Hrest).
        exists r, t', u', st', rs'. split; [by right|exact Hrest].
  - split_and!.
    + exact I.
    + cbn [length]. lia.
    + intros Hall. apply Forall_cons in Hall as [Hx _].
      apply validate_record_exportable in Hx as [? Hx]. congruence.
    + eapply Forall_impl; [exact F|]. cbn.
      intros row (r & t' & u' & st' & rs' & Hin & Hrest).
      exists r, t', u', st', rs'. split; [by right|exact Hrest].
Qed.

Lemma validate_records_length_keys (l l' : list dict) :
  map row_key l = map row_key l' →
  length (validate_records l) = length (validate_records l').
Proof.
  unfold validate_records. revert l'.
  induction l as [|r l IH]; intros [|r' l'] Heq; try discriminate; [done|].
  cbn [map] in Heq. unfold row_key at 1 3 in Heq. injection Heq as Hu Ht Hrest.
  cbn [omap list_omap]. specialize (IH l' Hrest).
  destruct (validate_record r) as [y|] eqn:V, (validate_record r') as [y'|] eqn:V';
    cbn [length]; try by rewrite IH.
  - apply validate_record_shape in V as [[X1 X2] _].
    destruct (validate_record_exportable r') as [? Hx]; [|congruence].
    split; congruence.
  - apply validate_record_shape in V' as [[X1 X2] _].
    destruct (validate_record_exportable r) as [? Hx]; [|congruence].
    split; congruence.
Qed.

Lemma validate_records_app (l l' : list dict) :
  validate_records (l ++ l') = validate_records l ++ validate_records l'.
Proof.
  unfold validate_records. induction l as [|r l IH]; [done|].
  cbn [app omap list_omap]. destruct (validate_record r); by rewrite IH.
Qed.

Section Facts.
Context {D : Type} `{!Conn D}.
Variable login_endpoint : list GymforceAPI.request → res (GymforceAPI.response GymforceAPI.login_body).
Variable access_endpoint : list GymforceAPI.request → GymforceAPI.request → res (GymforceAPI.response dict).
Variable time_time : nat → Z.
Variable exn_str : exn → string.
Variable depth : nat.

(** X30.  No punch is lost between the listener and the export: after a
    polling pass, [validate_records] applied to the listener's table
    returns as many records as it did before the pass, plus one for each
    record processed in the pass, whatever the membership service
    answered. *)
Theorem polled_rows_reach_the_export
    (s : (World D * GymforceAPI.Net) * ZKListener.t)
    (records : list Attendance.t) (d1 : D) (m : datetime) :
  conn s.2 = true →
  last_processed_time s.2 = Some m →
  get_attendance (dev s.1.1) = (Ret records, d1) →
  let out := ZKListener.poll_and_process_records login_endpoint access_endpoint
               time_time exn_str depth s in
  length (validate_records (attendance_records out.2.2))
  = (length (validate_records (attendance_records s.2))
     + length (after_mark m records))%nat.
Proof.
  intros Hc Hm Hr. cbv zeta.
  pose proof (ZKListenerMore.poll_rows login_endpoint access_endpoint time_time
                exn_str depth s records d1 m Hc Hm Hr) as K.
  rewrite <- (map_map event row_key) in K. rewrite <- map_app in K.
  rewrite (validate_records_length_keys _ _ K), validate_records_app, length_app.
  f_equal.
  transitivity (length (sorted_by_timestamp (after_mark m records))).
  - clear. induction (sorted_by_timestamp _) as [|r l IH]; [done|].
    cbn [map]. change (validate_records (event r :: map event l))
      with (validate_records ([event r] ++ map event l)).
    rewrite validate_records_app, length_app, IH. reflexivity.
  - apply Permutation_length, sorted_by_timestamp_perm.
Qed.

End Facts.
(** The three punches after 08:00 reach the export. *)
Lemma polled_rows_reach_the_export_witness :
  let s := ((FakeDevice.world Scenario.turnstile, Scenario.offline), Scenario.listening) in
  let out := ZKListener.poll_and_process_records Scenario.login_always
               Scenario.always_allow Scenario.time_time Scenario.exn_str 1000 s in
  length (validate_records (attendance_records out.2.2)) = 3%nat.
Proof.
  cbv zeta.
  apply (polled_rows_reach_the_export Scenario.login_always Scenario.always_allow
           Scenario.time_time Scenario.exn_str 1000
           ((FakeDevice.world Scenario.turnstile, Scenario.offline), Scenario.listening)
           Scenario.punches Scenario.turnstile (Scenario.at_hour 8));
    reflexivity.
Defined.

End CSVExporterMore.

(* ===================================================================== *)
(** ** Checks on concrete inputs                                         *)
(* ===================================================================== *)

Module Checks.

Example strip_spaces : strip "  12 3  " = "12 3".
Proof. reflexivity. Qed.

Example hex_bytes : hex [x00; xff; x1a]%byte = "00ff1a".
Proof. reflexivity. Qed.

Example fromhex_mixed : fromhex "00 FF1a" = Some [x00; xff; x1a]%byte.
Proof. reflexivity. Qed.

Example fromhex_split_pair : fromhex "0 0" = None.
Proof. reflexivity. Qed.

Example strptime_leap_day :
  strptime_str "2024-02-29" = Ret (mk_datetime 2024 2 29 0 0 0 0).
Proof. reflexivity. Qed.

Example strptime_no_leap_day :
  strptime_str "2023-02-29" = Raise (ValueError_date 2023 2 29).
Proof. reflexivity. Qed.

Example strptime_short_fields :
  strptime_str "2023-1-5" = Ret (mk_datetime 2023 1 5 0 0 0 0).
Proof. reflexivity. Qed.

Example strptime_month_13 :
  strptime_str "2023-13-5" = Raise (ValueError_format "2023-13-5").
Proof. reflexivity. Qed.

Example strptime_day_32 :
  strptime_str "2023-12-32" = Raise (ValueError_unconverted "2").
Proof. reflexivity. Qed.

Example strptime_space_day :
  strptime_str "2023-12- 2" = Ret (mk_datetime 2023 12 2 0 0 0 0).
Proof. reflexivity. Qed.

Example toordinal_march : toordinal (mk_datetime 2024 3 1 0 0 0 0) = 738946.
Proof. reflexivity. Qed.

Example strftime_pads :
  strftime (mk_datetime 2024 3 1 7 5 9 3) = "2024-03-01 07:05:09".
Proof. reflexivity. Qed.

(** Ten days overdue: the reason says ten. *)
Example should_block_ten_days :
  let ab := AutoBlockManager.mk "memberships.json" Scenario.empty_vault
              {[ "1001" := Scenario.overdue ]} [] in
  (AutoBlockManager.should_block_user Scenario.clock Scenario.exn_str "1001"
     (FakeDevice.world Scenario.enrolled, ab)).1
  = Ret (true, "Membres" +:+ chr 237 +:+ "a vencida hace 10 d" +:+ chr 237 +:+ "as").
Proof. vm_compute. reflexivity. Qed.

(** A terminal that cannot be reached: the block fails, nothing is
    deleted, nothing is stored. *)
Example block_unreachable :
  let out := TemplateManager.block_user "1001"
               (FakeDevice.world Scenario.unreachable, Scenario.empty_vault) in
  out.1 = Ret false
  ∧ calls out.2.1 = [GetUsers]
  ∧ FakeDevice.users (dev out.2.1) = [Scenario.ana; Scenario.luis]
  ∧ out.2.2 = Scenario.empty_vault.
Proof. vm_compute. done. Qed.

(** A reachable terminal: backup, then lookup, then delete. *)
Example block_enrolled :
  let out := TemplateManager.block_user "1001"
               (FakeDevice.world Scenario.enrolled, Scenario.empty_vault) in
  out.1 = Ret true
  ∧ calls out.2.1 = [GetUsers; GetTemplates; GetUsers; DeleteUser 7]
  ∧ dev out.2.1 = Scenario.without_ana
  ∧ TemplateManager.templates_db out.2.2 !! "1001" = Some Scenario.ana_snapshot.
Proof. vm_compute. done. Qed.

(** [float(n)] for whole numbers: exact below 2^53, rounded to even
    above, and an error from 2^1024 - 2^970 on. *)
Example float_of_int_exact : Float.of_int 7200 = Ret 7200.
Proof. reflexivity. Qed.

Example float_of_int_rounds :
  Float.of_int (2 ^ 53 + 1) = Ret (2 ^ 53)
  ∧ Float.of_int (2 ^ 53 + 3) = Ret (2 ^ 53 + 4)
  ∧ Float.of_int (- (2 ^ 53 + 3)) = Ret (- (2 ^ 53 + 4)).
Proof. vm_compute. done. Qed.

Example float_of_int_overflow :
  Float.of_int (10 ^ 400) = Raise OverflowError
  ∧ Float.of_int (2 ^ 1024 - 2 ^ 970) = Raise OverflowError
  ∧ Float.of_int (2 ^ 1024 - 2 ^ 970 - 1) = Ret (2 ^ 1024 - 2 ^ 971).
Proof. vm_compute. done. Qed.

(** A lifetime too large for a float: the login answers [False] with
    the new token under the old expiration. *)
Example login_overflow :
  let body := GymforceAPI.mk_login_body (Some (VStr "t0k3n")) (Ret (10 ^ 400)) in
  let service (before : list GymforceAPI.request) :=
    Ret (GymforceAPI.mk_response 200 (Ret body)) in
  GymforceAPI.login service Scenario.time_time (Scenario.offline, GymforceAPI.new)
  = (Ret false,
     (GymforceAPI.mk_net [GymforceAPI.Login GymforceAPI.EMAIL GymforceAPI.PASSWORD] 1,
      GymforceAPI.mk (Some (VStr "t0k3n")) 0)).
Proof. vm_compute. reflexivity. Qed.

(** A service that answers 401 to every query, with two nested calls
    left on the stack: the last login runs out of stack and the method
    returns [None]. *)
Example validar_acceso_out_of_stack :
  let out := GymforceAPI.validar_acceso Scenario.login_always Scenario.always_401
               Scenario.time_time Scenario.exn_str 2 "1001" 1
               (Scenario.offline, GymforceAPI.new) in
  out.1 = Ret None
  ∧ length (GymforceAPI.posts out.2.1) = 6%nat.
Proof. vm_compute. done. Qed.

(** A row without a user id stops the update loop: nothing is changed. *)
Example update_first_key_error :
  ZKListener.update_first "1001" "2024-03-11 09:00:00" "allowed" (VStr "")
    [ {[ "timestamp" := VStr "2024-03-11 09:00:00" ]};
      ZKListener.record_data "1001" "2024-03-11 09:00:00" ]
  = Raise (KeyError "user_id").
Proof. vm_compute. reflexivity. Qed.

End Checks.
